(** * query_korean_school: the NEIS school-schedule tool

    A shallow embedding of [src/query_korean_school/tool.py] and the
    properties of its date normalizer, school-level detector, resolver,
    schedule fetcher, timetable aggregator and tool facade.

    Conventions of the embedding.
    - A Python [str] is a list of Unicode code points ([pystr]); string
      literals are written in UTF-8 and decoded by [py].
    - A Python [int] is a [Z]; [len] results are [nat].
    - The parsed JSON payload of an HTTP response is a [json] value.
    - A Python exception is a value of [exn] (its class and its [str()]);
      code that may raise returns [res]. *)

From Stdlib Require Import ZArith List String Ascii Bool Lia ZifyBool DecimalString.
Import ListNotations.
Local Open Scope Z_scope.

(** ** Python strings *)

Module PyStr.

Definition char := Z.
Definition pystr := list char.

Definition bytes_of (s : string) : list Z :=
  map (fun a => Z.of_N (N_of_ascii a)) (list_ascii_of_string s).

(** UTF-8 decoding of a source literal into code points. *)
Fixpoint utf8_decode (bs : list Z) : pystr :=
  match bs with
  | [] => []
  | b1 :: t1 =>
    if b1 <? 128 then b1 :: utf8_decode t1
    else if b1 <? 224 then
      match t1 with
      | b2 :: t2 => ((b1 - 192) * 64 + (b2 - 128)) :: utf8_decode t2
      | [] => []
      end
    else if b1 <? 240 then
      match t1 with
      | b2 :: b3 :: t3 =>
          ((b1 - 224) * 4096 + (b2 - 128) * 64 + (b3 - 128)) :: utf8_decode t3
      | _ => []
      end
    else
      match t1 with
      | b2 :: b3 :: b4 :: t4 =>
          ((b1 - 240) * 262144 + (b2 - 128) * 4096 + (b3 - 128) * 64 + (b4 - 128))
            :: utf8_decode t4
      | _ => []
      end
  end.

Definition py (s : string) : pystr := utf8_decode (bytes_of s).

Definition char_eqb (a b : char) : bool := a =? b.

Fixpoint str_eqb (a b : pystr) : bool :=
  match a, b with
  | [], [] => true
  | x :: a', y :: b' => char_eqb x y && str_eqb a' b'
  | _, _ => false
  end.

(** [str.isspace] of one character: the code points whose bidirectional
    class is WS, B or S, or whose category is Zs. *)
Definition is_space (c : char) : bool :=
  ((9 <=? c) && (c <=? 13)) || ((28 <=? c) && (c <=? 32))
  || (c =? 133) || (c =? 160) || (c =? 5760)
  || ((8192 <=? c) && (c <=? 8202))
  || (c =? 8232) || (c =? 8233) || (c =? 8239) || (c =? 8287) || (c =? 12288).

(** Decimal digits. The interpreter's table of Unicode decimal digits
    (category Nd) is not part of the repository; the model keeps its ASCII
    rows ['0'..'9'], which is what every date format of the tool is written
    in. Digits of other scripts are outside the model. *)
Definition is_decimal (c : char) : bool := (48 <=? c) && (c <=? 57).

Definition in_range (lo hi c : char) : bool := (lo <=? c) && (c <=? hi).

(** [s.isdigit()]: non-empty and every character a digit. *)
Definition isdigit (s : pystr) : bool :=
  match s with
  | [] => false
  | _ => forallb is_decimal s
  end.

Fixpoint lstrip (s : pystr) : pystr :=
  match s with
  | c :: t => if is_space c then lstrip t else s
  | [] => []
  end.

Definition rstrip (s : pystr) : pystr := rev (lstrip (rev s)).

(** [s.strip()] *)
Definition strip (s : pystr) : pystr := rstrip (lstrip s).

Fixpoint starts_with (p s : pystr) : bool :=
  match p, s with
  | [], _ => true
  | x :: p', y :: s' => char_eqb x y && starts_with p' s'
  | _ :: _, [] => false
  end.

(** [p in s] on strings: substring search. *)
Fixpoint contains (p s : pystr) : bool :=
  starts_with p s ||
  match s with
  | [] => false
  | _ :: t => contains p t
  end.

(** [int(s)] for a string of decimal digits, surrounding blanks allowed. *)
Definition digit_value (c : char) : Z := c - 48.

Definition int_of_digits (s : pystr) : Z :=
  fold_left (fun acc c => acc * 10 + digit_value c) s 0.

Definition py_int (s : pystr) : Z := int_of_digits (strip s).

(** [str.upper] restricted to what the tool compares it with: the ASCII
    letters are raised, every other character is kept. A character outside
    ASCII never upper-cases to the letter Y, so the comparison of the
    result with ["Y"] is the one Python makes. *)
Definition upper_char (c : char) : char :=
  if in_range 97 122 c then c - 32 else c.

Definition upper (s : pystr) : pystr := map upper_char s.

(** Decimal rendering, zero padded. *)
Definition digit_char (d : Z) : char := 48 + d.

Definition pad2 (n : Z) : pystr :=
  [digit_char (n / 10 mod 10); digit_char (n mod 10)].

Definition pad4 (n : Z) : pystr :=
  [digit_char (n / 1000 mod 10); digit_char (n / 100 mod 10);
   digit_char (n / 10 mod 10); digit_char (n mod 10)].

(** [str(n)] for a non-negative integer below 100. *)
Definition str_small (n : Z) : pystr :=
  if n <? 10 then [digit_char n] else pad2 n.

End PyStr.
Import PyStr.

(** ** Exceptions and results *)

Inductive exn_class :=
  | ValueError | AttributeError | IndexError | KeyError | TypeError
  | RequestException.

(** An exception: its class and its [str()]. *)
Record exn := Exn { exn_cls : exn_class; exn_str : pystr }.

Inductive res (A : Type) :=
  | Ok (a : A)
  | Raise (e : exn).
Arguments Ok {A} a.
Arguments Raise {A} e.

Definition bind {A B} (r : res A) (f : A -> res B) : res B :=
  match r with
  | Ok a => f a
  | Raise e => Raise e
  end.

Notation "x <- r ;; k" := (bind r (fun x => k))
  (at level 61, r at next level, right associativity).

(** ** Regular expressions, as the [re] module runs them

    The patterns of the tool are concatenations of groups of alternatives
    over fixed-width character-class sequences and of greedy blank runs.
    Matching is by backtracking: the alternatives of a group are tried in
    the order written, a blank run gives back one blank at a time, and the
    first path that matches the whole pattern wins. *)

Module Re.

Inductive cclass :=
  | CDigit                      (* \d *)
  | CRange (lo hi : char)       (* [lo-hi] *)
  | CChar (c : char)            (* a literal character *)
  | CCharI (c : char).          (* a literal character under IGNORECASE *)

Definition lower_char (c : char) : char :=
  if in_range 65 90 c then c + 32 else c.

Definition class_matches (cl : cclass) (c : char) : bool :=
  match cl with
  | CDigit => is_decimal c
  | CRange lo hi => in_range lo hi c
  | CChar x => char_eqb x c
  | CCharI x => char_eqb (lower_char x) (lower_char c)
  end.

(** A fixed sequence of classes against the head of [s]: the matched text
    and what follows it. *)
Fixpoint match_seq (p : list cclass) (s : pystr) : option (pystr * pystr) :=
  match p with
  | [] => Some ([], s)
  | cl :: p' =>
    match s with
    | c :: t =>
      if class_matches cl c then
        match match_seq p' t with
        | Some (m, r) => Some (c :: m, r)
        | None => None
        end
      else None
    | [] => None
    end
  end.

Inductive item :=
  | Group (name : option char) (alts : list (list cclass))
  | Blanks (at_least_one : bool).   (* \s+ when true, \s* when false *)

(** All ways to split off a run of blanks, longest first. *)
Fixpoint blank_splits (s : pystr) : list (pystr * pystr) :=
  match s with
  | c :: t =>
    if is_space c
    then map (fun mr => (c :: fst mr, snd mr)) (blank_splits t) ++ [([], s)]
    else [([], s)]
  | [] => [([], [])]
  end.

Definition nonempty (s : pystr) : bool :=
  match s with [] => false | _ => true end.

(** The candidate matches of one item at the head of [s], in the order the
    engine tries them. *)
Definition candidates (it : item) (s : pystr) : list (pystr * pystr) :=
  match it with
  | Group _ alts =>
      flat_map (fun alt => match match_seq alt s with
                           | Some mr => [mr]
                           | None => []
                           end) alts
  | Blanks true => filter (fun mr => nonempty (fst mr)) (blank_splits s)
  | Blanks false => blank_splits s
  end.

Definition captures := list (char * pystr).

Definition add_capture (it : item) (m : pystr) (caps : captures) : captures :=
  match it with
  | Group (Some n) _ => (n, m) :: caps
  | _ => caps
  end.

Fixpoint first_some {A B} (f : A -> option B) (l : list A) : option B :=
  match l with
  | [] => None
  | a :: l' =>
    match f a with
    | Some b => Some b
    | None => first_some f l'
    end
  end.

(** [re.match]: the captures of the first matching path and the text left
    after the match. *)
Fixpoint match_items (its : list item) (s : pystr) : option (captures * pystr) :=
  match its with
  | [] => Some ([], s)
  | it :: rest =>
    first_some
      (fun mr => match match_items rest (snd mr) with
                 | Some (caps, r) => Some (add_capture it (fst mr) caps, r)
                 | None => None
                 end)
      (candidates it s)
  end.

(** [re.search]: the leftmost position where the pattern matches. *)
Fixpoint search (its : list item) (s : pystr) : option captures :=
  match match_items its s with
  | Some (caps, _) => Some caps
  | None =>
    match s with
    | [] => None
    | _ :: t => search its t
    end
  end.

Fixpoint group (caps : captures) (n : char) : option pystr :=
  match caps with
  | [] => None
  | (k, v) :: caps' => if char_eqb k n then Some v else group caps' n
  end.

Definition lit (c : char) : item := Group None [[CChar c]].

End Re.

(** ** The [datetime] library *)

Module Datetime.

Import Re.

Record datetime := Datetime {
  year : Z; month : Z; day : Z; hour : Z; minute : Z; second : Z }.

Definition is_leap (y : Z) : bool :=
  ((y mod 4 =? 0) && negb (y mod 100 =? 0)) || (y mod 400 =? 0).

Definition days_in_month (y m : Z) : Z :=
  if m =? 2 then (if is_leap y then 29 else 28)
  else if (m =? 4) || (m =? 6) || (m =? 9) || (m =? 11) then 30
  else 31.

(** [str(n)] of an integer. *)
Definition str_int (n : Z) : pystr :=
  bytes_of (NilZero.string_of_int (Z.to_int n)).

Definition value_error (msg : pystr) : exn := Exn ValueError msg.

(** The constructor [datetime(y, m, d, H, M, S)]: the date fields are
    checked first, then the time fields. *)
Definition make_datetime (y m d H M S : Z) : res datetime :=
  if negb ((1 <=? y) && (y <=? 9999))
  then Raise (value_error (py "year " ++ str_int y ++ py " is out of range"))
  else if negb ((1 <=? m) && (m <=? 12))
  then Raise (value_error (py "month must be in 1..12"))
  else if negb ((1 <=? d) && (d <=? days_in_month y m))
  then Raise (value_error (py "day is out of range for month"))
  else if negb ((0 <=? H) && (H <=? 23))
  then Raise (value_error (py "hour must be in 0..23"))
  else if negb ((0 <=? M) && (M <=? 59))
  then Raise (value_error (py "minute must be in 0..59"))
  else if negb ((0 <=? S) && (S <=? 59))
  then Raise (value_error (py "second must be in 0..59"))
  else Ok (Datetime y m d H M S).

(** [d.strftime("%Y%m%d")]. The year is written on four digits, as the
    library documents [%Y] (0001, ..., 9999); a C library that leaves years
    below 1000 unpadded is outside the model. *)
Definition strftime_Ymd (d : datetime) : pystr :=
  pad4 (year d) ++ pad2 (month d) ++ pad2 (day d).

(** The regular expression of a [strptime] directive ([_strptime.TimeRE]). *)
Definition directive (c : char) : option (list (list cclass)) :=
  if c =? 89 (* Y *) then Some [[CDigit; CDigit; CDigit; CDigit]]
  else if c =? 109 (* m *) then
    Some [[CChar 49; CRange 48 50]; [CChar 48; CRange 49 57]; [CRange 49 57]]
  else if c =? 100 (* d *) then
    Some [[CChar 51; CRange 48 49]; [CRange 49 50; CDigit];
          [CChar 48; CRange 49 57]; [CRange 49 57]; [CChar 32; CRange 49 57]]
  else if c =? 72 (* H *) then
    Some [[CChar 50; CRange 48 51]; [CRange 48 49; CDigit]; [CDigit]]
  else if c =? 77 (* M *) then
    Some [[CRange 48 53; CDigit]; [CDigit]]
  else if c =? 83 (* S *) then
    Some [[CChar 54; CRange 48 49]; [CRange 48 53; CDigit]; [CDigit]]
  else None.

(** [TimeRE.pattern]: a directive becomes its named group, a run of blanks
    becomes [\s+], any other character stands for itself; the pattern is
    compiled with IGNORECASE. [after_blank] tells that the character before
    was a blank, whose run is already translated. *)
Fixpoint pattern (after_blank : bool) (fmt : pystr) : option (list item) :=
  match fmt with
  | [] => Some []
  | c :: t =>
    if c =? 37 (* % *) then
      match t with
      | dc :: t' =>
        match directive dc, pattern false t' with
        | Some alts, Some its => Some (Group (Some dc) alts :: its)
        | _, _ => None
        end
      | [] => None
      end
    else if is_space c then
      match pattern true t with
      | Some its => Some (if after_blank then its else Blanks true :: its)
      | None => None
      end
    else
      match pattern false t with
      | Some its => Some (Group None [[CCharI c]] :: its)
      | None => None
      end
  end.

Definition field (caps : captures) (n : char) (default : Z) : Z :=
  match group caps n with
  | Some v => py_int v
  | None => default
  end.

(** [repr] of a string that holds no quote, backslash or unprintable
    character. *)
Definition repr (s : pystr) : pystr := py "'" ++ s ++ py "'".

(** [_strptime] once the format is compiled to [re]: match, refuse
    trailing text, convert the groups, build the [datetime]. *)
Definition strptime_with (re : list item) (data fmt : pystr) : res datetime :=
  match match_items re data with
  | None =>
      Raise (value_error (py "time data " ++ repr data
                            ++ py " does not match format " ++ repr fmt))
  | Some (caps, rest) =>
    if nonempty rest
    then Raise (value_error (py "unconverted data remains: " ++ rest))
    else make_datetime (field caps 89 1900) (field caps 109 1) (field caps 100 1)
                       (field caps 72 0) (field caps 77 0) (field caps 83 0)
  end.

(** [datetime.strptime(data, fmt)] *)
Definition strptime (data fmt : pystr) : res datetime :=
  match pattern false fmt with
  | None => Raise (value_error (py "bad directive in format " ++ repr fmt))
  | Some re => strptime_with re data fmt
  end.

End Datetime.
Import Datetime.

(** ** The date normalizer *)

(** [for fmt in fmts: try: d = strptime(s, fmt); return d.strftime(...)
     except ValueError: pass]; [None] when the loop falls through. *)
Fixpoint try_formats (s : pystr) (fmts : list pystr) : option pystr :=
  match fmts with
  | [] => None
  | fmt :: fmts' =>
    match strptime s fmt with
    | Ok d => Some (strftime_Ymd d)
    | Raise _ => try_formats s fmts'
    end
  end.

Definition date_formats : list pystr :=
  [py "%Y-%m-%d"; py "%Y/%m/%d"; py "%Y.%m.%d"].

Definition datetime_formats : list pystr :=
  [py "%Y-%m-%d %H:%M"; py "%Y-%m-%d %H:%M:%S";
   py "%Y/%m/%d %H:%M"; py "%Y/%m/%d %H:%M:%S";
   py "%Y.%m.%d %H:%M"; py "%Y.%m.%d %H:%M:%S";
   py "%Y-%m-%dT%H:%M"; py "%Y-%m-%dT%H:%M:%S"].

(** [(\d{4})\s*년\s*(\d{1,2})\s*월\s*(\d{1,2})\s*일] *)
Definition korean_pattern : list Re.item :=
  [Re.Group (Some 1) [[Re.CDigit; Re.CDigit; Re.CDigit; Re.CDigit]];
   Re.Blanks false; Re.lit 45380; Re.Blanks false;
   Re.Group (Some 2) [[Re.CDigit; Re.CDigit]; [Re.CDigit]];
   Re.Blanks false; Re.lit 50900; Re.Blanks false;
   Re.Group (Some 3) [[Re.CDigit; Re.CDigit]; [Re.CDigit]];
   Re.Blanks false; Re.lit 51068].

Definition group_int (caps : Re.captures) (n : char) : Z :=
  match Re.group caps n with
  | Some v => py_int v
  | None => 0
  end.

Definition _to_yyyymmdd (date_str : pystr) : res pystr :=
  let s := strip date_str in
  if negb (Re.nonempty s) then
    Raise (value_error (py "빈 날짜 문자열입니다."))
  else if isdigit s && (List.length s =? 8)%nat then
    _ <- strptime s (py "%Y%m%d") ;;
    Ok s
  else
    match try_formats s date_formats with
    | Some r => Ok r
    | None =>
    match try_formats s datetime_formats with
    | Some r => Ok r
    | None =>
    match Re.search korean_pattern s with
    | Some caps =>
        d <- make_datetime (group_int caps 1) (group_int caps 2) (group_int caps 3)
                           0 0 0 ;;
        Ok (strftime_Ymd d)
    | None =>
      let digits := filter is_decimal s in
      let fallback :=
        if (8 <=? List.length digits)%nat then
          let candidate := firstn 8 digits in
          match strptime candidate (py "%Y%m%d") with
          | Ok _ => Some candidate
          | Raise _ => None
          end
        else None in
      match fallback with
      | Some r => Ok r
      | None =>
          Raise (value_error (py "지원하지 않는 날짜 형식입니다: " ++ date_str))
      end
    end
    end
    end.

(** ** The school-level detector *)

Definition elementary : pystr := py "초등학교".
Definition middle : pystr := py "중학교".
Definition high : pystr := py "고등학교".

Definition _detect_school_level (school_name : pystr) : option pystr :=
  let name := strip school_name in
  if contains elementary name then Some elementary
  else if contains middle name then Some middle
  else if contains high name then Some high
  else None.

(** ** JSON payloads and the operations the tool applies to them *)

#[local] Set Warnings "-register-all".

Inductive json :=
  | JNull
  | JBool (b : bool)
  | JInt (n : Z)
  | JFloat (mantissa exponent : Z)
  | JStr (s : pystr)
  | JList (l : list json)
  | JDict (kv : list (pystr * json)).

Definition type_name (v : json) : pystr :=
  match v with
  | JNull => py "NoneType"
  | JBool _ => py "bool"
  | JInt _ => py "int"
  | JFloat _ _ => py "float"
  | JStr _ => py "str"
  | JList _ => py "list"
  | JDict _ => py "dict"
  end.

Fixpoint lookup (kv : list (pystr * json)) (key : pystr) : option json :=
  match kv with
  | [] => None
  | (k, v) :: kv' => if str_eqb k key then Some v else lookup kv' key
  end.

(** [v.get(key, default)] *)
Definition py_get (v : json) (key : pystr) (default : json) : res json :=
  match v with
  | JDict kv =>
    match lookup kv key with
    | Some x => Ok x
    | None => Ok default
    end
  | _ => Raise (Exn AttributeError
                  (py "'" ++ type_name v ++ py "' object has no attribute 'get'"))
  end.

(** [v[-1]] *)
Definition py_last (v : json) : res json :=
  match v with
  | JList l =>
    match rev l with
    | x :: _ => Ok x
    | [] => Raise (Exn IndexError (py "list index out of range"))
    end
  | JStr s =>
    match rev s with
    | c :: _ => Ok (JStr [c])
    | [] => Raise (Exn IndexError (py "string index out of range"))
    end
  | JDict _ => Raise (Exn KeyError (py "-1"))
  | _ => Raise (Exn TypeError
                  (py "'" ++ type_name v ++ py "' object is not subscriptable"))
  end.

(** The elements [for x in v] runs over. *)
Definition py_iter (v : json) : res (list json) :=
  match v with
  | JList l => Ok l
  | JStr s => Ok (map (fun c => JStr [c]) s)
  | JDict kv => Ok (map (fun p => JStr (fst p)) kv)
  | _ => Raise (Exn TypeError
                  (py "'" ++ type_name v ++ py "' object is not iterable"))
  end.

(** [len(v)] *)
Definition py_len (v : json) : res nat :=
  match v with
  | JList l => Ok (List.length l)
  | JStr s => Ok (List.length s)
  | JDict kv => Ok (List.length kv)
  | _ => Raise (Exn TypeError
                  (py "object of type '" ++ type_name v ++ py "' has no len()"))
  end.

(** [str(v).upper() == 'Y']. Only a string has a [str()] of one letter:
    [None], the booleans, the numbers, the lists and the dicts all print
    on two characters or more. *)
Definition flag_is_Y (v : json) : bool :=
  match v with
  | JStr s => str_eqb (upper s) (py "Y")
  | _ => false
  end.

(** [v == t] for a string [t]: only an equal string is equal to it. *)
Definition eq_str (v : json) (t : pystr) : bool :=
  match v with
  | JStr s => str_eqb s t
  | _ => false
  end.

(** [l[i]] on a list. *)
Definition py_index {A} (l : list A) (i : Z) : res A :=
  let n := Z.of_nat (List.length l) in
  let j := if i <? 0 then i + n else i in
  if (0 <=? j) && (j <? n) then
    match nth_error l (Z.to_nat j) with
    | Some x => Ok x
    | None => Raise (Exn IndexError (py "list index out of range"))
    end
  else Raise (Exn IndexError (py "list index out of range")).

(** ** The network

    [requests.get(url, params=params).json()] is an oracle of the
    environment; it may raise. Every call is recorded, so that a run
    yields the list of the requests it made together with its outcome. *)

Record request := Request { url : pystr; params : list (pystr * json) }.

Record Env := {
  SERVICE_KEY : pystr;
  http_get_json : request -> res json }.

Definition traced (A : Type) := (list request * res A)%type.

Definition tret {A} (a : A) : traced A := ([], Ok a).

Definition tbind {A B} (m : traced A) (f : A -> traced B) : traced B :=
  match m with
  | (log, Ok a) => let (log', r) := f a in (log ++ log', r)
  | (log, Raise e) => (log, Raise e)
  end.

Definition tlift {A} (r : res A) : traced A := ([], r).

Definition http (env : Env) (rq : request) : traced json :=
  ([rq], http_get_json env rq).

Notation "x <~ m ;; k" := (tbind m (fun x => k))
  (at level 61, m at next level, right associativity).

(** Statements that update a local object and may raise: the object as it
    is when the exception is raised stays visible to the handler. *)
Definition prog (S A : Type) := S -> (S * res A)%type.

Definition pret {S A} (a : A) : prog S A := fun st => (st, Ok a).

Definition pbind {S A B} (m : prog S A) (f : A -> prog S B) : prog S B :=
  fun st => match m st with
            | (st', Ok a) => f a st'
            | (st', Raise e) => (st', Raise e)
            end.

Definition plift {S A} (r : res A) : prog S A := fun st => (st, r).

Definition modify {S} (f : S -> S) : prog S unit := fun st => (f st, Ok tt).

Notation "x <- m ;;; k" := (pbind m (fun x => k))
  (at level 61, m at next level, right associativity).

(** [for x in xs: body(x)] *)
Fixpoint for_each {S A} (xs : list A) (body : A -> prog S unit) : prog S unit :=
  match xs with
  | [] => pret tt
  | x :: xs' => _ <- body x ;;; for_each xs' body
  end.

Definition URL_SCHOOL_INFO : pystr := py "http://open.neis.go.kr/hub/schoolInfo".
Definition URL_SCHOOL_SCHEDULE : pystr :=
  py "http://open.neis.go.kr/hub/SchoolSchedule".

Definition missing_key_message : json :=
  JStr (py "Missing NEIS service key. Set NEIS_SERVICE_KEY or SERVICE_KEY in environment.").

(** ** The school resolver *)

Module SchoolInfo.

Record t := Make {
  valid : bool;
  message : json;
  school_num : nat;
  school_name : list json;
  school_code : list json;
  org_name : list json;
  org_code : list json }.

Definition init (v : bool) (m : json) : t := Make v m 0 [] [] [] [].

Definition push_school_name (v : json) (rv : t) : t :=
  Make (valid rv) (message rv) (school_num rv) (school_name rv ++ [v])
       (school_code rv) (org_name rv) (org_code rv).

Definition push_school_code (v : json) (rv : t) : t :=
  Make (valid rv) (message rv) (school_num rv) (school_name rv)
       (school_code rv ++ [v]) (org_name rv) (org_code rv).

Definition push_org_name (v : json) (rv : t) : t :=
  Make (valid rv) (message rv) (school_num rv) (school_name rv)
       (school_code rv) (org_name rv ++ [v]) (org_code rv).

Definition push_org_code (v : json) (rv : t) : t :=
  Make (valid rv) (message rv) (school_num rv) (school_name rv)
       (school_code rv) (org_name rv) (org_code rv ++ [v]).

Definition succeed (n : nat) (rv : t) : t :=
  Make true (JStr (py "Success to find")) n
       (school_name rv) (school_code rv) (org_name rv) (org_code rv).

Definition fail (m : json) (rv : t) : t :=
  Make false m (school_num rv)
       (school_name rv) (school_code rv) (org_name rv) (org_code rv).

End SchoolInfo.

Definition school_info_request (env : Env) (name : pystr) : request :=
  Request URL_SCHOOL_INFO
    [(py "KEY", JStr (SERVICE_KEY env)); (py "Type", JStr (py "json"));
     (py "pIndex", JStr (py "1")); (py "pSize", JStr (py "100"));
     (py "SCHUL_NM", JStr name)].

(** The body of the row loop of [get_school_info]. *)
Definition school_info_row (school_info : json) : prog SchoolInfo.t unit :=
  a <- plift (py_get school_info (py "SCHUL_NM") JNull) ;;;
  _ <- modify (SchoolInfo.push_school_name a) ;;;
  b <- plift (py_get school_info (py "SD_SCHUL_CODE") JNull) ;;;
  _ <- modify (SchoolInfo.push_school_code b) ;;;
  c <- plift (py_get school_info (py "ATPT_OFCDC_SC_NM") JNull) ;;;
  _ <- modify (SchoolInfo.push_org_name c) ;;;
  d <- plift (py_get school_info (py "ATPT_OFCDC_SC_CODE") JNull) ;;;
  modify (SchoolInfo.push_org_code d).

(** The body of the [try] of [get_school_info]. *)
Definition school_info_rows (data : json) : prog SchoolInfo.t unit :=
  tables <- plift (py_get data (py "schoolInfo") (JList [])) ;;;
  last <- plift (py_last tables) ;;;
  school_info_list <- plift (py_get last (py "row") (JList [])) ;;;
  rows <- plift (py_iter school_info_list) ;;;
  _ <- for_each rows school_info_row ;;;
  n <- plift (py_len school_info_list) ;;;
  modify (SchoolInfo.succeed n).

Definition get_school_info (env : Env) (school_name : pystr)
  : traced SchoolInfo.t :=
  if negb (Re.nonempty (SERVICE_KEY env)) then
    tret (SchoolInfo.init false missing_key_message)
  else
    let result_value := SchoolInfo.init false (JStr (py "Initialized")) in
    data <~ http env (school_info_request env school_name) ;;
    result <~ tlift (py_get data (py "RESULT") (JDict [])) ;;
    return_code <~ tlift (py_get result (py "CODE") JNull) ;;
    match return_code with
    | JNull =>
      match school_info_rows data result_value with
      | (rv, Ok _) => tret rv
      | (rv, Raise e) =>
          tret (SchoolInfo.init false
                  (JStr (py "Error parsing school info: " ++ exn_str e)))
      end
    | _ =>
      result' <~ tlift (py_get data (py "RESULT") (JDict [])) ;;
      return_message <~ tlift (py_get result' (py "MESSAGE") JNull) ;;
      tret (SchoolInfo.fail return_message result_value)
    end.

(** ** The schedule fetcher *)

Module Schedule.

Record t := Make {
  valid : bool;
  message : json;
  schedule_num : nat;
  event_date : list json;
  event_name : list json;
  event_type : list json;
  event_content : list json;
  valid_grade : list (list bool) }.

Definition init (v : bool) (m : json) : t :=
  Make v m 0 [] [] [] [] (repeat [] 6).

Definition set_status (v : bool) (m : json) (n : nat) (rv : t) : t :=
  Make v m n (event_date rv) (event_name rv) (event_type rv)
       (event_content rv) (valid_grade rv).

(** [l[g].append(b)] on the list of flag lists. *)
Fixpoint append_at (g : nat) (b : bool) (l : list (list bool)) : list (list bool) :=
  match l, g with
  | [], _ => []
  | x :: l', O => (x ++ [b]) :: l'
  | x :: l', S g' => x :: append_at g' b l'
  end.

Definition push_date (v : json) (rv : t) : t :=
  Make (valid rv) (message rv) (schedule_num rv) (event_date rv ++ [v])
       (event_name rv) (event_type rv) (event_content rv) (valid_grade rv).

Definition push_name (v : json) (rv : t) : t :=
  Make (valid rv) (message rv) (schedule_num rv) (event_date rv)
       (event_name rv ++ [v]) (event_type rv) (event_content rv) (valid_grade rv).

Definition push_type (v : json) (rv : t) : t :=
  Make (valid rv) (message rv) (schedule_num rv) (event_date rv)
       (event_name rv) (event_type rv ++ [v]) (event_content rv) (valid_grade rv).

Definition push_content (v : json) (rv : t) : t :=
  Make (valid rv) (message rv) (schedule_num rv) (event_date rv)
       (event_name rv) (event_type rv) (event_content rv ++ [v]) (valid_grade rv).

Definition push_grade (g : nat) (b : bool) (rv : t) : t :=
  Make (valid rv) (message rv) (schedule_num rv) (event_date rv)
       (event_name rv) (event_type rv) (event_content rv)
       (append_at g b (valid_grade rv)).

End Schedule.

Definition schedule_request (env : Env) (school_code org_code : json)
    (from_date to_date : pystr) : request :=
  Request URL_SCHOOL_SCHEDULE
    [(py "KEY", JStr (SERVICE_KEY env)); (py "Type", JStr (py "json"));
     (py "pIndex", JStr (py "1")); (py "pSize", JStr (py "100"));
     (py "SD_SCHUL_CODE", school_code); (py "ATPT_OFCDC_SC_CODE", org_code);
     (py "AA_FROM_YMD", JStr from_date); (py "AA_TO_YMD", JStr to_date)].

Definition grade_keys : list pystr :=
  [py "ONE_GRADE_EVENT_YN"; py "TW_GRADE_EVENT_YN"; py "THREE_GRADE_EVENT_YN";
   py "FR_GRADE_EVENT_YN"; py "FIV_GRADE_EVENT_YN"; py "SIX_GRADE_EVENT_YN"].

(** One statement [valid_grade[g].append(str(schedule.get(key, '')).upper() == 'Y')]. *)
Definition append_flag (schedule : json) (g : nat) (key : pystr)
  : prog Schedule.t unit :=
  v <- plift (py_get schedule key (JStr [])) ;;;
  modify (Schedule.push_grade g (flag_is_Y v)).

(** The body of the row loop of [get_school_schedule]. *)
Definition schedule_row (schedule : json) : prog Schedule.t unit :=
  a <- plift (py_get schedule (py "AA_YMD") JNull) ;;;
  _ <- modify (Schedule.push_date a) ;;;
  b <- plift (py_get schedule (py "EVENT_NM") JNull) ;;;
  _ <- modify (Schedule.push_name b) ;;;
  c <- plift (py_get schedule (py "SBTR_DD_SC_NM") JNull) ;;;
  _ <- modify (Schedule.push_type c) ;;;
  d <- plift (py_get schedule (py "EVENT_CNTNT") JNull) ;;;
  _ <- modify (Schedule.push_content d) ;;;
  _ <- append_flag schedule 0 (py "ONE_GRADE_EVENT_YN") ;;;
  _ <- append_flag schedule 1 (py "TW_GRADE_EVENT_YN") ;;;
  _ <- append_flag schedule 2 (py "THREE_GRADE_EVENT_YN") ;;;
  _ <- append_flag schedule 3 (py "FR_GRADE_EVENT_YN") ;;;
  _ <- append_flag schedule 4 (py "FIV_GRADE_EVENT_YN") ;;;
  append_flag schedule 5 (py "SIX_GRADE_EVENT_YN").

(** The body of the [try] of [get_school_schedule]. *)
Definition schedule_rows (data : json) : prog Schedule.t unit :=
  tables <- plift (py_get data (py "SchoolSchedule") (JList [])) ;;;
  last <- plift (py_last tables) ;;;
  schedule_list <- plift (py_get last (py "row") (JList [])) ;;;
  rows <- plift (py_iter schedule_list) ;;;
  _ <- for_each rows schedule_row ;;;
  n <- plift (py_len schedule_list) ;;;
  modify (Schedule.set_status true (JStr (py "Success to find")) n).

Definition get_school_schedule (env : Env) (school_code org_code : json)
    (from_date to_date : pystr) : traced Schedule.t :=
  if negb (Re.nonempty (SERVICE_KEY env)) then
    tret (Schedule.init false missing_key_message)
  else
    let result_value := Schedule.init false (JStr (py "Initialized")) in
    data <~ http env (schedule_request env school_code org_code from_date to_date) ;;
    result <~ tlift (py_get data (py "RESULT") (JDict [])) ;;
    return_code <~ tlift (py_get result (py "CODE") JNull) ;;
    match return_code with
    | JNull =>
      match schedule_rows data result_value with
      | (rv, Ok _) => tret rv
      | (rv, Raise e) =>
          tret (Schedule.set_status false
                  (JStr (py "Error parsing school schedule: " ++ exn_str e)) 0 rv)
      end
    | _ =>
      result' <~ tlift (py_get data (py "RESULT") (JDict [])) ;;
      return_message <~ tlift (py_get result' (py "MESSAGE") JNull) ;;
      tret (Schedule.set_status false return_message 0 result_value)
    end.

(** ** The timetable aggregator *)

Module Event.

Record t := Make {
  school_name : json;
  event_date : json;
  event_name : json;
  event_type : json;
  event_content : json;
  grade : Z }.

End Event.

(** [[max(0, min(5, g-1)) for g in grade]] *)
Definition target_grade (grade : list Z) : list Z :=
  map (fun g => Z.max 0 (Z.min 5 (g - 1))) grade.

(** The body of the loop over [sch_idx], for one grade index [g]. *)
Definition emit_event (school_info : SchoolInfo.t) (idx : nat)
    (schedule_info : Schedule.t) (g : Z) (sch_idx : nat)
  : prog (list Event.t) unit :=
  flags <- plift (py_index (Schedule.valid_grade schedule_info) g) ;;;
  flag <- plift (py_index flags (Z.of_nat sch_idx)) ;;;
  if flag : bool then
    name <- plift (py_index (SchoolInfo.school_name school_info) (Z.of_nat idx)) ;;;
    date <- plift (py_index (Schedule.event_date schedule_info) (Z.of_nat sch_idx)) ;;;
    ename <- plift (py_index (Schedule.event_name schedule_info) (Z.of_nat sch_idx)) ;;;
    etype <- plift (py_index (Schedule.event_type schedule_info) (Z.of_nat sch_idx)) ;;;
    content <- plift (py_index (Schedule.event_content schedule_info) (Z.of_nat sch_idx)) ;;;
    modify (fun result_value =>
              result_value ++ [Event.Make name date ename etype content (g + 1)])
  else pret tt.

(** The two nested loops that flatten one schedule. *)
Definition emit_events (school_info : SchoolInfo.t) (idx : nat)
    (schedule_info : Schedule.t) (grades : list Z) : prog (list Event.t) unit :=
  for_each grades (fun g =>
    for_each (seq 0 (Schedule.schedule_num schedule_info))
             (emit_event school_info idx schedule_info g)).

(** [target_org is None or org_name[idx] == target_org] *)
Definition org_accepted (target_org : option pystr) (school_info : SchoolInfo.t)
    (idx : nat) : res bool :=
  match target_org with
  | None => Ok true
  | Some t =>
      name <- py_index (SchoolInfo.org_name school_info) (Z.of_nat idx) ;;
      Ok (eq_str name t)
  end.

(** The loop over the matches: the first accepted one is processed and the
    loop is left by [break]. *)
Fixpoint match_loop (env : Env) (school_info : SchoolInfo.t)
    (from_date to_date : pystr) (grades : list Z) (target_org : option pystr)
    (indices : list nat) (result_value : list Event.t) : traced (list Event.t) :=
  match indices with
  | [] => tret result_value
  | idx :: indices' =>
    accepted <~ tlift (org_accepted target_org school_info idx) ;;
    if accepted : bool then
      school_code <~ tlift (py_index (SchoolInfo.school_code school_info) (Z.of_nat idx)) ;;
      org_code <~ tlift (py_index (SchoolInfo.org_code school_info) (Z.of_nat idx)) ;;
      schedule_info <~ get_school_schedule env school_code org_code from_date to_date ;;
      if Schedule.valid schedule_info && (0 <? Schedule.schedule_num schedule_info)%nat
      then
        match emit_events school_info idx schedule_info grades result_value with
        | (result_value', Ok _) => tret result_value'
        | (_, Raise e) => tlift (Raise e)
        end
      else tret result_value
    else
      match_loop env school_info from_date to_date grades target_org indices'
                 result_value
  end.

Definition get_school_timetable (env : Env) (school_name from_date to_date : pystr)
    (grade : list Z) (target_org : option pystr) : traced (list Event.t) :=
  let result_value := [] in
  let grades := target_grade grade in
  school_info <~ get_school_info env school_name ;;
  if SchoolInfo.valid school_info && (0 <? SchoolInfo.school_num school_info)%nat
  then match_loop env school_info from_date to_date grades target_org
                  (seq 0 (SchoolInfo.school_num school_info)) result_value
  else tret result_value.

(** ** The tool facade *)

Module QueryKoreanSchoolTool.

(** What [_run] returns: the flat list of the aggregator, or the error
    dict [{"valid": ..., "message": ..., "schedules": ...}]. *)
Inductive result :=
  | Schedules (events : list Event.t)
  | ErrorDict (valid : bool) (message : pystr) (schedules : list Event.t).

(** The grades [_run] hands to the aggregator. *)
Definition grades_of (school_name : pystr) (grade : option (list Z)) : list Z :=
  match grade with
  | None =>
    let level := _detect_school_level school_name in
    match level with
    | Some l => if str_eqb l elementary then [1; 2; 3; 4; 5; 6] else [1; 2; 3]
    | None => [1; 2; 3]
    end
  | Some g => g
  end.

Definition _run (env : Env) (school_name from_date to_date : pystr)
    (grade : option (list Z)) (target_org : option pystr) : traced result :=
  let grades := grades_of school_name grade in
  match (from_norm <- _to_yyyymmdd from_date ;;
         to_norm <- _to_yyyymmdd to_date ;;
         Ok (from_norm, to_norm)) with
  | Raise e =>
      tret (ErrorDict false (py "날짜 형식 오류: " ++ exn_str e) [])
  | Ok (from_norm, to_norm) =>
      events <~ get_school_timetable env school_name from_norm to_norm grades
                                     target_org ;;
      tret (Schedules events)
  end.

End QueryKoreanSchoolTool.

(** ** Notions of the specification *)

(** [clamp(x, lo, hi)] as the specification words it. *)
Definition clamp (x lo hi : Z) : Z :=
  if x <? lo then lo else if hi <? x then hi else x.

(** The name contains the token: it occurs somewhere inside it. *)
Definition has_token (token name : pystr) : Prop :=
  exists before after, name = before ++ token ++ after.

(** A calendar date of the Gregorian calendar, years 1 to 9999. *)
Definition valid_date (y m d : Z) : Prop :=
  1 <= y <= 9999 /\ 1 <= m <= 12 /\ 1 <= d <= days_in_month y m.

(** The canonical 8-digit form of a date. *)
Definition canonical (y m d : Z) : pystr := pad4 y ++ pad2 m ++ pad2 d.

(** The written forms of a date the claim on equivalent representations
    ranges over. Month and day are written on two digits or as short as
    they go; the time of day likewise; blanks are any run of blank
    characters. *)
Inductive separator := Dash | Slash | Dot.

Definition sep_char (sp : separator) : char :=
  match sp with Dash => 45 | Slash => 47 | Dot => 46 end.

Definition number (padded : bool) (n : Z) : pystr :=
  if padded then pad2 n else str_small n.

Record clock := Clock {
  clock_hour : Z; hour_padded : bool;
  clock_minute : Z; minute_padded : bool;
  clock_second : option (Z * bool) }.

Definition clock_text (c : clock) : pystr :=
  number (hour_padded c) (clock_hour c) ++ [58]
  ++ number (minute_padded c) (clock_minute c)
  ++ match clock_second c with
     | Some (s, p) => 58 :: number p s
     | None => []
     end.

Inductive date_form :=
  | Compact
  | Separated (sp : separator) (month_padded day_padded : bool)
  | Timed (sp : separator) (month_padded day_padded : bool)
          (gap : pystr) (time : clock)
  | KoreanLong (month_padded day_padded : bool) (b1 b2 b3 b4 b5 : pystr).

Definition blanks (s : pystr) : Prop := Forall (fun c => is_space c = true) s.

Definition valid_clock (c : clock) : Prop :=
  0 <= clock_hour c <= 23 /\ 0 <= clock_minute c <= 59
  /\ match clock_second c with
     | Some (s, _) => 0 <= s <= 59
     | None => True
     end.

Definition well_formed (f : date_form) : Prop :=
  match f with
  | Compact => True
  | Separated _ _ _ => True
  | Timed _ _ _ gap time => blanks gap /\ gap <> [] /\ valid_clock time
  | KoreanLong _ _ b1 b2 b3 b4 b5 =>
      blanks b1 /\ blanks b2 /\ blanks b3 /\ blanks b4 /\ blanks b5
  end.

Definition date_text (sp : separator) (pm pd : bool) (y m d : Z) : pystr :=
  pad4 y ++ [sep_char sp] ++ number pm m ++ [sep_char sp] ++ number pd d.

(** The text of the date [y]-[m]-[d] in the form [f]. *)
Definition render (f : date_form) (y m d : Z) : pystr :=
  match f with
  | Compact => canonical y m d
  | Separated sp pm pd => date_text sp pm pd y m d
  | Timed sp pm pd gap time => date_text sp pm pd y m d ++ gap ++ clock_text time
  | KoreanLong pm pd b1 b2 b3 b4 b5 =>
      pad4 y ++ b1 ++ [45380] ++ b2 ++ number pm m ++ b3 ++ [50900] ++ b4
      ++ number pd d ++ b5 ++ [51068]
  end.

(** Auxiliary notions of the proofs on the normalizer. *)
Definition head_not_digit (s : pystr) : Prop :=
  match s with [] => True | c :: _ => is_decimal c = false end.

Definition head_not_space (s : pystr) : Prop :=
  match s with [] => True | c :: _ => is_space c = false end.

Definition dir_group (dc : char) : Re.item :=
  match directive dc with
  | Some alts => Re.Group (Some dc) alts
  | None => Re.Group (Some dc) []
  end.

Definition lit_i (c : char) : Re.item := Re.Group None [[Re.CCharI c]].

Definition date_items (sp : separator) : list Re.item :=
  [dir_group 89; lit_i (sep_char sp); dir_group 109; lit_i (sep_char sp);
   dir_group 100].

Definition time_items (with_seconds : bool) : list Re.item :=
  [Re.Blanks true; dir_group 72; lit_i 58; dir_group 77]
  ++ (if with_seconds then [lit_i 58; dir_group 83] else []).

(** The integers from [lo] to [hi]. *)
Definition zrange (lo hi : Z) : list Z :=
  map (fun i => lo + Z.of_nat i) (seq 0 (Z.to_nat (hi - lo + 1))).

(** The class holds decimal digits only. *)
Definition digit_only (cl : Re.cclass) : bool :=
  match cl with
  | Re.CDigit => true
  | Re.CRange lo hi => (48 <=? lo) && (hi <=? 57)
  | Re.CChar x => is_decimal x
  | Re.CCharI _ => false
  end.

(** The alternatives [alts] read the text [s] without looking past it,
    or look past it for digits only. *)
Definition stops_at (alts : list (list Re.cclass)) (s : pystr) : bool :=
  forallb (fun alt => forallb digit_only (skipn (List.length s) alt)) alts.

(** No alternative is longer than [s]. *)
Definition fits_in (alts : list (list Re.cclass)) (s : pystr) : bool :=
  forallb (fun alt => (List.length alt <=? List.length s)%nat) alts.

(** The first candidate of the group on [s] is the whole of [s]. *)
Definition takes_all (alts : list (list Re.cclass)) (s : pystr) : bool :=
  match hd_error (Re.candidates (Re.Group None alts) s) with
  | Some (m, r) => str_eqb m s && negb (Re.nonempty r)
  | None => false
  end.

(** A candidate of a text, in front of the text [rest]. *)
Definition with_rest (rest : pystr) (mr : pystr * pystr) : pystr * pystr :=
  (fst mr, snd mr ++ rest).

(** The formats of [date_formats] and [datetime_formats], by separator. *)
Definition date_format (sp : separator) : pystr :=
  [37; 89; sep_char sp; 37; 109; sep_char sp; 37; 100].

Definition datetime_format (sp : separator) (with_seconds : bool) : pystr :=
  date_format sp ++ [32; 37; 72; 58; 37; 77]
  ++ (if with_seconds then [58; 37; 83] else []).

(** The seconds of a time of day, as written after the minutes. *)
Definition seconds_text (c : clock) : pystr :=
  match clock_second c with
  | Some (s, p) => 58 :: number p s
  | None => []
  end.

(** The three fields an 8-character string is read as. *)
Definition year_of (s : pystr) : Z := int_of_digits (firstn 4 s).
Definition month_of (s : pystr) : Z := int_of_digits (firstn 2 (skipn 4 s)).
Definition day_of (s : pystr) : Z := int_of_digits (skipn 6 s).

(** Normalizing the date fails. *)
Definition fails (date_str : pystr) : Prop :=
  exists e, _to_yyyymmdd date_str = Raise e.

(** The lists of a schedule result are parallel arrays of length [k]. *)
Definition parallel (k : nat) (rv : Schedule.t) : Prop :=
  List.length (Schedule.event_date rv) = k
  /\ List.length (Schedule.event_name rv) = k
  /\ List.length (Schedule.event_type rv) = k
  /\ List.length (Schedule.event_content rv) = k
  /\ List.length (Schedule.valid_grade rv) = 6%nat
  /\ Forall (fun flags => List.length flags = k) (Schedule.valid_grade rv).

(** The lists of a resolver result are parallel arrays of length [k]. *)
Definition aligned (k : nat) (info : SchoolInfo.t) : Prop :=
  List.length (SchoolInfo.school_name info) = k
  /\ List.length (SchoolInfo.school_code info) = k
  /\ List.length (SchoolInfo.org_name info) = k
  /\ List.length (SchoolInfo.org_code info) = k.

(** The match at index [i] passes the organization filter: there is no
    filter, or its organization name is exactly the filter. *)
Definition accepts (target_org : option pystr) (info : SchoolInfo.t) (i : nat)
  : Prop :=
  match target_org with
  | None => True
  | Some t => nth_error (SchoolInfo.org_name info) i = Some (JStr t)
  end.

Definition acceptb (target_org : option pystr) (info : SchoolInfo.t) (i : nat)
  : bool :=
  match target_org with
  | None => true
  | Some t => eq_str (nth i (SchoolInfo.org_name info) JNull) t
  end.

(** A row that is a JSON object, and what [row.get(key, default)] reads
    in it. *)
Definition is_object (v : json) : bool :=
  match v with JDict _ => true | _ => false end.

Definition field_of (key : pystr) (default : json) (row : json) : json :=
  match row with
  | JDict kv => match lookup kv key with Some x => x | None => default end
  | _ => default
  end.

(** What the groups of [%m%d] may do on the four digits [pad2 m ++ pad2 d]:
    not match, leave text unread, or read [m] and [d] and nothing else. *)
Definition compact_tail_ok (m d : Z) : bool :=
  match Re.match_items [dir_group 109; dir_group 100] (pad2 m ++ pad2 d) with
  | None => true
  | Some (caps, rest) =>
      Re.nonempty rest
      || ((field caps 109 1 =? m) && (field caps 100 1 =? d)
          && (field caps 72 0 =? 0) && (field caps 77 0 =? 0)
          && (field caps 83 0 =? 0))
  end.

(** The exception of [v.get] on a value that is no object. *)
Definition attribute_error (v : json) : exn :=
  Exn AttributeError (py "'" ++ type_name v ++ py "' object has no attribute 'get'").

(** The first row that is no object, if any. *)
Definition first_bad_row (rows : list json) : option json :=
  find (fun row => negb (is_object row)) rows.

(** The flags of the grade of index [g] along the rows. *)
Definition flags_of (key : pystr) (rows : list json) : list bool :=
  map (fun row => flag_is_Y (field_of key (JStr []) row)) rows.

(** The tuples of one grade index, in the order of the events, and those
    of a list of grade indices, grade after grade. *)
Definition events_of (name : json) (sched : Schedule.t) (g : Z) : list Event.t :=
  flat_map
    (fun i =>
       if nth i (nth (Z.to_nat g) (Schedule.valid_grade sched) []) false
       then [Event.Make name
               (nth i (Schedule.event_date sched) JNull)
               (nth i (Schedule.event_name sched) JNull)
               (nth i (Schedule.event_type sched) JNull)
               (nth i (Schedule.event_content sched) JNull)
               (g + 1)]
       else [])
    (seq 0 (Schedule.schedule_num sched)).

Definition flattened (name : json) (sched : Schedule.t) (grades : list Z)
  : list Event.t :=
  flat_map (events_of name sched) grades.

(** ** Sample payloads *)

Module Sample.

Definition key : pystr := py "test-key".

Definition event_row : json :=
  JDict [(py "AA_YMD", JStr (py "20251015"));
         (py "EVENT_NM", JStr (py "개교기념일"));
         (py "SBTR_DD_SC_NM", JStr (py "휴업일"));
         (py "EVENT_CNTNT", JNull);
         (py "ONE_GRADE_EVENT_YN", JStr (py "Y"));
         (py "TW_GRADE_EVENT_YN", JStr (py "Y"));
         (py "THREE_GRADE_EVENT_YN", JStr (py "N"));
         (py "FR_GRADE_EVENT_YN", JStr (py "N"));
         (py "FIV_GRADE_EVENT_YN", JStr (py "N"));
         (py "SIX_GRADE_EVENT_YN", JStr (py "N"))].

Definition head : json :=
  JDict [(py "head", JList [JDict [(py "list_total_count", JInt 1)]])].

(** A schedule payload whose second row is [null]. *)
Definition broken_schedule : json :=
  JDict [(py "SchoolSchedule", JList [head; JDict [(py "row", JList [event_row; JNull])]])].

Definition good_schedule : json :=
  JDict [(py "SchoolSchedule", JList [head; JDict [(py "row", JList [event_row])]])].

Definition school_row (code org org_code : string) : json :=
  JDict [(py "SCHUL_NM", JStr (py "은빛초등학교"));
         (py "SD_SCHUL_CODE", JStr (py code));
         (py "ATPT_OFCDC_SC_NM", JStr (py org));
         (py "ATPT_OFCDC_SC_CODE", JStr (py org_code))].

(** Two schools of the same name under two offices. *)
Definition two_schools : json :=
  JDict [(py "schoolInfo",
          JList [head; JDict [(py "row",
            JList [school_row "7010574" "서울특별시교육청" "B10";
                   school_row "7531123" "경기도교육청" "J10"])]])].

(** A school payload that has the [head] table only: no [row]. *)
Definition no_row : json :=
  JDict [(py "schoolInfo", JList [head])].

(** A school payload whose second row is [null]. *)
Definition broken_schools : json :=
  JDict [(py "schoolInfo",
          JList [head; JDict [(py "row",
            JList [school_row "7010574" "서울특별시교육청" "B10"; JNull])]])].

Definition code : json := JStr (py "7010574").
Definition office : json := JStr (py "J10").
Definition school : pystr := py "은빛초등학교".
Definition from_date : pystr := py "20251001".
Definition to_date : pystr := py "20251030".

Definition gyeonggi : pystr := py "경기도교육청".

(** The rows of [two_schools] and the row of [good_schedule]. *)
Definition school_rows : list json :=
  [school_row "7010574" "서울특별시교육청" "B10";
   school_row "7531123" "경기도교육청" "J10"].

Definition schedule_rows : list json := [event_row].

(** An environment without a service key; a request would end the run. *)
Definition no_key : Env :=
  {| SERVICE_KEY := [];
     http_get_json := fun _ => Raise (Exn RequestException (py "unreachable")) |}.

(** A payload that carries the error code of the service. *)
Definition error_result : list (pystr * json) :=
  [(py "CODE", JStr (py "INFO-200"));
   (py "MESSAGE", JStr (py "해당하는 데이터가 없습니다."))].

Definition api_error : json := JDict [(py "RESULT", JDict error_result)].

Definition serve (info schedule : json) : Env :=
  {| SERVICE_KEY := key;
     http_get_json := fun rq =>
       if str_eqb (url rq) URL_SCHOOL_INFO then Ok info else Ok schedule |}.

End Sample.

(** * Properties *)

(** ** Grade clamping (C7) *)

Lemma clamp_max_min (x : Z) : Z.max 0 (Z.min 5 x) = clamp x 0 5.
Proof.
  unfold clamp.
  destruct (x <? 0) eqn:E0; [apply Z.ltb_lt in E0; lia|].
  destruct (5 <? x) eqn:E5; [apply Z.ltb_lt in E5; lia|].
  apply Z.ltb_ge in E0, E5. lia.
Qed.

Lemma target_grade_clamp (grade : list Z) :
  target_grade grade = map (fun g => clamp (g - 1) 0 5) grade.
Proof.
  unfold target_grade. apply map_ext. intro g. apply clamp_max_min.
Qed.

Lemma target_grade_idempotent (grade : list Z) :
  target_grade (map (fun g => clamp (g - 1) 0 5 + 1) grade) = target_grade grade.
Proof.
  unfold target_grade. rewrite map_map. apply map_ext. intro g.
  rewrite <- clamp_max_min. lia.
Qed.


(** ** Date errors at the facade (C9) *)

(** C9: when normalizing [from_date] or [to_date] fails, [_run] returns
    the error dict [{valid: False, message: "날짜 형식 오류: " + str(e),
    schedules: []}] for the exception [e] of the date that failed, and
    makes no request at all: the aggregator is never entered. *)
Theorem C9_date_error_short_circuits :
  forall env school_name from_date to_date grade target_org,
    fails from_date \/ fails to_date ->
    exists e,
      (_to_yyyymmdd from_date = Raise e \/ _to_yyyymmdd to_date = Raise e)
      /\ QueryKoreanSchoolTool._run env school_name from_date to_date grade target_org
         = ([], Ok (QueryKoreanSchoolTool.ErrorDict false
                      (py "날짜 형식 오류: " ++ exn_str e) [])).
Proof.
  intros env name fd td grade org H.
  unfold QueryKoreanSchoolTool._run, fails in *.
  destruct (_to_yyyymmdd fd) as [f|e1] eqn:Ef.
  - destruct H as [[e He]|[e He]]; [discriminate|].
    exists e. rewrite He. simpl. split; [now right|reflexivity].
  - exists e1. simpl. split; [now left|reflexivity].
Qed.

Lemma C9_witness :
  (fails (py "20251332") \/ fails (py "2025-10-30"))
  /\ exists e,
      (_to_yyyymmdd (py "20251332") = Raise e
       \/ _to_yyyymmdd (py "2025-10-30") = Raise e)
      /\ QueryKoreanSchoolTool._run
           (Sample.serve Sample.two_schools Sample.good_schedule)
           Sample.school (py "20251332") (py "2025-10-30") None None
         = ([], Ok (QueryKoreanSchoolTool.ErrorDict false
                      (py "날짜 형식 오류: " ++ exn_str e) [])).
Proof.
  assert (H : fails (py "20251332") \/ fails (py "2025-10-30")).
  { left. eexists. vm_compute. reflexivity. }
  split; [exact H|].
  exact (C9_date_error_short_circuits
           (Sample.serve Sample.two_schools Sample.good_schedule)
           Sample.school (py "20251332") (py "2025-10-30") None None H).
Defined.

(** ** Malformed schedule rows (C1) *)

(** C1, at a payload whose second row is [null]: the fetch returns
    [valid = False] with the diagnostic and [schedule_num = 0], but the
    event lists still hold the first row. *)
Theorem C1_partial_rows_are_kept :
  get_school_schedule (Sample.serve Sample.two_schools Sample.broken_schedule)
    Sample.code Sample.office Sample.from_date Sample.to_date
  = ([schedule_request (Sample.serve Sample.two_schools Sample.broken_schedule)
        Sample.code Sample.office Sample.from_date Sample.to_date],
     Ok (Schedule.Make false
           (JStr (py "Error parsing school schedule: 'NoneType' object has no attribute 'get'"))
           0
           [JStr (py "20251015")] [JStr (py "개교기념일")] [JStr (py "휴업일")] [JNull]
           [[true]; [true]; [false]; [false]; [false]; [false]])).
Proof. vm_compute. reflexivity. Qed.

(** The resolver, on the same kind of payload, does clear its lists. *)
Lemma resolver_discards_partial_rows :
  snd (get_school_info (Sample.serve Sample.broken_schools Sample.good_schedule)
         Sample.school)
  = Ok (SchoolInfo.Make false
          (JStr (py "Error parsing school info: 'NoneType' object has no attribute 'get'"))
          0 [] [] [] []).
Proof. vm_compute. reflexivity. Qed.

(** ** School payloads without rows (C2) *)




(** ** Parallel arrays of the fetcher (C10) *)

Lemma py_get_dict kv key d :
  py_get (JDict kv) key d
  = Ok (match lookup kv key with Some x => x | None => d end).
Proof. unfold py_get. now destruct (lookup kv key). Qed.

Lemma for_each_cons {S A} (x : A) (xs : list A) (body : A -> prog S unit) st :
  for_each (x :: xs) body st
  = match body x st with
    | (st', Ok _) => for_each xs body st'
    | (st', Raise e) => (st', Raise e)
    end.
Proof. reflexivity. Qed.

Lemma py_iter_len v rows :
  py_iter v = Ok rows -> py_len v = Ok (List.length rows).
Proof.
  destruct v; simpl; try discriminate; intro H; inversion H; subst;
    now rewrite ?length_map.
Qed.

Lemma py_index_nth {A} (l : list A) (i : nat) (d : A) :
  (i < List.length l)%nat -> py_index l (Z.of_nat i) = Ok (nth i l d).
Proof.
  intro H. unfold py_index.
  destruct (Z.of_nat i <? 0) eqn:E; [apply Z.ltb_lt in E; lia|].
  replace ((0 <=? Z.of_nat i) && (Z.of_nat i <? Z.of_nat (List.length l))) with true.
  - rewrite Nat2Z.id. destruct (nth_error l i) eqn:En.
    + now rewrite (nth_error_nth _ _ d En).
    + apply nth_error_None in En. lia.
  - symmetry. apply andb_true_iff. split; [apply Z.leb_le|apply Z.ltb_lt]; lia.
Qed.

Lemma schedule_row_parallel row rv rv' u k :
  schedule_row row rv = (rv', Ok u) -> parallel k rv -> parallel (S k) rv'.
Proof.
  intros H P.
  destruct row as [| | | | |l|kv];
    try (cbv [schedule_row pbind plift py_get] in H; discriminate H).
  unfold schedule_row, append_flag, pbind, plift, modify in H.
  rewrite !py_get_dict in H. cbv beta iota in H.
  inversion H; subst; clear H.
  destruct rv as [v m n d0 d1 d2 d3 g]. unfold parallel in *. simpl in *.
  destruct P as (P0 & P1 & P2 & P3 & P4 & P5).
  destruct g as [|g0 [|g1 [|g2 [|g3 [|g4 [|g5 [|? ?]]]]]]]; try discriminate P4.
  simpl. rewrite !length_app. simpl.
  repeat match goal with
         | H : Forall _ (_ :: _) |- _ => inversion H; subst; clear H
         end.
  repeat split; try lia.
  repeat constructor; rewrite length_app; simpl; lia.
Qed.

Lemma schedule_loop_parallel rows :
  forall rv rv' u k,
    for_each rows schedule_row rv = (rv', Ok u) -> parallel k rv ->
    parallel (k + List.length rows) rv'.
Proof.
  induction rows as [|row rows IH]; intros rv rv' u k H P.
  - inversion H; subst. simpl. now rewrite Nat.add_0_r.
  - rewrite for_each_cons in H.
    destruct (schedule_row row rv) as [st' [u'|e]] eqn:Er; [|discriminate H].
    apply (schedule_row_parallel _ _ _ _ k) in Er; [|exact P].
    apply (IH _ _ _ _ H) in Er. simpl.
    now replace (k + S (List.length rows))%nat with (S k + List.length rows)%nat by lia.
Qed.

Lemma schedule_rows_parallel data rv0 rv u :
  schedule_rows data rv0 = (rv, Ok u) -> parallel 0 rv0 ->
  parallel (Schedule.schedule_num rv) rv /\ Schedule.valid rv = true.
Proof.
  unfold schedule_rows, pbind, plift, modify. intros H P.
  destruct (py_get data (py "SchoolSchedule") (JList [])) as [tables|]; [|discriminate H].
  destruct (py_last tables) as [last|]; [|discriminate H].
  destruct (py_get last (py "row") (JList [])) as [schedule_list|]; [|discriminate H].
  destruct (py_iter schedule_list) as [rows|] eqn:Ei; [|discriminate H].
  destruct (for_each rows schedule_row rv0) as [rv1 [u1|e]] eqn:El; [|discriminate H].
  rewrite (py_iter_len _ _ Ei) in H. inversion H; subst; clear H.
  apply (schedule_loop_parallel _ _ _ _ 0%nat) in El; [|exact P].
  simpl in *. split; [exact El|reflexivity].
Qed.

Lemma init_parallel v m : parallel 0 (Schedule.init v m).
Proof. unfold parallel. simpl. repeat split. repeat constructor. Qed.

Lemma get_school_schedule_valid env sc oc f t log rv :
  get_school_schedule env sc oc f t = (log, Ok rv) ->
  Schedule.valid rv = true ->
  parallel (Schedule.schedule_num rv) rv.
Proof.
  unfold get_school_schedule. intros H V.
  destruct (negb (Re.nonempty (SERVICE_KEY env))).
  { inversion H; subst. discriminate V. }
  unfold http, tbind, tlift, tret in H.
  destruct (http_get_json env _) as [data|]; [|discriminate H].
  destruct (py_get data (py "RESULT") (JDict [])) as [result|]; [|discriminate H].
  destruct (py_get result (py "CODE") JNull) as [code|]; [|discriminate H].
  destruct code;
    try (rewrite ?py_get_dict in H;
         destruct (py_get result (py "MESSAGE") JNull);
         inversion H; subst; discriminate V).
  destruct (schedule_rows data (Schedule.init false (JStr (py "Initialized"))))
    as [rv1 [u|e]] eqn:Er.
  - inversion H; subst.
    apply schedule_rows_parallel in Er; [tauto|apply init_parallel].
  - inversion H; subst. discriminate V.
Qed.

(** C10: a fetch that returns [valid = True] returns parallel arrays: the
    four event lists and each of the six flag lists have [schedule_num]
    elements, so every lookup of the aggregator, for a grade index in
    [0..5] and an event index below [schedule_num], finds its element. *)
Theorem C10_valid_schedule_is_parallel :
  forall env school_code org_code from_date to_date log rv,
    get_school_schedule env school_code org_code from_date to_date = (log, Ok rv) ->
    Schedule.valid rv = true ->
    parallel (Schedule.schedule_num rv) rv
    /\ forall g sch_idx,
         0 <= g <= 5 -> (sch_idx < Schedule.schedule_num rv)%nat ->
         exists flags flag date name type content,
           py_index (Schedule.valid_grade rv) g = Ok flags
           /\ py_index flags (Z.of_nat sch_idx) = Ok flag
           /\ py_index (Schedule.event_date rv) (Z.of_nat sch_idx) = Ok date
           /\ py_index (Schedule.event_name rv) (Z.of_nat sch_idx) = Ok name
           /\ py_index (Schedule.event_type rv) (Z.of_nat sch_idx) = Ok type
           /\ py_index (Schedule.event_content rv) (Z.of_nat sch_idx) = Ok content.
Proof.
  intros env sc oc f t log rv H V.
  pose proof (get_school_schedule_valid _ _ _ _ _ _ _ H V) as P.
  split; [exact P|].
  intros g i Hg Hi. destruct P as (P0 & P1 & P2 & P3 & P4 & P5).
  assert (Hn : (Z.to_nat g < List.length (Schedule.valid_grade rv))%nat) by lia.
  pose proof (py_index_nth (Schedule.valid_grade rv) (Z.to_nat g) [] Hn) as Hf.
  rewrite Z2Nat.id in Hf by lia.
  assert (Hl : List.length (nth (Z.to_nat g) (Schedule.valid_grade rv) [])
               = Schedule.schedule_num rv).
  { rewrite Forall_forall in P5. apply P5. now apply nth_In. }
  exists (nth (Z.to_nat g) (Schedule.valid_grade rv) []),
         (nth i (nth (Z.to_nat g) (Schedule.valid_grade rv) []) false),
         (nth i (Schedule.event_date rv) JNull),
         (nth i (Schedule.event_name rv) JNull),
         (nth i (Schedule.event_type rv) JNull),
         (nth i (Schedule.event_content rv) JNull).
  repeat split; try exact Hf; apply py_index_nth; lia.
Qed.

Lemma C10_witness :
  parallel 1 (Schedule.Make true (JStr (py "Success to find")) 1
                [JStr (py "20251015")] [JStr (py "개교기념일")]
                [JStr (py "휴업일")] [JNull]
                [[true]; [true]; [false]; [false]; [false]; [false]]).
Proof.
  refine (proj1 (C10_valid_schedule_is_parallel
            (Sample.serve Sample.two_schools Sample.good_schedule)
            Sample.code Sample.office Sample.from_date Sample.to_date
            _ _ _ _)).
  - vm_compute. reflexivity.
  - reflexivity.
Defined.

(** ** The single-school policy (C3) *)

Lemma str_eqb_eq (a b : pystr) : str_eqb a b = true <-> a = b.
Proof.
  revert b. induction a as [|x a IH]; intros [|y b]; simpl; split;
    try discriminate; try reflexivity; intro H.
  - apply andb_true_iff in H. destruct H as [H1 H2].
    apply Z.eqb_eq in H1. apply IH in H2. now subst.
  - inversion H; subst. apply andb_true_iff. split.
    + apply Z.eqb_refl.
    + now apply IH.
Qed.

Lemma eq_str_true v t : eq_str v t = true <-> v = JStr t.
Proof.
  destruct v; simpl; split; try discriminate; intro H.
  - apply str_eqb_eq in H. now subst.
  - inversion H; subst. now apply str_eqb_eq.
Qed.

Lemma acceptb_accepts org info i :
  (i < List.length (SchoolInfo.org_name info))%nat ->
  acceptb org info i = true <-> accepts org info i.
Proof.
  intro Hi. destruct org as [t|]; simpl; [|tauto].
  rewrite eq_str_true. split; intro H.
  - rewrite <- H. now apply nth_error_nth'.
  - now apply nth_error_nth.
Qed.

Lemma school_info_row_aligned row rv rv' u k :
  school_info_row row rv = (rv', Ok u) -> aligned k rv -> aligned (S k) rv'.
Proof.
  intros H P.
  destruct row as [| | | | |l|kv];
    try (cbv [school_info_row pbind plift py_get] in H; discriminate H).
  unfold school_info_row, pbind, plift, modify in H.
  rewrite !py_get_dict in H. cbv beta iota in H.
  inversion H; subst; clear H.
  destruct rv. unfold aligned in *. simpl in *.
  rewrite !length_app. simpl. lia.
Qed.

Lemma school_info_loop_aligned rows :
  forall rv rv' u k,
    for_each rows school_info_row rv = (rv', Ok u) -> aligned k rv ->
    aligned (k + List.length rows) rv'.
Proof.
  induction rows as [|row rows IH]; intros rv rv' u k H P.
  - inversion H; subst. simpl. now rewrite Nat.add_0_r.
  - rewrite for_each_cons in H.
    destruct (school_info_row row rv) as [st' [u'|e]] eqn:Er; [|discriminate H].
    apply (school_info_row_aligned _ _ _ _ k) in Er; [|exact P].
    apply (IH _ _ _ _ H) in Er. simpl.
    now replace (k + S (List.length rows))%nat with (S k + List.length rows)%nat by lia.
Qed.

Lemma school_info_rows_aligned data rv0 rv u :
  school_info_rows data rv0 = (rv, Ok u) -> aligned 0 rv0 ->
  aligned (SchoolInfo.school_num rv) rv.
Proof.
  unfold school_info_rows, pbind, plift, modify. intros H P.
  destruct (py_get data (py "schoolInfo") (JList [])) as [tables|]; [|discriminate H].
  destruct (py_last tables) as [last|]; [|discriminate H].
  destruct (py_get last (py "row") (JList [])) as [school_info_list|]; [|discriminate H].
  destruct (py_iter school_info_list) as [rows|] eqn:Ei; [|discriminate H].
  destruct (for_each rows school_info_row rv0) as [rv1 [u1|e]] eqn:El; [|discriminate H].
  rewrite (py_iter_len _ _ Ei) in H. inversion H; subst; clear H.
  apply (school_info_loop_aligned _ _ _ _ 0%nat) in El; [|exact P].
  exact El.
Qed.

(** A valid resolver result comes from exactly one request, made with a
    configured key, and its lists are parallel arrays. *)
Lemma get_school_info_valid env name log info :
  get_school_info env name = (log, Ok info) ->
  SchoolInfo.valid info = true ->
  log = [school_info_request env name]
  /\ Re.nonempty (SERVICE_KEY env) = true
  /\ aligned (SchoolInfo.school_num info) info.
Proof.
  unfold get_school_info. intros H V.
  destruct (Re.nonempty (SERVICE_KEY env)) eqn:Ek; simpl in H.
  2:{ inversion H; subst. discriminate V. }
  unfold http, tbind, tlift, tret in H.
  destruct (http_get_json env _) as [data|]; [|discriminate H].
  destruct (py_get data (py "RESULT") (JDict [])) as [result|]; [|discriminate H].
  destruct (py_get result (py "CODE") JNull) as [code|]; [|discriminate H].
  destruct code;
    try (destruct (py_get result (py "MESSAGE") JNull);
         inversion H; subst; discriminate V).
  destruct (school_info_rows data (SchoolInfo.init false (JStr (py "Initialized"))))
    as [rv1 [u|e]] eqn:Er.
  - inversion H; subst. repeat split; try reflexivity.
    all: apply school_info_rows_aligned in Er;
      [apply Er | unfold aligned; simpl; tauto].
  - inversion H; subst. discriminate V.
Qed.

(** With a configured key, the fetcher makes exactly its one request,
    whatever comes back. *)
Lemma get_school_schedule_log env sc oc f t :
  Re.nonempty (SERVICE_KEY env) = true ->
  fst (get_school_schedule env sc oc f t) = [schedule_request env sc oc f t].
Proof.
  intro Hk. unfold get_school_schedule. rewrite Hk. simpl negb. cbv iota.
  unfold http, tbind, tlift, tret.
  destruct (http_get_json env _) as [data|]; [|reflexivity].
  destruct (py_get data (py "RESULT") (JDict [])) as [result|]; [|reflexivity].
  destruct (py_get result (py "CODE") JNull) as [code|]; [|reflexivity].
  destruct code;
    try (destruct (py_get result (py "MESSAGE") JNull); reflexivity).
  destruct (schedule_rows data _) as [rv1 [u|e]]; reflexivity.
Qed.

(** The requests of the loop over the matches: one, for the first index
    accepted, or none. *)
Lemma match_loop_log env info f t grades org idxs :
  forall result_value,
    Re.nonempty (SERVICE_KEY env) = true ->
    aligned (SchoolInfo.school_num info) info ->
    (forall i, In i idxs -> (i < SchoolInfo.school_num info)%nat) ->
    fst (match_loop env info f t grades org idxs result_value)
    = match find (acceptb org info) idxs with
      | Some i => [schedule_request env
                     (nth i (SchoolInfo.school_code info) JNull)
                     (nth i (SchoolInfo.org_code info) JNull) f t]
      | None => []
      end.
Proof.
  induction idxs as [|idx idxs IH]; intros rv0 Hk A Hin; [reflexivity|].
  assert (Hi : (idx < SchoolInfo.school_num info)%nat) by (apply Hin; now left).
  destruct A as (A0 & A1 & A2 & A3).
  simpl match_loop. simpl find.
  assert (Ha : org_accepted org info idx = Ok (acceptb org info idx)).
  { unfold org_accepted, acceptb. destruct org as [o|]; [|reflexivity].
    rewrite (py_index_nth _ _ JNull) by lia. reflexivity. }
  rewrite Ha. unfold tlift at 1. unfold tbind at 1.
  destruct (acceptb org info idx) eqn:Eb.
  - rewrite (py_index_nth _ _ JNull) by lia.
    rewrite (py_index_nth _ _ JNull) by lia.
    unfold tlift, tbind.
    pose proof (get_school_schedule_log env
                  (nth idx (SchoolInfo.school_code info) JNull)
                  (nth idx (SchoolInfo.org_code info) JNull) f t Hk) as Hl.
    destruct (get_school_schedule env _ _ f t) as [l [si|e]]; simpl in Hl; subst l.
    + unfold tbind.
      destruct (Schedule.valid si && (0 <? Schedule.schedule_num si)%nat).
      * destruct (emit_events info idx si grades rv0) as [r [u|e]]; reflexivity.
      * reflexivity.
    + reflexivity.
  - simpl.
    specialize (IH rv0 Hk (conj A0 (conj A1 (conj A2 A3)))).
    destruct (match_loop env info f t grades org idxs rv0) as [l r] eqn:Em.
    simpl in *. apply IH. intros i Hi'. apply Hin. now right.
Qed.

Lemma find_seq_first (p : nat -> bool) (n a i : nat) :
  (a <= i < a + n)%nat -> p i = true ->
  (forall j, (a <= j < i)%nat -> p j = false) ->
  find p (seq a n) = Some i.
Proof.
  revert a. induction n as [|n IH]; intros a Hi Hp Hlt; [lia|].
  simpl. destruct (Nat.eq_dec a i) as [->|Hne].
  - now rewrite Hp.
  - rewrite (Hlt a) by lia. apply IH; [lia|exact Hp|].
    intros j Hj. apply Hlt. lia.
Qed.

Lemma find_seq_none (p : nat -> bool) (n a : nat) :
  (forall j, (a <= j < a + n)%nat -> p j = false) ->
  find p (seq a n) = None.
Proof.
  revert a. induction n as [|n IH]; intros a H; [reflexivity|].
  simpl. rewrite (H a) by lia. apply IH. intros j Hj. apply H. lia.
Qed.

(** C3: when the resolver yields two matches or more, the aggregator
    fetches the schedule of the first match that passes the organization
    filter and of no other match, whatever that fetch returns; when no
    match passes, it fetches nothing. *)
Theorem C3_only_first_accepted_match_is_queried :
  forall env school_name from_date to_date grade target_org log info,
    get_school_info env school_name = (log, Ok info) ->
    SchoolInfo.valid info = true ->
    (2 <= SchoolInfo.school_num info)%nat ->
    (forall i,
        (i < SchoolInfo.school_num info)%nat ->
        accepts target_org info i ->
        (forall j, (j < i)%nat -> ~ accepts target_org info j) ->
        exists school_code org_code,
          nth_error (SchoolInfo.school_code info) i = Some school_code
          /\ nth_error (SchoolInfo.org_code info) i = Some org_code
          /\ fst (get_school_timetable env school_name from_date to_date
                    grade target_org)
             = [school_info_request env school_name;
                schedule_request env school_code org_code from_date to_date])
    /\ ((forall i, (i < SchoolInfo.school_num info)%nat ->
                   ~ accepts target_org info i) ->
        fst (get_school_timetable env school_name from_date to_date
               grade target_org)
        = [school_info_request env school_name]).
Proof.
  intros env name f t grade org log info H V N.
  destruct (get_school_info_valid _ _ _ _ H V) as (Hlog & Hk & A).
  assert (Hrun : fst (get_school_timetable env name f t grade org)
                 = log ++ match find (acceptb org info)
                                  (seq 0 (SchoolInfo.school_num info)) with
                          | Some i => [schedule_request env
                                         (nth i (SchoolInfo.school_code info) JNull)
                                         (nth i (SchoolInfo.org_code info) JNull) f t]
                          | None => []
                          end).
  { unfold get_school_timetable. rewrite H. unfold tbind. rewrite V.
    replace (0 <? SchoolInfo.school_num info)%nat with true
      by (symmetry; apply Nat.ltb_lt; lia).
    simpl andb. cbv iota.
    pose proof (match_loop_log env info f t (target_grade grade) org
                  (seq 0 (SchoolInfo.school_num info)) [] Hk A) as Hl.
    destruct (match_loop env info f t (target_grade grade) org _ []) as [l r].
    simpl in *. rewrite Hl; [reflexivity|].
    intros i Hi. apply in_seq in Hi. lia. }
  destruct A as (A0 & A1 & A2 & A3).
  split.
  - intros i Hi Hacc Hfirst.
    exists (nth i (SchoolInfo.school_code info) JNull),
           (nth i (SchoolInfo.org_code info) JNull).
    split; [apply nth_error_nth'; lia|].
    split; [apply nth_error_nth'; lia|].
    rewrite Hrun, Hlog.
    rewrite (find_seq_first _ _ 0 i); [reflexivity|lia| |].
    + apply acceptb_accepts; [lia|exact Hacc].
    + intros j Hj. destruct (acceptb org info j) eqn:Ej; [|reflexivity].
      exfalso. apply (Hfirst j); [lia|].
      apply acceptb_accepts; [lia|exact Ej].
  - intros Hnone. rewrite Hrun, Hlog.
    rewrite find_seq_none; [reflexivity|].
    intros j Hj. destruct (acceptb org info j) eqn:Ej; [|reflexivity].
    exfalso. apply (Hnone j); [lia|].
    apply acceptb_accepts; [lia|exact Ej].
Qed.

Lemma C3_witness :
  fst (get_school_timetable (Sample.serve Sample.two_schools Sample.good_schedule)
         Sample.school Sample.from_date Sample.to_date [1; 2; 3]
         (Some Sample.gyeonggi))
  = [school_info_request (Sample.serve Sample.two_schools Sample.good_schedule)
       Sample.school;
     schedule_request (Sample.serve Sample.two_schools Sample.good_schedule)
       (JStr (py "7531123")) (JStr (py "J10")) Sample.from_date Sample.to_date].
Proof.
  pose (env := Sample.serve Sample.two_schools Sample.good_schedule).
  assert (H : get_school_info env Sample.school
              = (fst (get_school_info env Sample.school),
                 Ok (SchoolInfo.Make true (JStr (py "Success to find")) 2
                       [JStr Sample.school; JStr Sample.school]
                       [JStr (py "7010574"); JStr (py "7531123")]
                       [JStr (py "서울특별시교육청"); JStr Sample.gyeonggi]
                       [JStr (py "B10"); JStr (py "J10")])))
    by (vm_compute; reflexivity).
  destruct (proj1 (C3_only_first_accepted_match_is_queried env Sample.school
                     Sample.from_date Sample.to_date [1; 2; 3]
                     (Some Sample.gyeonggi) _ _ H eq_refl (le_n 2)) 1%nat)
    as (sc & oc & H1 & H2 & H3).
  - simpl. lia.
  - reflexivity.
  - intros j Hj. assert (j = 0%nat) by lia. subst j. discriminate.
  - simpl in H1, H2. inversion H1. inversion H2. subst sc oc. exact H3.
Defined.

(** ** Default grades (C8) *)

Lemma starts_with_spec (p s : pystr) :
  starts_with p s = true <-> exists after, s = p ++ after.
Proof.
  revert s. induction p as [|x p IH]; intros s; simpl.
  - split; eauto.
  - destruct s as [|y s].
    + split; [discriminate|]. intros [a Ha]. discriminate Ha.
    + rewrite andb_true_iff, IH. unfold char_eqb. rewrite Z.eqb_eq. split.
      * intros [-> [a ->]]. now exists a.
      * intros [a Ha]. inversion Ha; subst. eauto.
Qed.

Lemma contains_spec (p s : pystr) : contains p s = true <-> has_token p s.
Proof.
  unfold has_token. induction s as [|c s IH].
  - simpl. rewrite orb_false_r, starts_with_spec. split.
    + intros [a Ha]. now exists [], a.
    + intros [b [a Ha]]. destruct b; [now exists a|discriminate Ha].
  - simpl. rewrite orb_true_iff, starts_with_spec, IH. split.
    + intros [[a Ha]|[b [a Ha]]].
      * now exists [], a.
      * exists (c :: b), a. simpl. now rewrite Ha.
    + intros [[|x b] [a Ha]].
      * left. now exists a.
      * right. inversion Ha; subst. now exists b, a.
Qed.

Lemma has_token_rev p s : has_token p s -> has_token (rev p) (rev s).
Proof.
  intros [b [a ->]]. exists (rev a), (rev b).
  now rewrite !rev_app_distr, app_assoc.
Qed.

Lemma has_token_rev_iff p s : has_token (rev p) (rev s) <-> has_token p s.
Proof.
  split; intro H; [|now apply has_token_rev].
  apply has_token_rev in H. now rewrite !rev_involutive in H.
Qed.

Lemma has_token_lstrip p s :
  p <> [] -> is_space (hd 0 p) = false ->
  has_token p (lstrip s) <-> has_token p s.
Proof.
  intros Hne Hc. destruct p as [|c p]; [congruence|]. simpl in Hc.
  induction s as [|x s IH]; [reflexivity|].
  simpl. destruct (is_space x) eqn:Ex; [|reflexivity].
  rewrite IH. split.
  - intros [b [a ->]]. now exists (x :: b), a.
  - intros [[|y b] [a Ha]]; inversion Ha; subst.
    + congruence.
    + now exists b, a.
Qed.

Lemma has_token_strip p s :
  is_space (hd 0 p) = false -> is_space (hd 0 (rev p)) = false -> p <> [] ->
  has_token p (strip s) <-> has_token p s.
Proof.
  intros Hh Hl Hne. unfold strip, rstrip.
  assert (Hr : rev p <> []).
  { intro E. apply Hne. apply (f_equal (@rev _)) in E.
    now rewrite rev_involutive in E. }
  rewrite <- (has_token_lstrip p s Hne Hh).
  rewrite <- (has_token_rev_iff p (rev _)), rev_involutive.
  rewrite (has_token_lstrip (rev p) _ Hr Hl).
  apply has_token_rev_iff.
Qed.

Lemma detect_elementary name :
  _detect_school_level name = Some elementary <-> has_token elementary name.
Proof.
  rewrite <- (has_token_strip elementary name); try reflexivity;
    [|discriminate].
  rewrite <- contains_spec. unfold _detect_school_level.
  destruct (contains elementary (strip name)); [tauto|].
  destruct (contains middle (strip name)); [split; discriminate|].
  destruct (contains high (strip name)); split; discriminate.
Qed.

Lemma grades_of_default name :
  QueryKoreanSchoolTool.grades_of name None
  = if contains elementary (strip name) then [1; 2; 3; 4; 5; 6] else [1; 2; 3].
Proof.
  unfold QueryKoreanSchoolTool.grades_of, _detect_school_level.
  destruct (contains elementary (strip name)); [reflexivity|].
  destruct (contains middle (strip name)); [reflexivity|].
  destruct (contains high (strip name)); reflexivity.
Qed.



(** ** The date normalizer: characters and numbers *)

Lemma digit_not_space c : is_decimal c = true -> is_space c = false.
Proof. unfold is_decimal, is_space. lia. Qed.

Lemma space_not_digit c : is_space c = true -> is_decimal c = false.
Proof. unfold is_decimal, is_space. lia. Qed.

Lemma digit_char_decimal k : 0 <= k <= 9 -> is_decimal (digit_char k) = true.
Proof. unfold is_decimal, digit_char. lia. Qed.

Lemma mod10_digit n : is_decimal (digit_char (n mod 10)) = true.
Proof. apply digit_char_decimal. pose proof (Z.mod_pos_bound n 10). lia. Qed.

Lemma pad2_value v : 0 <= v <= 99 -> int_of_digits (pad2 v) = v.
Proof.
  intro H. unfold int_of_digits, pad2, digit_char, digit_value. cbn [fold_left].
  Z.div_mod_to_equations. lia.
Qed.

Lemma pad4_value v : 0 <= v <= 9999 -> int_of_digits (pad4 v) = v.
Proof.
  intro H. unfold int_of_digits, pad4, digit_char, digit_value. cbn [fold_left].
  Z.div_mod_to_equations. lia.
Qed.

Lemma range_cases (P : Z -> Prop) (lo hi : Z) :
  Forall P (zrange lo hi) -> forall v, lo <= v <= hi -> P v.
Proof.
  intros H v Hv. rewrite Forall_forall in H. apply H.
  unfold zrange. apply in_map_iff. exists (Z.to_nat (v - lo)). split; [lia|].
  apply in_seq. lia.
Qed.

Lemma range_check (f : Z -> bool) (lo hi : Z) :
  forallb f (zrange lo hi) = true -> forall v, lo <= v <= hi -> f v = true.
Proof.
  intros H. apply range_cases. apply Forall_forall. intros v Hv.
  rewrite forallb_forall in H. now apply H.
Qed.

Lemma strip_id (s : pystr) :
  s <> [] -> is_space (hd 0 s) = false -> is_space (last s 0) = false ->
  strip s = s.
Proof.
  intros Hne Hh Hl. unfold strip, rstrip.
  assert (E : lstrip s = s) by (destruct s; [congruence|simpl in *; now rewrite Hh]).
  rewrite E. destruct (exists_last Hne) as [r [x Hs]]. subst s.
  rewrite last_last in Hl.
  rewrite rev_app_distr. simpl. rewrite Hl. simpl.
  now rewrite rev_involutive.
Qed.

Lemma last_app_nonempty (a b : pystr) : b <> [] -> last (a ++ b) 0 = last b 0.
Proof.
  intro Hb. induction a as [|x a IH]; [reflexivity|].
  simpl. destruct (a ++ b) eqn:E; [|exact IH].
  apply app_eq_nil in E. tauto.
Qed.

Lemma number_shape p v :
  0 <= v <= 99 ->
  number p v <> [] /\ forallb is_decimal (number p v) = true
  /\ is_decimal (hd 0 (number p v)) = true
  /\ is_decimal (last (number p v) 0) = true.
Proof.
  intro Hv.
  pose proof (range_check
    (fun v => Re.nonempty (number p v) && forallb is_decimal (number p v)
              && is_decimal (hd 0 (number p v))
              && is_decimal (last (number p v) 0)) 0 99) as H.
  cbv beta in H. specialize (H (ltac:(destruct p; vm_compute; reflexivity)) v Hv).
  rewrite !andb_true_iff in H. destruct H as [[[H1 H2] H3] H4].
  repeat split; try assumption.
  intro E. rewrite E in H1. discriminate H1.
Qed.

Lemma number_value p v : 0 <= v <= 99 -> py_int (number p v) = v.
Proof.
  intro Hv. apply Z.eqb_eq.
  apply (range_check (fun v => py_int (number p v) =? v) 0 99); [|exact Hv].
  destruct p; vm_compute; reflexivity.
Qed.

Lemma pad4_shape y :
  forallb is_decimal (pad4 y) = true /\ is_decimal (hd 0 (pad4 y)) = true.
Proof.
  unfold pad4. cbn [forallb hd]. rewrite !mod10_digit. tauto.
Qed.

Lemma strip_digits s : forallb is_decimal s = true -> strip s = s.
Proof.
  intro H. destruct s as [|c s]; [reflexivity|].
  apply strip_id; [discriminate| |].
  - apply digit_not_space. simpl in H. apply andb_true_iff in H. tauto.
  - apply digit_not_space. rewrite forallb_forall in H. apply H.
    rewrite (app_removelast_last 0 (l := c :: s)) at 2 by discriminate.
    apply in_or_app. right. now left.
Qed.

Lemma py_int_pad4 y : 0 <= y <= 9999 -> py_int (pad4 y) = y.
Proof.
  intro H. unfold py_int. rewrite strip_digits by apply pad4_shape.
  now apply pad4_value.
Qed.

(** ** The date normalizer: matching *)

Lemma digit_only_sound cl c :
  digit_only cl = true -> is_decimal c = false -> Re.class_matches cl c = false.
Proof.
  destruct cl; simpl; unfold is_decimal, in_range, char_eqb; intros; lia.
Qed.

Lemma match_seq_app alt :
  forall s rest,
    forallb digit_only (skipn (List.length s) alt) = true ->
    head_not_digit rest \/ (List.length alt <= List.length s)%nat ->
    Re.match_seq alt (s ++ rest) = option_map (with_rest rest) (Re.match_seq alt s).
Proof.
  induction alt as [|cl alt IH]; intros s rest Hd Hr; [reflexivity|].
  destruct s as [|x s].
  - simpl in *. destruct Hr as [Hr|Hr]; [|lia].
    destruct rest as [|c rest]; [reflexivity|].
    apply andb_true_iff in Hd. destruct Hd as [Hd _].
    now rewrite (digit_only_sound cl c Hd Hr).
  - simpl in *. destruct (Re.class_matches cl x); [|reflexivity].
    rewrite (IH s rest Hd) by (destruct Hr; [now left|right; lia]).
    now destruct (Re.match_seq alt s) as [[m r]|].
Qed.

Lemma candidates_app n alts s rest :
  stops_at alts s = true ->
  head_not_digit rest \/ fits_in alts s = true ->
  Re.candidates (Re.Group n alts) (s ++ rest)
  = map (with_rest rest) (Re.candidates (Re.Group n alts) s).
Proof.
  unfold stops_at, fits_in. simpl.
  induction alts as [|alt alts IH]; intros Hs Hr; [reflexivity|].
  simpl in *. apply andb_true_iff in Hs. destruct Hs as [Hs1 Hs2].
  rewrite map_app, <- IH; [|exact Hs2|].
  2:{ destruct Hr as [Hr|Hr]; [now left|right].
      apply andb_true_iff in Hr. tauto. }
  f_equal. rewrite (match_seq_app alt s rest Hs1).
  - now destruct (Re.match_seq alt s) as [[m r]|].
  - destruct Hr as [Hr|Hr]; [now left|right].
    apply andb_true_iff in Hr. destruct Hr as [Hr _].
    now apply Nat.leb_le in Hr.
Qed.

Lemma str_eqb_true (a b : pystr) : str_eqb a b = true -> a = b.
Proof. apply str_eqb_eq. Qed.

(** When the group, alone on [s], takes the whole of [s] first, it takes
    [s] first in front of any text it does not read into. *)
Lemma group_first n alts s rest :
  stops_at alts s = true ->
  takes_all alts s = true ->
  head_not_digit rest \/ fits_in alts s = true ->
  hd_error (Re.candidates (Re.Group n alts) (s ++ rest)) = Some (s, rest).
Proof.
  intros Hs Ht Hr. rewrite candidates_app by assumption.
  unfold takes_all in Ht. change (Re.candidates (Re.Group None alts) s)
    with (Re.candidates (Re.Group n alts) s) in Ht.
  destruct (Re.candidates (Re.Group n alts) s) as [|[m r] l]; [discriminate Ht|].
  simpl in *. apply andb_true_iff in Ht. destruct Ht as [Hm Hr'].
  apply str_eqb_true in Hm. destruct r; [|discriminate Hr']. now subst.
Qed.

Lemma match_items_first it its s m s' caps r :
  hd_error (Re.candidates it s) = Some (m, s') ->
  Re.match_items its s' = Some (caps, r) ->
  Re.match_items (it :: its) s = Some (Re.add_capture it m caps, r).
Proof.
  intros Hc Hm. simpl. destruct (Re.candidates it s) as [|[m0 s0] l]; [discriminate|].
  simpl in Hc. inversion Hc; subst. simpl. now rewrite Hm.
Qed.

Lemma match_items_only it its s m s' :
  Re.candidates it s = [(m, s')] ->
  Re.match_items (it :: its) s
  = match Re.match_items its s' with
    | Some (caps, r) => Some (Re.add_capture it m caps, r)
    | None => None
    end.
Proof.
  intros Hc. simpl. rewrite Hc. simpl.
  now destruct (Re.match_items its s') as [[caps r]|].
Qed.

Lemma match_items_none it its s :
  Re.candidates it s = [] -> Re.match_items (it :: its) s = None.
Proof. intros Hc. simpl. now rewrite Hc. Qed.

(** The groups of the directives on a number in their range. *)
Lemma directive_first (dc lo hi : Z) p v rest :
  forallb (fun q =>
    forallb (fun v =>
      match directive dc with
      | Some alts => stops_at alts (number q v) && takes_all alts (number q v)
      | None => false
      end) (zrange lo hi)) [true; false] = true ->
  lo <= v <= hi -> head_not_digit rest ->
  hd_error (Re.candidates (dir_group dc) (number p v ++ rest))
  = Some (number p v, rest).
Proof.
  intros Hall Hv Hr. unfold dir_group.
  assert (H : match directive dc with
              | Some alts => stops_at alts (number p v) && takes_all alts (number p v)
              | None => false
              end = true).
  { simpl in Hall. rewrite andb_true_r in Hall.
    apply andb_true_iff in Hall. destruct Hall as [Ht Hf].
    destruct p; [revert v Hv; now apply range_check|].
    revert v Hv; now apply range_check. }
  destruct (directive dc) as [alts|]; [|discriminate H].
  apply andb_true_iff in H. destruct H as [H1 H2].
  apply group_first; auto.
Qed.

Lemma month_first p v rest :
  1 <= v <= 12 -> head_not_digit rest ->
  hd_error (Re.candidates (dir_group 109) (number p v ++ rest)) = Some (number p v, rest).
Proof. apply directive_first. vm_compute. reflexivity. Qed.

Lemma day_first p v rest :
  1 <= v <= 31 -> head_not_digit rest ->
  hd_error (Re.candidates (dir_group 100) (number p v ++ rest)) = Some (number p v, rest).
Proof. apply directive_first. vm_compute. reflexivity. Qed.

Lemma hour_first p v rest :
  0 <= v <= 23 -> head_not_digit rest ->
  hd_error (Re.candidates (dir_group 72) (number p v ++ rest)) = Some (number p v, rest).
Proof. apply directive_first. vm_compute. reflexivity. Qed.

Lemma minute_first p v rest :
  0 <= v <= 59 -> head_not_digit rest ->
  hd_error (Re.candidates (dir_group 77) (number p v ++ rest)) = Some (number p v, rest).
Proof. apply directive_first. vm_compute. reflexivity. Qed.

Lemma second_first p v rest :
  0 <= v <= 59 -> head_not_digit rest ->
  hd_error (Re.candidates (dir_group 83) (number p v ++ rest)) = Some (number p v, rest).
Proof. apply directive_first. vm_compute. reflexivity. Qed.

Lemma year_only n y rest :
  Re.candidates (Re.Group n [[Re.CDigit; Re.CDigit; Re.CDigit; Re.CDigit]])
                (pad4 y ++ rest)
  = [(pad4 y, rest)].
Proof.
  unfold pad4.
  cbn [app Re.candidates flat_map Re.match_seq Re.class_matches].
  now rewrite !mod10_digit.
Qed.

Lemma lit_i_only c rest : Re.candidates (lit_i c) (c :: rest) = [([c], rest)].
Proof.
  unfold lit_i. cbn [Re.candidates flat_map Re.match_seq Re.class_matches app].
  unfold char_eqb. now rewrite Z.eqb_refl.
Qed.

Lemma lit_i_mismatch c x rest :
  char_eqb (Re.lower_char c) (Re.lower_char x) = false ->
  Re.candidates (lit_i c) (x :: rest) = [].
Proof.
  intro H. unfold lit_i.
  cbn [Re.candidates flat_map Re.match_seq Re.class_matches app]. now rewrite H.
Qed.

Lemma lit_only c rest : Re.candidates (Re.lit c) (c :: rest) = [([c], rest)].
Proof.
  unfold Re.lit. cbn [Re.candidates flat_map Re.match_seq Re.class_matches app].
  unfold char_eqb. now rewrite Z.eqb_refl.
Qed.

Lemma blank_splits_first b :
  forall rest, blanks b -> head_not_space rest ->
  exists more, Re.blank_splits (b ++ rest) = (b, rest) :: more.
Proof.
  induction b as [|c b IH]; intros rest Hb Hr.
  - destruct rest as [|x rest]; simpl in *; [now exists []|].
    rewrite Hr. now exists [].
  - inversion Hb; subst. destruct (IH rest H2 Hr) as [more Hm].
    simpl. rewrite H1, Hm. simpl. eauto.
Qed.

Lemma blanks_star_first b rest :
  blanks b -> head_not_space rest ->
  hd_error (Re.candidates (Re.Blanks false) (b ++ rest)) = Some (b, rest).
Proof.
  intros Hb Hr. destruct (blank_splits_first b rest Hb Hr) as [more Hm].
  simpl. now rewrite Hm.
Qed.

Lemma blanks_plus_first b rest :
  blanks b -> b <> [] -> head_not_space rest ->
  hd_error (Re.candidates (Re.Blanks true) (b ++ rest)) = Some (b, rest).
Proof.
  intros Hb Hne Hr. destruct (blank_splits_first b rest Hb Hr) as [more Hm].
  simpl. rewrite Hm. simpl. destruct b; [congruence|reflexivity].
Qed.

Lemma days_in_month_le y m : days_in_month y m <= 31.
Proof.
  unfold days_in_month. destruct (m =? 2); [destruct (is_leap y); lia|].
  destruct ((m =? 4) || (m =? 6) || (m =? 9) || (m =? 11)); lia.
Qed.

Lemma sep_not_digit sp : is_decimal (sep_char sp) = false.
Proof. now destruct sp. Qed.

Lemma number_head_not_space p v rest :
  0 <= v <= 99 -> head_not_space (number p v ++ rest).
Proof.
  intro Hv. destruct (number_shape p v Hv) as (Hne & _ & Hh & _).
  destruct (number p v) as [|c s]; [congruence|]. simpl in *.
  now apply digit_not_space.
Qed.

Lemma blanks_head_not_digit b rest :
  blanks b -> b <> [] -> head_not_digit (b ++ rest).
Proof.
  intros Hb Hne. destruct b as [|c b]; [congruence|]. inversion Hb; subst.
  simpl. now apply space_not_digit.
Qed.

(** The date part of a format on the date part of a text. *)
Lemma match_date sp pm pd y m d its rest caps r :
  valid_date y m d -> head_not_digit rest ->
  Re.match_items its rest = Some (caps, r) ->
  Re.match_items (date_items sp ++ its) (date_text sp pm pd y m d ++ rest)
  = Some ((89, pad4 y) :: (109, number pm m) :: (100, number pd d) :: caps, r).
Proof.
  intros (Hy & Hm & Hd) Hr Hits.
  pose proof (days_in_month_le y m) as Hle.
  unfold date_items, date_text. rewrite <- !app_assoc. cbn [app].
  assert (H5 : Re.match_items (dir_group 100 :: its) (number pd d ++ rest)
               = Some ((100, number pd d) :: caps, r)).
  { apply (match_items_first (dir_group 100) its _ (number pd d) rest caps r);
      [apply day_first; [lia|exact Hr]|exact Hits]. }
  assert (H3 : Re.match_items
                 (dir_group 109 :: lit_i (sep_char sp) :: dir_group 100 :: its)
                 (number pm m ++ sep_char sp :: number pd d ++ rest)
               = Some ((109, number pm m) :: (100, number pd d) :: caps, r)).
  { apply (match_items_first (dir_group 109) _ _ (number pm m)
             (sep_char sp :: number pd d ++ rest) ((100, number pd d) :: caps) r).
    - apply month_first; [lia|apply sep_not_digit].
    - rewrite (match_items_only _ _ _ _ _ (lit_i_only _ _)). now rewrite H5. }
  rewrite (match_items_only _ _ _ _ _ (year_only (Some 89) y _)).
  rewrite (match_items_only _ _ _ _ _ (lit_i_only _ _)).
  now rewrite H3.
Qed.

Lemma match_date_mismatch sp y its x rest :
  char_eqb (Re.lower_char (sep_char sp)) (Re.lower_char x) = false ->
  Re.match_items (date_items sp ++ its) (pad4 y ++ x :: rest) = None.
Proof.
  intro H. unfold date_items. cbn [app].
  rewrite (match_items_only _ _ _ _ _ (year_only (Some 89) y _)).
  now rewrite (match_items_none _ _ _ (lit_i_mismatch _ _ _ H)).
Qed.

Lemma clock_text_seconds c :
  clock_text c
  = number (hour_padded c) (clock_hour c) ++ 58
    :: number (minute_padded c) (clock_minute c) ++ seconds_text c.
Proof. reflexivity. Qed.

Lemma seconds_head_not_digit c : head_not_digit (seconds_text c).
Proof. unfold seconds_text. now destruct (clock_second c) as [[s p]|]. Qed.

(** The time part of a format without seconds on a time of day. *)
Lemma match_time_minutes c gap :
  blanks gap -> gap <> [] -> valid_clock c ->
  Re.match_items (time_items false) (gap ++ clock_text c)
  = Some ([(72, number (hour_padded c) (clock_hour c));
           (77, number (minute_padded c) (clock_minute c))],
          seconds_text c).
Proof.
  intros Hb Hne (HH & HM & HS). rewrite clock_text_seconds.
  unfold time_items. cbn [app].
  assert (H4 : Re.match_items [dir_group 77]
                 (number (minute_padded c) (clock_minute c) ++ seconds_text c)
               = Some ([(77, number (minute_padded c) (clock_minute c))],
                       seconds_text c)).
  { apply (match_items_first (dir_group 77) [] _ _ (seconds_text c) [] (seconds_text c));
      [apply minute_first; [lia|apply seconds_head_not_digit]|reflexivity]. }
  assert (H2 : Re.match_items [dir_group 72; lit_i 58; dir_group 77]
                 (number (hour_padded c) (clock_hour c) ++ 58
                  :: number (minute_padded c) (clock_minute c) ++ seconds_text c)
               = Some ([(72, number (hour_padded c) (clock_hour c));
                        (77, number (minute_padded c) (clock_minute c))],
                       seconds_text c)).
  { eapply (match_items_first (dir_group 72)).
    - apply hour_first; [lia|reflexivity].
    - rewrite (match_items_only _ _ _ _ _ (lit_i_only _ _)). now rewrite H4. }
  eapply (match_items_first (Re.Blanks true)); [|exact H2].
  apply blanks_plus_first; [exact Hb|exact Hne|].
  apply number_head_not_space. lia.
Qed.

(** The time part of a format with seconds on a time of day with seconds. *)
Lemma match_time_seconds c gap s p :
  blanks gap -> gap <> [] -> valid_clock c -> clock_second c = Some (s, p) ->
  Re.match_items (time_items true) (gap ++ clock_text c)
  = Some ([(72, number (hour_padded c) (clock_hour c));
           (77, number (minute_padded c) (clock_minute c));
           (83, number p s)], []).
Proof.
  intros Hb Hne (HH & HM & HS) Hs. rewrite clock_text_seconds.
  unfold seconds_text. rewrite Hs in *.
  unfold time_items. cbn [app].
  assert (H6 : Re.match_items [dir_group 83] (number p s ++ [])
               = Some ([(83, number p s)], [])).
  { apply (match_items_first (dir_group 83) [] _ _ [] [] []);
      [apply second_first; [lia|exact I]|reflexivity]. }
  rewrite app_nil_r in H6.
  assert (H4 : Re.match_items [dir_group 77; lit_i 58; dir_group 83]
                 (number (minute_padded c) (clock_minute c) ++ 58 :: number p s)
               = Some ([(77, number (minute_padded c) (clock_minute c));
                        (83, number p s)], [])).
  { eapply (match_items_first (dir_group 77)).
    - apply minute_first; [lia|reflexivity].
    - rewrite (match_items_only _ _ _ _ _ (lit_i_only _ _)). now rewrite H6. }
  assert (H2 : Re.match_items
                 [dir_group 72; lit_i 58; dir_group 77; lit_i 58; dir_group 83]
                 (number (hour_padded c) (clock_hour c) ++ 58
                  :: number (minute_padded c) (clock_minute c) ++ 58 :: number p s)
               = Some ([(72, number (hour_padded c) (clock_hour c));
                        (77, number (minute_padded c) (clock_minute c));
                        (83, number p s)], [])).
  { eapply (match_items_first (dir_group 72)).
    - apply hour_first; [lia|reflexivity].
    - rewrite (match_items_only _ _ _ _ _ (lit_i_only _ _)). now rewrite H4. }
  eapply (match_items_first (Re.Blanks true)); [|exact H2].
  apply blanks_plus_first; [exact Hb|exact Hne|].
  apply number_head_not_space. lia.
Qed.

Lemma make_datetime_ok y m d H M S :
  valid_date y m d -> 0 <= H <= 23 -> 0 <= M <= 59 -> 0 <= S <= 59 ->
  make_datetime y m d H M S = Ok (Datetime y m d H M S).
Proof.
  intros (Hy & Hm & Hd) HH HM HS. unfold make_datetime.
  repeat match goal with
         | |- context [if negb ?b then _ else _] =>
             replace b with true by lia; cbn [negb]
         end.
  reflexivity.
Qed.

Lemma group_here k v caps : Re.group ((k, v) :: caps) k = Some v.
Proof. simpl. unfold char_eqb. now rewrite Z.eqb_refl. Qed.

Lemma group_skip k k' v caps :
  k' <> k -> Re.group ((k', v) :: caps) k = Re.group caps k.
Proof.
  intro H. simpl. unfold char_eqb.
  destruct (k' =? k) eqn:E; [lia|reflexivity].
Qed.

Lemma field_here k v caps dflt : field ((k, v) :: caps) k dflt = py_int v.
Proof. unfold field. now rewrite group_here. Qed.

Lemma field_skip k k' v caps dflt :
  k' <> k -> field ((k', v) :: caps) k dflt = field caps k dflt.
Proof. intro H. unfold field. now rewrite group_skip. Qed.

(** ** The date normalizer: [strptime] on the written forms *)

Lemma pattern_date sp : pattern false (date_format sp) = Some (date_items sp).
Proof. destruct sp; vm_compute; reflexivity. Qed.

Lemma pattern_datetime sp b :
  pattern false (datetime_format sp b) = Some (date_items sp ++ time_items b).
Proof. destruct sp, b; vm_compute; reflexivity. Qed.

Lemma pattern_compact :
  pattern false (py "%Y%m%d") = Some [dir_group 89; dir_group 109; dir_group 100].
Proof. vm_compute. reflexivity. Qed.

Lemma pattern_iso (b : bool) :
  exists its,
    pattern false (if b then py "%Y-%m-%dT%H:%M:%S" else py "%Y-%m-%dT%H:%M")
    = Some (date_items Dash ++ its).
Proof.
  destruct b.
  - exists (lit_i 84 :: dir_group 72 :: lit_i 58 :: dir_group 77
            :: lit_i 58 :: dir_group 83 :: nil).
    vm_compute. reflexivity.
  - exists (lit_i 84 :: dir_group 72 :: lit_i 58 :: dir_group 77 :: nil).
    vm_compute. reflexivity.
Qed.

Lemma date_formats_eq :
  date_formats = [date_format Dash; date_format Slash; date_format Dot].
Proof. vm_compute. reflexivity. Qed.

Lemma datetime_formats_eq :
  datetime_formats
  = [datetime_format Dash false; datetime_format Dash true;
     datetime_format Slash false; datetime_format Slash true;
     datetime_format Dot false; datetime_format Dot true;
     py "%Y-%m-%dT%H:%M"; py "%Y-%m-%dT%H:%M:%S"].
Proof. vm_compute. reflexivity. Qed.

Lemma strptime_with_none re data fmt :
  Re.match_items re data = None -> exists e, strptime_with re data fmt = Raise e.
Proof. intro H. unfold strptime_with. rewrite H. eauto. Qed.

Lemma strptime_with_rest re data fmt caps rest :
  Re.match_items re data = Some (caps, rest) -> rest <> [] ->
  exists e, strptime_with re data fmt = Raise e.
Proof.
  intros H Hr. unfold strptime_with. rewrite H.
  destruct rest; [congruence|]. simpl. eauto.
Qed.

Lemma strptime_with_ok re data fmt y m d pm pd tcaps :
  Re.match_items re data
  = Some ((89, pad4 y) :: (109, number pm m) :: (100, number pd d) :: tcaps, []) ->
  valid_date y m d ->
  0 <= field tcaps 72 0 <= 23 -> 0 <= field tcaps 77 0 <= 59 ->
  0 <= field tcaps 83 0 <= 59 ->
  strptime_with re data fmt
  = Ok (Datetime y m d (field tcaps 72 0) (field tcaps 77 0) (field tcaps 83 0)).
Proof.
  intros H V HH HM HS. unfold strptime_with. rewrite H. cbn [Re.nonempty].
  pose proof V as (Hy & Hm & Hd). pose proof (days_in_month_le y m).
  rewrite field_here.
  rewrite (field_skip 109 89) by lia. rewrite field_here.
  rewrite (field_skip 100 89), (field_skip 100 109) by lia. rewrite field_here.
  rewrite !(field_skip 72), !(field_skip 77), !(field_skip 83) by lia.
  rewrite py_int_pad4 by lia. rewrite !number_value by lia.
  now apply make_datetime_ok.
Qed.

Lemma sep_mismatch sp sp' :
  sp <> sp' ->
  char_eqb (Re.lower_char (sep_char sp)) (Re.lower_char (sep_char sp')) = false.
Proof. destruct sp, sp'; intro H; try congruence; reflexivity. Qed.

(** A format that starts with [%Y] and a separator fails on a text whose
    year is followed by something else. *)
Lemma strptime_mismatch fmt sp its y x rest :
  pattern false fmt = Some (date_items sp ++ its) ->
  char_eqb (Re.lower_char (sep_char sp)) (Re.lower_char x) = false ->
  exists e, strptime (pad4 y ++ x :: rest) fmt = Raise e.
Proof.
  intros Hp Hx. unfold strptime. rewrite Hp.
  apply strptime_with_none. now apply match_date_mismatch.
Qed.

Lemma date_text_head sp pm pd y m d rest :
  date_text sp pm pd y m d ++ rest
  = pad4 y ++ sep_char sp :: (number pm m ++ [sep_char sp] ++ number pd d) ++ rest.
Proof. unfold date_text. now rewrite <- !app_assoc. Qed.

Lemma separator_eq_dec (a b : separator) : {a = b} + {a <> b}.
Proof. decide equality. Qed.

(** A date-only format on the date alone. *)
Lemma strptime_date_exact sp pm pd y m d :
  valid_date y m d ->
  strptime (date_text sp pm pd y m d) (date_format sp) = Ok (Datetime y m d 0 0 0).
Proof.
  intro V. unfold strptime. rewrite pattern_date.
  pose proof (match_date sp pm pd y m d [] [] [] [] V I eq_refl) as H.
  rewrite !app_nil_r in H.
  now apply (strptime_with_ok _ _ _ y m d pm pd []).
Qed.

(** A date-only format on a date followed by more text. *)
Lemma strptime_date_longer sp sp' pm pd y m d rest :
  valid_date y m d -> head_not_digit rest -> rest <> [] ->
  exists e, strptime (date_text sp' pm pd y m d ++ rest) (date_format sp) = Raise e.
Proof.
  intros V Hr Hne. destruct (separator_eq_dec sp sp') as [<-|Hsp].
  - unfold strptime. rewrite pattern_date.
    pose proof (match_date sp pm pd y m d [] rest [] rest V Hr eq_refl) as H.
    rewrite app_nil_r in H.
    now apply (strptime_with_rest _ _ _ _ rest H).
  - rewrite date_text_head.
    apply (strptime_mismatch _ sp []); [now rewrite app_nil_r, pattern_date|].
    now apply sep_mismatch.
Qed.

(** A date-time format on a date with another separator. *)
Lemma strptime_datetime_other sp sp' b pm pd y m d rest :
  sp <> sp' ->
  exists e, strptime (date_text sp' pm pd y m d ++ rest) (datetime_format sp b)
            = Raise e.
Proof.
  intro Hsp. rewrite date_text_head.
  apply (strptime_mismatch _ sp (time_items b)); [apply pattern_datetime|].
  now apply sep_mismatch.
Qed.

(** The format without seconds on a time without seconds. *)
Lemma strptime_minutes_exact sp pm pd y m d gap c :
  valid_date y m d -> blanks gap -> gap <> [] -> valid_clock c ->
  clock_second c = None ->
  strptime (date_text sp pm pd y m d ++ gap ++ clock_text c)
           (datetime_format sp false)
  = Ok (Datetime y m d (clock_hour c) (clock_minute c) 0).
Proof.
  intros V Hb Hne Hc Hs. unfold strptime. rewrite pattern_datetime.
  pose proof (match_time_minutes c gap Hb Hne Hc) as Ht.
  unfold seconds_text in Ht. rewrite Hs in Ht.
  pose proof (match_date sp pm pd y m d _ _ _ _ V
                (blanks_head_not_digit gap _ Hb Hne) Ht) as H.
  destruct Hc as (HH & HM & _).
  assert (E72 : field [(72, number (hour_padded c) (clock_hour c));
                       (77, number (minute_padded c) (clock_minute c))] 72 0
                = clock_hour c)
    by (rewrite field_here; apply number_value; lia).
  assert (E77 : field [(72, number (hour_padded c) (clock_hour c));
                       (77, number (minute_padded c) (clock_minute c))] 77 0
                = clock_minute c)
    by (rewrite field_skip by lia; rewrite field_here; apply number_value; lia).
  rewrite (strptime_with_ok _ _ _ _ _ _ _ _ _ H V); rewrite ?E72, ?E77; try lia.
  - reflexivity.
  - cbv. split; discriminate.
Qed.

(** The format without seconds on a time with seconds. *)
Lemma strptime_minutes_longer sp pm pd y m d gap c s p :
  valid_date y m d -> blanks gap -> gap <> [] -> valid_clock c ->
  clock_second c = Some (s, p) ->
  exists e, strptime (date_text sp pm pd y m d ++ gap ++ clock_text c)
                     (datetime_format sp false) = Raise e.
Proof.
  intros V Hb Hne Hc Hs. unfold strptime. rewrite pattern_datetime.
  pose proof (match_time_minutes c gap Hb Hne Hc) as Ht.
  unfold seconds_text in Ht. rewrite Hs in Ht.
  pose proof (match_date sp pm pd y m d _ _ _ _ V
                (blanks_head_not_digit gap _ Hb Hne) Ht) as H.
  apply (strptime_with_rest _ _ _ _ _ H). discriminate.
Qed.

(** The format with seconds on a time with seconds. *)
Lemma strptime_seconds_exact sp pm pd y m d gap c s p :
  valid_date y m d -> blanks gap -> gap <> [] -> valid_clock c ->
  clock_second c = Some (s, p) ->
  strptime (date_text sp pm pd y m d ++ gap ++ clock_text c)
           (datetime_format sp true)
  = Ok (Datetime y m d (clock_hour c) (clock_minute c) s).
Proof.
  intros V Hb Hne Hc Hs. unfold strptime. rewrite pattern_datetime.
  pose proof (match_time_seconds c gap s p Hb Hne Hc Hs) as Ht.
  pose proof (match_date sp pm pd y m d _ _ _ _ V
                (blanks_head_not_digit gap _ Hb Hne) Ht) as H.
  destruct Hc as (HH & HM & HS). rewrite Hs in HS.
  assert (E72 : field [(72, number (hour_padded c) (clock_hour c));
                       (77, number (minute_padded c) (clock_minute c));
                       (83, number p s)] 72 0 = clock_hour c)
    by (rewrite field_here; apply number_value; lia).
  assert (E77 : field [(72, number (hour_padded c) (clock_hour c));
                       (77, number (minute_padded c) (clock_minute c));
                       (83, number p s)] 77 0 = clock_minute c)
    by (rewrite field_skip by lia; rewrite field_here; apply number_value; lia).
  assert (E83 : field [(72, number (hour_padded c) (clock_hour c));
                       (77, number (minute_padded c) (clock_minute c));
                       (83, number p s)] 83 0 = s)
    by (rewrite !field_skip by lia; rewrite field_here; apply number_value; lia).
  rewrite (strptime_with_ok _ _ _ _ _ _ _ _ _ H V); rewrite ?E72, ?E77, ?E83; try lia.
  reflexivity.
Qed.

(** ** The date normalizer: the branches of [_to_yyyymmdd] *)

Lemma try_formats_raise s f fs e :
  strptime s f = Raise e -> try_formats s (f :: fs) = try_formats s fs.
Proof. intro H. simpl. now rewrite H. Qed.

Lemma try_formats_ok s f fs d :
  strptime s f = Ok d -> try_formats s (f :: fs) = Some (strftime_Ymd d).
Proof. intro H. simpl. now rewrite H. Qed.

Lemma try_formats_all_raise s fs :
  Forall (fun f => exists e, strptime s f = Raise e) fs -> try_formats s fs = None.
Proof.
  induction 1 as [|f fs [e He] _ IH]; [reflexivity|].
  now rewrite (try_formats_raise _ _ _ _ He).
Qed.

Lemma to_yyyymmdd_date date_str r :
  Re.nonempty (strip date_str) = true -> isdigit (strip date_str) = false ->
  try_formats (strip date_str) date_formats = Some r ->
  _to_yyyymmdd date_str = Ok r.
Proof.
  intros Hn Hd Ht. unfold _to_yyyymmdd. cbv zeta.
  rewrite Hn, Hd, Ht. reflexivity.
Qed.

Lemma to_yyyymmdd_datetime date_str r :
  Re.nonempty (strip date_str) = true -> isdigit (strip date_str) = false ->
  try_formats (strip date_str) date_formats = None ->
  try_formats (strip date_str) datetime_formats = Some r ->
  _to_yyyymmdd date_str = Ok r.
Proof.
  intros Hn Hd Ht Ht'. unfold _to_yyyymmdd. cbv zeta.
  rewrite Hn, Hd, Ht, Ht'. reflexivity.
Qed.

Lemma to_yyyymmdd_korean date_str caps :
  Re.nonempty (strip date_str) = true -> isdigit (strip date_str) = false ->
  try_formats (strip date_str) date_formats = None ->
  try_formats (strip date_str) datetime_formats = None ->
  Re.search korean_pattern (strip date_str) = Some caps ->
  _to_yyyymmdd date_str
  = (d <- make_datetime (group_int caps 1) (group_int caps 2) (group_int caps 3)
                        0 0 0 ;;
     Ok (strftime_Ymd d)).
Proof.
  intros Hn Hd Ht Ht' Hs. unfold _to_yyyymmdd. cbv zeta.
  rewrite Hn, Hd, Ht, Ht', Hs. reflexivity.
Qed.

Lemma text_nonempty y t : Re.nonempty (pad4 y ++ t) = true.
Proof. reflexivity. Qed.

Lemma text_not_digits y x t :
  is_decimal x = false -> isdigit (pad4 y ++ x :: t) = false.
Proof.
  intro H. unfold pad4, isdigit. cbn [app forallb]. rewrite H.
  now rewrite !andb_false_r.
Qed.

Lemma text_strip y t :
  t <> [] -> is_space (last t 0) = false -> strip (pad4 y ++ t) = pad4 y ++ t.
Proof.
  intros Hne Hl. apply strip_id.
  - discriminate.
  - apply digit_not_space. apply pad4_shape.
  - now rewrite last_app_nonempty.
Qed.

Lemma number_last_not_space p v rest :
  0 <= v <= 99 -> is_space (last (rest ++ number p v) 0) = false.
Proof.
  intro Hv. destruct (number_shape p v Hv) as (Hne & _ & _ & Hl).
  rewrite last_app_nonempty by exact Hne. now apply digit_not_space.
Qed.

Lemma date_text_tail sp pm pd y m d :
  date_text sp pm pd y m d
  = pad4 y ++ sep_char sp :: (number pm m ++ [sep_char sp]) ++ number pd d.
Proof. unfold date_text. now rewrite <- !app_assoc. Qed.

Lemma valid_date_bounds y m d :
  valid_date y m d -> 0 <= y <= 9999 /\ 0 <= m <= 99 /\ 0 <= d <= 99.
Proof.
  intros (Hy & Hm & Hd). pose proof (days_in_month_le y m). lia.
Qed.

(** The separator forms. *)
Lemma normalize_separated sp pm pd y m d :
  valid_date y m d ->
  _to_yyyymmdd (date_text sp pm pd y m d) = Ok (canonical y m d).
Proof.
  intro V. destruct (valid_date_bounds _ _ _ V) as (By & Bm & Bd).
  assert (Hs : strip (date_text sp pm pd y m d) = date_text sp pm pd y m d).
  { rewrite date_text_tail. apply text_strip; [discriminate|].
    change (sep_char sp :: (number pm m ++ [sep_char sp]) ++ number pd d)
      with ((sep_char sp :: number pm m ++ [sep_char sp]) ++ number pd d).
    now apply number_last_not_space. }
  apply to_yyyymmdd_date with (r := canonical y m d); rewrite Hs.
  - reflexivity.
  - rewrite date_text_tail. apply text_not_digits, sep_not_digit.
  - rewrite date_formats_eq.
    pose proof (strptime_date_exact sp pm pd y m d V) as Hok.
    assert (Hother : forall sp', sp' <> sp ->
              exists e, strptime (date_text sp pm pd y m d) (date_format sp') = Raise e).
    { intros sp' Hne. rewrite <- (app_nil_r (date_text sp pm pd y m d)).
      rewrite date_text_head.
      apply (strptime_mismatch _ sp' []); [now rewrite app_nil_r, pattern_date|].
      now apply sep_mismatch. }
    destruct sp.
    + now rewrite (try_formats_ok _ _ _ _ Hok).
    + destruct (Hother Dash ltac:(discriminate)) as [e1 H1].
      rewrite (try_formats_raise _ _ _ _ H1).
      now rewrite (try_formats_ok _ _ _ _ Hok).
    + destruct (Hother Dash ltac:(discriminate)) as [e1 H1].
      destruct (Hother Slash ltac:(discriminate)) as [e2 H2].
      rewrite (try_formats_raise _ _ _ _ H1), (try_formats_raise _ _ _ _ H2).
      now rewrite (try_formats_ok _ _ _ _ Hok).
Qed.

Lemma clock_text_last c :
  valid_clock c -> is_space (last (clock_text c) 0) = false.
Proof.
  intros (HH & HM & HS). unfold clock_text.
  destruct (clock_second c) as [[s p]|].
  - change (number (hour_padded c) (clock_hour c) ++ [58]
            ++ number (minute_padded c) (clock_minute c) ++ 58 :: number p s)
      with (number (hour_padded c) (clock_hour c) ++ [58]
            ++ number (minute_padded c) (clock_minute c) ++ [58] ++ number p s).
    rewrite !app_assoc. apply number_last_not_space. lia.
  - rewrite app_nil_r, !app_assoc. apply number_last_not_space. lia.
Qed.

(** The separator forms followed by a time of day. *)
Lemma normalize_timed sp pm pd gap c y m d :
  valid_date y m d -> blanks gap -> gap <> [] -> valid_clock c ->
  _to_yyyymmdd (date_text sp pm pd y m d ++ gap ++ clock_text c)
  = Ok (canonical y m d).
Proof.
  intros V Hb Hne Hc. set (s := date_text sp pm pd y m d ++ gap ++ clock_text c).
  assert (Hs : strip s = s).
  { unfold s. rewrite date_text_head. apply text_strip; [discriminate|].
    change (sep_char sp :: (number pm m ++ [sep_char sp] ++ number pd d)
            ++ gap ++ clock_text c)
      with ((sep_char sp :: (number pm m ++ [sep_char sp] ++ number pd d))
            ++ gap ++ clock_text c).
    rewrite !app_assoc, last_app_nonempty.
    - now apply clock_text_last.
    - unfold clock_text. destruct (number_shape (hour_padded c) (clock_hour c))
        as (Hn & _); [destruct Hc; lia|].
      destruct (number (hour_padded c) (clock_hour c)); [congruence|discriminate]. }
  assert (Hdate : try_formats s date_formats = None).
  { rewrite date_formats_eq. apply try_formats_all_raise.
    repeat constructor; apply strptime_date_longer; try assumption;
      try (now apply blanks_head_not_digit);
      destruct gap; [congruence|discriminate|congruence|discriminate
                     |congruence|discriminate]. }
  apply to_yyyymmdd_datetime with (r := canonical y m d); rewrite Hs.
  - reflexivity.
  - unfold s. rewrite date_text_head. apply text_not_digits, sep_not_digit.
  - exact Hdate.
  - rewrite datetime_formats_eq.
    assert (Hother : forall sp' b, sp' <> sp ->
              exists e, strptime s (datetime_format sp' b) = Raise e)
      by (intros; now apply strptime_datetime_other).
    assert (Hfound :
      try_formats s (datetime_format sp false :: datetime_format sp true :: nil)
      = Some (canonical y m d)).
    { destruct (clock_second c) as [[sec p]|] eqn:Es.
      - destruct (strptime_minutes_longer sp pm pd y m d gap c sec p V Hb Hne Hc Es)
          as [e He].
        rewrite (try_formats_raise _ _ _ _ He).
        now rewrite (try_formats_ok _ _ _ _
                       (strptime_seconds_exact sp pm pd y m d gap c sec p V Hb Hne Hc Es)).
      - now rewrite (try_formats_ok _ _ _ _
                       (strptime_minutes_exact sp pm pd y m d gap c V Hb Hne Hc Es)). }
    assert (Hcut : forall fs,
              try_formats s (datetime_format sp false :: datetime_format sp true :: fs)
              = Some (canonical y m d)).
    { intro fs. simpl in *.
      destruct (strptime s (datetime_format sp false)); [exact Hfound|].
      destruct (strptime s (datetime_format sp true)); [exact Hfound|].
      discriminate Hfound. }
    destruct sp.
    + apply Hcut.
    + destruct (Hother Dash false ltac:(discriminate)) as [e1 H1].
      destruct (Hother Dash true ltac:(discriminate)) as [e2 H2].
      rewrite (try_formats_raise _ _ _ _ H1), (try_formats_raise _ _ _ _ H2).
      apply Hcut.
    + destruct (Hother Dash false ltac:(discriminate)) as [e1 H1].
      destruct (Hother Dash true ltac:(discriminate)) as [e2 H2].
      destruct (Hother Slash false ltac:(discriminate)) as [e3 H3].
      destruct (Hother Slash true ltac:(discriminate)) as [e4 H4].
      rewrite (try_formats_raise _ _ _ _ H1), (try_formats_raise _ _ _ _ H2),
              (try_formats_raise _ _ _ _ H3), (try_formats_raise _ _ _ _ H4).
      apply Hcut.
Qed.

Lemma korean_number_first n p v rest :
  0 <= v <= 99 -> head_not_digit rest ->
  hd_error (Re.candidates
              (Re.Group n [[Re.CDigit; Re.CDigit]; [Re.CDigit]])
              (number p v ++ rest))
  = Some (number p v, rest).
Proof.
  intros Hv Hr.
  assert (H : stops_at [[Re.CDigit; Re.CDigit]; [Re.CDigit]] (number p v)
              && takes_all [[Re.CDigit; Re.CDigit]; [Re.CDigit]] (number p v) = true).
  { revert v Hv. apply range_check. destruct p; vm_compute; reflexivity. }
  apply andb_true_iff in H. destruct H as [H1 H2].
  apply group_first; auto.
Qed.

Lemma match_blanks_lit b c its rest caps r :
  blanks b -> is_space c = false ->
  Re.match_items its rest = Some (caps, r) ->
  Re.match_items (Re.Blanks false :: Re.lit c :: its) (b ++ c :: rest)
  = Some (caps, r).
Proof.
  intros Hb Hc Hits.
  apply (match_items_first (Re.Blanks false) _ _ b (c :: rest) caps r).
  - now apply blanks_star_first.
  - rewrite (match_items_only _ _ _ _ _ (lit_only _ _)). now rewrite Hits.
Qed.

Lemma match_blanks_number n b p v its rest caps r :
  blanks b -> 0 <= v <= 99 -> head_not_digit rest ->
  Re.match_items its rest = Some (caps, r) ->
  Re.match_items
    (Re.Blanks false :: Re.Group (Some n) [[Re.CDigit; Re.CDigit]; [Re.CDigit]] :: its)
    (b ++ number p v ++ rest)
  = Some ((n, number p v) :: caps, r).
Proof.
  intros Hb Hv Hr Hits.
  apply (match_items_first (Re.Blanks false) _ _ b (number p v ++ rest)
           ((n, number p v) :: caps) r).
  - apply blanks_star_first; [exact Hb|now apply number_head_not_space].
  - apply (match_items_first
             (Re.Group (Some n) [[Re.CDigit; Re.CDigit]; [Re.CDigit]])
             its _ (number p v) rest caps r);
      [now apply korean_number_first|exact Hits].
Qed.

Lemma blanks_then_not_digit b x rest :
  blanks b -> is_decimal x = false -> head_not_digit (b ++ x :: rest).
Proof.
  intros Hb Hx. destruct b as [|c b]; [exact Hx|].
  inversion Hb; subst. simpl. now apply space_not_digit.
Qed.

Lemma search_here its s caps r :
  Re.match_items its s = Some (caps, r) -> Re.search its s = Some caps.
Proof. intro H. destruct s; simpl; now rewrite H. Qed.

Lemma match_korean pm pd b1 b2 b3 b4 b5 y m d :
  valid_date y m d ->
  blanks b1 -> blanks b2 -> blanks b3 -> blanks b4 -> blanks b5 ->
  Re.match_items korean_pattern (render (KoreanLong pm pd b1 b2 b3 b4 b5) y m d)
  = Some ([(1, pad4 y); (2, number pm m); (3, number pd d)], []).
Proof.
  intros V H1 H2 H3 H4 H5. destruct (valid_date_bounds _ _ _ V) as (By & Bm & Bd).
  unfold korean_pattern, render. cbn [app].
  rewrite (match_items_only _ _ _ _ _ (year_only (Some 1) y _)).
  match goal with
  | |- match ?X with _ => _ end = _ =>
      assert (Hin : X = Some ([(2, number pm m); (3, number pd d)], []))
  end.
  { apply (match_blanks_lit b1 45380 _ _ _ _ H1 eq_refl).
    apply (match_blanks_number 2 b2 pm m _ _ [(3, number pd d)] [] H2 Bm);
      [now apply blanks_then_not_digit|].
    apply (match_blanks_lit b3 50900 _ _ _ _ H3 eq_refl).
    apply (match_blanks_number 3 b4 pd d _ _ [] [] H4 Bd);
      [now apply blanks_then_not_digit|].
    now apply (match_blanks_lit b5 51068 [] [] [] [] H5 eq_refl). }
  now rewrite Hin.
Qed.

(** What follows the year in the long form is no separator and no digit. *)
Lemma foreign_char x :
  is_space x = true \/ x = 45380 ->
  is_decimal x = false
  /\ forall sp, char_eqb (Re.lower_char (sep_char sp)) (Re.lower_char x) = false.
Proof.
  intro H. split.
  - destruct H as [H| ->]; [now apply space_not_digit|reflexivity].
  - intro sp. destruct H as [H| ->]; [|now destruct sp].
    replace (Re.lower_char (sep_char sp)) with (sep_char sp) by now destruct sp.
    unfold char_eqb, Re.lower_char, in_range. unfold is_space in H.
    destruct ((65 <=? x) && (x <=? 90)) eqn:E; destruct sp; unfold sep_char; lia.
Qed.

Lemma korean_after_year b rest :
  blanks b ->
  exists x t, b ++ 45380 :: rest = x :: t /\ (is_space x = true \/ x = 45380).
Proof.
  intro Hb. destruct b as [|c b].
  - exists 45380, rest. split; [reflexivity|now right].
  - inversion Hb; subst. exists c, (b ++ 45380 :: rest). split; [reflexivity|now left].
Qed.

(** The long form. *)
Lemma normalize_korean pm pd b1 b2 b3 b4 b5 y m d :
  valid_date y m d ->
  blanks b1 -> blanks b2 -> blanks b3 -> blanks b4 -> blanks b5 ->
  _to_yyyymmdd (render (KoreanLong pm pd b1 b2 b3 b4 b5) y m d)
  = Ok (canonical y m d).
Proof.
  intros V H1 H2 H3 H4 H5. destruct (valid_date_bounds _ _ _ V) as (By & Bm & Bd).
  pose proof (match_korean pm pd b1 b2 b3 b4 b5 y m d V H1 H2 H3 H4 H5) as Hm.
  set (s := render (KoreanLong pm pd b1 b2 b3 b4 b5) y m d) in *.
  assert (Hs : strip s = s).
  { unfold s, render. apply text_strip.
    - destruct b1; discriminate.
    - rewrite !app_assoc. now rewrite last_last. }
  destruct (korean_after_year b1
              (b2 ++ number pm m ++ b3 ++ [50900] ++ b4 ++ number pd d ++ b5 ++ [51068])
              H1) as (x & t & Ext & Hx).
  destruct (foreign_char x Hx) as [Hxd Hxs].
  assert (Es : s = pad4 y ++ x :: t) by (unfold s, render; now rewrite <- Ext).
  assert (Hfail : forall fmt sp its,
            pattern false fmt = Some (date_items sp ++ its) ->
            exists e, strptime s fmt = Raise e).
  { intros fmt sp its Hp. rewrite Es. now apply (strptime_mismatch fmt sp its). }
  rewrite (to_yyyymmdd_korean s [(1, pad4 y); (2, number pm m); (3, number pd d)]);
    rewrite ?Hs.
  - unfold group_int. rewrite group_here.
    rewrite (group_skip 2 1) by lia. rewrite group_here.
    rewrite (group_skip 3 1), (group_skip 3 2) by lia. rewrite group_here.
    rewrite py_int_pad4, !number_value by lia.
    rewrite make_datetime_ok by (try assumption; lia). reflexivity.
  - reflexivity.
  - rewrite Es. now apply text_not_digits.
  - rewrite date_formats_eq. apply try_formats_all_raise.
    repeat constructor;
      match goal with
      | |- exists e, strptime s (date_format ?sp) = Raise e =>
          apply (Hfail _ sp []); now rewrite app_nil_r, pattern_date
      end.
  - rewrite datetime_formats_eq. apply try_formats_all_raise.
    repeat constructor;
      try match goal with
          | |- exists e, strptime s (datetime_format ?sp ?b) = Raise e =>
              apply (Hfail _ sp (time_items b)); apply pattern_datetime
          end.
    + destruct (pattern_iso false) as [its Hp]. now apply (Hfail _ Dash its).
    + destruct (pattern_iso true) as [its Hp]. now apply (Hfail _ Dash its).
  - now apply (search_here _ _ _ []).
Qed.

Lemma directive_first_padded (dc lo hi : Z) v rest :
  forallb (fun v =>
    match directive dc with
    | Some alts => stops_at alts (pad2 v) && takes_all alts (pad2 v)
                   && fits_in alts (pad2 v)
    | None => false
    end) (zrange lo hi) = true ->
  lo <= v <= hi ->
  hd_error (Re.candidates (dir_group dc) (pad2 v ++ rest)) = Some (pad2 v, rest).
Proof.
  intros Hall Hv. unfold dir_group.
  pose proof (range_check _ lo hi Hall v Hv) as H. cbv beta in H.
  destruct (directive dc) as [alts|]; [|discriminate H].
  rewrite !andb_true_iff in H. destruct H as [[H1 H2] H3].
  apply group_first; auto.
Qed.

Lemma canonical_digits y m d :
  0 <= m <= 99 -> 0 <= d <= 99 -> forallb is_decimal (canonical y m d) = true.
Proof.
  intros Hm Hd. unfold canonical. rewrite !forallb_app.
  destruct (pad4_shape y) as [Hy _].
  destruct (number_shape true m Hm) as (_ & Hm' & _).
  destruct (number_shape true d Hd) as (_ & Hd' & _).
  unfold number in *. now rewrite Hy, Hm', Hd'.
Qed.

(** The compact form. *)
Lemma normalize_compact y m d :
  valid_date y m d -> _to_yyyymmdd (canonical y m d) = Ok (canonical y m d).
Proof.
  intro V. destruct (valid_date_bounds _ _ _ V) as (By & Bm & Bd).
  pose proof (canonical_digits y m d Bm Bd) as Hdig.
  assert (Hm : Re.match_items [dir_group 89; dir_group 109; dir_group 100]
                 (canonical y m d)
               = Some ([(89, pad4 y); (109, number true m); (100, number true d)], [])).
  { unfold canonical.
    rewrite (match_items_only _ _ _ _ _ (year_only (Some 89) y _)).
    rewrite (match_items_first (dir_group 109) [dir_group 100] _ (pad2 m) (pad2 d)
               [(100, pad2 d)] []); [reflexivity| |].
    - apply (directive_first_padded 109 1 12); [vm_compute; reflexivity|].
      destruct V as (_ & ? & _). lia.
    - apply (match_items_first (dir_group 100) [] _ (pad2 d) [] [] []);
        [|reflexivity].
      rewrite <- (app_nil_r (pad2 d)) at 1.
      apply (day_first true); [|exact I].
      destruct V as (_ & _ & ?). pose proof (days_in_month_le y m). lia. }
  unfold _to_yyyymmdd. cbv zeta. rewrite (strip_digits _ Hdig).
  replace (Re.nonempty (canonical y m d)) with true by reflexivity.
  replace (isdigit (canonical y m d)) with true
    by (symmetry; exact Hdig).
  replace (List.length (canonical y m d) =? 8)%nat with true by reflexivity.
  cbn [negb andb]. unfold strptime. rewrite pattern_compact.
  rewrite (strptime_with_ok _ _ _ y m d true true [] Hm V);
    [reflexivity|cbv; split; discriminate..].
Qed.

(** An 8-digit string is the canonical form of the date it is read as. *)
Lemma digits_canonical s :
  isdigit s = true -> List.length s = 8%nat ->
  canonical (year_of s) (month_of s) (day_of s) = s.
Proof.
  intros Hd Hl.
  destruct s as [|a [|b [|c [|d [|e [|f [|g [|h [|? ?]]]]]]]]]; try discriminate Hl.
  unfold isdigit in Hd. cbn [forallb] in Hd. unfold is_decimal in Hd.
  unfold canonical, year_of, month_of, day_of, pad4, pad2, int_of_digits,
    digit_char, digit_value.
  cbn [firstn skipn fold_left app].
  repeat f_equal; Z.div_mod_to_equations; lia.
Qed.

(** ** Equivalent representations (C4) *)



(** ** Compact dates (C6) *)

(** C6: an 8-digit string that reads as a valid calendar date is returned
    unchanged. *)
Theorem C6_compact_date_is_unchanged :
  forall s : pystr,
    isdigit s = true -> List.length s = 8%nat ->
    valid_date (year_of s) (month_of s) (day_of s) ->
    _to_yyyymmdd s = Ok s.
Proof.
  intros s Hd Hl V.
  pose proof (normalize_compact _ _ _ V) as H.
  now rewrite (digits_canonical s Hd Hl) in H.
Qed.

Lemma C6_witness : _to_yyyymmdd (py "20240229") = Ok (py "20240229").
Proof.
  apply C6_compact_date_is_unchanged; [reflexivity|reflexivity|].
  unfold valid_date. cbn. lia.
Defined.

(** ** Failures of the normalizer (C5) *)

Lemma make_datetime_error y m d H M S e :
  make_datetime y m d H M S = Raise e -> exn_cls e = ValueError.
Proof.
  unfold make_datetime.
  repeat match goal with
         | |- context [if negb ?b then _ else _] => destruct (negb b)
         end;
    intro E; inversion E; reflexivity.
Qed.

Lemma strptime_error s f e : strptime s f = Raise e -> exn_cls e = ValueError.
Proof.
  unfold strptime, strptime_with.
  destruct (pattern false f) as [re|]; [|intro E; inversion E; reflexivity].
  destruct (Re.match_items re s) as [[caps rest]|];
    [|intro E; inversion E; reflexivity].
  destruct (Re.nonempty rest); [intro E; inversion E; reflexivity|].
  apply make_datetime_error.
Qed.


(** A text with fewer than 8 digits that a format does read. *)
Lemma short_date_is_read : _to_yyyymmdd (py "2025-1-1") = Ok (py "20250101").
Proof. vm_compute. reflexivity. Qed.



(** * Further properties of the code *)

(** ** Missing credential *)



(** ** Error codes of the service *)

Lemma nonempty_true (s : pystr) : s <> [] -> Re.nonempty s = true.
Proof. destruct s; [congruence|reflexivity]. Qed.

(** When the payload carries an error code, the resolver and the fetcher
    answer [valid = False] with the message of the payload, whatever it
    is, and with no row. *)
Theorem api_error_is_passed_through :
  forall env name school_code org_code from_date to_date kv result code,
    SERVICE_KEY env <> [] ->
    lookup kv (py "RESULT") = Some (JDict result) ->
    lookup result (py "CODE") = Some code -> code <> JNull ->
    (http_get_json env (school_info_request env name) = Ok (JDict kv) ->
     get_school_info env name
     = ([school_info_request env name],
        Ok (SchoolInfo.Make false (field_of (py "MESSAGE") JNull (JDict result))
              0 [] [] [] [])))
    /\ (http_get_json env (schedule_request env school_code org_code from_date to_date)
        = Ok (JDict kv) ->
        get_school_schedule env school_code org_code from_date to_date
        = ([schedule_request env school_code org_code from_date to_date],
           Ok (Schedule.Make false (field_of (py "MESSAGE") JNull (JDict result))
                 0 [] [] [] [] [[]; []; []; []; []; []]))).
Proof.
  intros env name sc oc f t kv result code Hk Hres Hcode Hnn.
  apply nonempty_true in Hk. split; intro Hget.
  - unfold get_school_info. rewrite Hk. simpl negb. cbv iota.
    unfold http, tbind, tlift, tret. rewrite Hget.
    rewrite !py_get_dict, Hres. rewrite !py_get_dict, Hcode.
    destruct code; try congruence; reflexivity.
  - unfold get_school_schedule. rewrite Hk. simpl negb. cbv iota.
    unfold http, tbind, tlift, tret. rewrite Hget.
    rewrite !py_get_dict, Hres. rewrite !py_get_dict, Hcode.
    destruct code; try congruence; reflexivity.
Qed.

Lemma api_error_is_passed_through_witness :
  get_school_info (Sample.serve Sample.api_error Sample.api_error) Sample.school
  = ([school_info_request (Sample.serve Sample.api_error Sample.api_error)
        Sample.school],
     Ok (SchoolInfo.Make false
           (field_of (py "MESSAGE") JNull (JDict Sample.error_result))
           0 [] [] [] [])).
Proof.
  refine (proj1 (api_error_is_passed_through
            (Sample.serve Sample.api_error Sample.api_error) Sample.school
            Sample.code Sample.office Sample.from_date Sample.to_date
            [(py "RESULT", JDict Sample.error_result)] Sample.error_result
            (JStr (py "INFO-200")) _ _ _ _) _).
  - discriminate.
  - vm_compute. reflexivity.
  - vm_compute. reflexivity.
  - discriminate.
  - vm_compute. reflexivity.
Defined.

(** ** Failures outside the handlers *)

(** An exception of the transport is not caught: the resolver, the
    fetcher and the aggregator raise it, after the one request. *)
Theorem transport_error_propagates :
  forall env name school_code org_code from_date to_date grade target_org e,
    SERVICE_KEY env <> [] ->
    (http_get_json env (school_info_request env name) = Raise e ->
     get_school_info env name = ([school_info_request env name], Raise e)
     /\ get_school_timetable env name from_date to_date grade target_org
        = ([school_info_request env name], Raise e))
    /\ (http_get_json env (schedule_request env school_code org_code from_date to_date)
        = Raise e ->
        get_school_schedule env school_code org_code from_date to_date
        = ([schedule_request env school_code org_code from_date to_date], Raise e)).
Proof.
  intros env name sc oc f t grade org e Hk. apply nonempty_true in Hk.
  split; intro Hget.
  - assert (Hi : get_school_info env name = ([school_info_request env name], Raise e)).
    { unfold get_school_info. rewrite Hk. simpl negb. cbv iota.
      unfold http, tbind. now rewrite Hget. }
    split; [exact Hi|]. unfold get_school_timetable. now rewrite Hi.
  - unfold get_school_schedule. rewrite Hk. simpl negb. cbv iota.
    unfold http, tbind. now rewrite Hget.
Qed.

Lemma transport_error_propagates_witness :
  get_school_info
    {| SERVICE_KEY := Sample.key;
       http_get_json := fun _ => Raise (Exn RequestException (py "timeout")) |}
    Sample.school
  = ([school_info_request
        {| SERVICE_KEY := Sample.key;
           http_get_json := fun _ => Raise (Exn RequestException (py "timeout")) |}
        Sample.school],
     Raise (Exn RequestException (py "timeout"))).
Proof.
  refine (proj1 (proj1 (transport_error_propagates _ Sample.school Sample.code
            Sample.office Sample.from_date Sample.to_date [1; 2; 3] None _ _) _));
    [discriminate|vm_compute; reflexivity].
Defined.

(** A payload that is not a JSON object is read outside the handler:
    the resolver and the fetcher raise the [AttributeError] of [.get]. *)
Theorem non_object_payload_raises :
  forall env name school_code org_code from_date to_date data,
    SERVICE_KEY env <> [] -> is_object data = false ->
    (http_get_json env (school_info_request env name) = Ok data ->
     get_school_info env name
     = ([school_info_request env name],
        Raise (Exn AttributeError
                 (py "'" ++ type_name data ++ py "' object has no attribute 'get'"))))
    /\ (http_get_json env (schedule_request env school_code org_code from_date to_date)
        = Ok data ->
        get_school_schedule env school_code org_code from_date to_date
        = ([schedule_request env school_code org_code from_date to_date],
           Raise (Exn AttributeError
                    (py "'" ++ type_name data ++ py "' object has no attribute 'get'")))).
Proof.
  intros env name sc oc f t data Hk Hd. apply nonempty_true in Hk.
  split; intro Hget.
  - unfold get_school_info. rewrite Hk. simpl negb. cbv iota.
    unfold http, tbind, tlift. rewrite Hget.
    destruct data; try discriminate Hd; reflexivity.
  - unfold get_school_schedule. rewrite Hk. simpl negb. cbv iota.
    unfold http, tbind, tlift. rewrite Hget.
    destruct data; try discriminate Hd; reflexivity.
Qed.

Lemma non_object_payload_raises_witness :
  get_school_info (Sample.serve (JList []) (JList [])) Sample.school
  = ([school_info_request (Sample.serve (JList []) (JList [])) Sample.school],
     Raise (Exn AttributeError
              (py "'" ++ type_name (JList []) ++ py "' object has no attribute 'get'"))).
Proof.
  refine (proj1 (non_object_payload_raises (Sample.serve (JList []) (JList []))
            Sample.school Sample.code Sample.office Sample.from_date Sample.to_date
            (JList []) _ _) _);
    [discriminate|reflexivity|vm_compute; reflexivity].
Defined.

(** ** Rows of the resolver *)

Lemma py_get_object row key d :
  is_object row = true -> py_get row key d = Ok (field_of key d row).
Proof. destruct row; try discriminate. intros _. apply py_get_dict. Qed.

Lemma py_get_not_object row key d :
  is_object row = false -> py_get row key d = Raise (attribute_error row).
Proof. destruct row; try discriminate; reflexivity. Qed.

Lemma school_info_row_object row v m n a b c d :
  is_object row = true ->
  school_info_row row (SchoolInfo.Make v m n a b c d)
  = (SchoolInfo.Make v m n
       (a ++ [field_of (py "SCHUL_NM") JNull row])
       (b ++ [field_of (py "SD_SCHUL_CODE") JNull row])
       (c ++ [field_of (py "ATPT_OFCDC_SC_NM") JNull row])
       (d ++ [field_of (py "ATPT_OFCDC_SC_CODE") JNull row]), Ok tt).
Proof.
  intro H. unfold school_info_row, pbind, plift, modify.
  now rewrite !(py_get_object row _ _ H).
Qed.

Lemma school_info_row_bad row rv :
  is_object row = false ->
  school_info_row row rv = (rv, Raise (attribute_error row)).
Proof.
  intro H. unfold school_info_row, pbind, plift.
  now rewrite (py_get_not_object row _ _ H).
Qed.

Lemma school_info_loop rows :
  forall v m n a b c d,
    match first_bad_row rows with
    | None =>
        for_each rows school_info_row (SchoolInfo.Make v m n a b c d)
        = (SchoolInfo.Make v m n
             (a ++ map (field_of (py "SCHUL_NM") JNull) rows)
             (b ++ map (field_of (py "SD_SCHUL_CODE") JNull) rows)
             (c ++ map (field_of (py "ATPT_OFCDC_SC_NM") JNull) rows)
             (d ++ map (field_of (py "ATPT_OFCDC_SC_CODE") JNull) rows), Ok tt)
    | Some bad =>
        exists st, for_each rows school_info_row (SchoolInfo.Make v m n a b c d)
                   = (st, Raise (attribute_error bad))
    end.
Proof.
  unfold first_bad_row.
  induction rows as [|row rows IH]; intros v m n a b c d.
  - simpl. now rewrite !app_nil_r.
  - simpl find. rewrite for_each_cons. destruct (is_object row) eqn:Eo; simpl negb.
    + rewrite (school_info_row_object _ _ _ _ _ _ _ _ Eo).
      specialize (IH v m n (a ++ [field_of (py "SCHUL_NM") JNull row])
                    (b ++ [field_of (py "SD_SCHUL_CODE") JNull row])
                    (c ++ [field_of (py "ATPT_OFCDC_SC_NM") JNull row])
                    (d ++ [field_of (py "ATPT_OFCDC_SC_CODE") JNull row])).
      destruct (find _ rows); [exact IH|].
      rewrite IH. simpl map. now rewrite <- !app_assoc.
    + rewrite (school_info_row_bad _ _ Eo). eauto.
Qed.

(** On a payload without an error code whose last [schoolInfo] table has
    a list of rows, the resolver maps the rows, in order, to the four
    parallel lists when every row is an object; a row that is no object
    makes it answer [valid = False] with the diagnostic of that row and
    no match at all. *)
Theorem resolver_maps_rows :
  forall env name kv tables last rows,
    SERVICE_KEY env <> [] ->
    http_get_json env (school_info_request env name) = Ok (JDict kv) ->
    lookup kv (py "RESULT") = None ->
    lookup kv (py "schoolInfo") = Some (JList (tables ++ [JDict last])) ->
    lookup last (py "row") = Some (JList rows) ->
    get_school_info env name
    = ([school_info_request env name],
       Ok match first_bad_row rows with
          | None =>
              SchoolInfo.Make true (JStr (py "Success to find")) (List.length rows)
                (map (field_of (py "SCHUL_NM") JNull) rows)
                (map (field_of (py "SD_SCHUL_CODE") JNull) rows)
                (map (field_of (py "ATPT_OFCDC_SC_NM") JNull) rows)
                (map (field_of (py "ATPT_OFCDC_SC_CODE") JNull) rows)
          | Some bad =>
              SchoolInfo.Make false
                (JStr (py "Error parsing school info: " ++ exn_str (attribute_error bad)))
                0 [] [] [] []
          end).
Proof.
  intros env name kv tables last rows Hk Hget Hres Htab Hrow.
  apply nonempty_true in Hk.
  unfold get_school_info. rewrite Hk. simpl negb. cbv iota.
  unfold http, tbind, tlift, tret. rewrite Hget.
  rewrite py_get_dict, Hres. rewrite py_get_dict. simpl lookup. cbv iota beta.
  unfold school_info_rows, pbind, plift.
  rewrite py_get_dict, Htab. unfold py_last. rewrite rev_unit.
  rewrite py_get_dict, Hrow. simpl py_iter. cbv iota beta.
  pose proof (school_info_loop rows false (JStr (py "Initialized")) 0%nat [] [] [] [])
    as Hloop.
  unfold SchoolInfo.init.
  destruct (first_bad_row rows) as [bad|].
  - destruct Hloop as [st Hloop]. rewrite Hloop. reflexivity.
  - rewrite Hloop. reflexivity.
Qed.

Lemma resolver_maps_rows_witness :
  get_school_info (Sample.serve Sample.two_schools Sample.good_schedule) Sample.school
  = ([school_info_request (Sample.serve Sample.two_schools Sample.good_schedule)
        Sample.school],
     Ok match first_bad_row Sample.school_rows with
        | None =>
            SchoolInfo.Make true (JStr (py "Success to find"))
              (List.length Sample.school_rows)
              (map (field_of (py "SCHUL_NM") JNull) Sample.school_rows)
              (map (field_of (py "SD_SCHUL_CODE") JNull) Sample.school_rows)
              (map (field_of (py "ATPT_OFCDC_SC_NM") JNull) Sample.school_rows)
              (map (field_of (py "ATPT_OFCDC_SC_CODE") JNull) Sample.school_rows)
        | Some bad =>
            SchoolInfo.Make false
              (JStr (py "Error parsing school info: " ++ exn_str (attribute_error bad)))
              0 [] [] [] []
        end).
Proof.
  refine (resolver_maps_rows (Sample.serve Sample.two_schools Sample.good_schedule)
            Sample.school
            [(py "schoolInfo",
              JList [Sample.head; JDict [(py "row", JList Sample.school_rows)]])]
            [Sample.head] [(py "row", JList Sample.school_rows)] Sample.school_rows
            _ _ _ _ _).
  - discriminate.
  - vm_compute. reflexivity.
  - vm_compute. reflexivity.
  - vm_compute. reflexivity.
  - vm_compute. reflexivity.
Defined.

(** An answer of the resolver that is not valid carries no match:
    whatever the payload, its count is 0 and its four lists are empty. *)
Theorem invalid_resolution_has_no_match :
  forall env name log info,
    get_school_info env name = (log, Ok info) ->
    SchoolInfo.valid info = false ->
    SchoolInfo.school_num info = 0%nat
    /\ SchoolInfo.school_name info = [] /\ SchoolInfo.school_code info = []
    /\ SchoolInfo.org_name info = [] /\ SchoolInfo.org_code info = [].
Proof.
  unfold get_school_info. intros env name log info H V.
  destruct (negb (Re.nonempty (SERVICE_KEY env))).
  { inversion H; subst. repeat split. }
  unfold http, tbind, tlift, tret in H.
  destruct (http_get_json env _) as [data|]; [|discriminate H].
  destruct (py_get data (py "RESULT") (JDict [])) as [result|]; [|discriminate H].
  destruct (py_get result (py "CODE") JNull) as [code|]; [|discriminate H].
  destruct code;
    [|solve [destruct (py_get result (py "MESSAGE") JNull);
             inversion H; subst; repeat split]..].
  destruct (school_info_rows data (SchoolInfo.init false (JStr (py "Initialized"))))
    as [rv1 [u|e]] eqn:Er.
  - exfalso. inversion H; subst.
    unfold school_info_rows, pbind, plift, modify in Er.
    destruct (py_get data (py "schoolInfo") (JList [])) as [tables|];
      [|discriminate Er].
    destruct (py_last tables) as [last|]; [|discriminate Er].
    destruct (py_get last (py "row") (JList [])) as [row|]; [|discriminate Er].
    destruct (py_iter row) as [rows|]; [|discriminate Er].
    destruct (for_each rows school_info_row _) as [st [u'|e]]; [|discriminate Er].
    destruct (py_len row); [|discriminate Er].
    inversion Er; subst. discriminate V.
  - inversion H; subst. repeat split.
Qed.

Lemma invalid_resolution_has_no_match_witness :
  SchoolInfo.school_num
    (SchoolInfo.Make false
       (JStr (py "Error parsing school info: 'NoneType' object has no attribute 'get'"))
       0 [] [] [] []) = 0%nat.
Proof.
  refine (proj1 (invalid_resolution_has_no_match
            (Sample.serve Sample.broken_schools Sample.good_schedule) Sample.school
            _ _ _ _)).
  - vm_compute. reflexivity.
  - reflexivity.
Defined.

(** ** Rows of the fetcher *)

Lemma for_each_app {S A} (xs ys : list A) (body : A -> prog S unit) st :
  for_each (xs ++ ys) body st
  = match for_each xs body st with
    | (st', Ok _) => for_each ys body st'
    | (st', Raise e) => (st', Raise e)
    end.
Proof.
  revert st. induction xs as [|x xs IH]; intro st; [reflexivity|].
  simpl app. rewrite !for_each_cons.
  destruct (body x st) as [st' [u|e]]; [apply IH|reflexivity].
Qed.

Lemma schedule_row_object row v m n d0 d1 d2 d3 g0 g1 g2 g3 g4 g5 :
  is_object row = true ->
  schedule_row row (Schedule.Make v m n d0 d1 d2 d3 [g0; g1; g2; g3; g4; g5])
  = (Schedule.Make v m n
       (d0 ++ [field_of (py "AA_YMD") JNull row])
       (d1 ++ [field_of (py "EVENT_NM") JNull row])
       (d2 ++ [field_of (py "SBTR_DD_SC_NM") JNull row])
       (d3 ++ [field_of (py "EVENT_CNTNT") JNull row])
       [g0 ++ flags_of (py "ONE_GRADE_EVENT_YN") [row];
        g1 ++ flags_of (py "TW_GRADE_EVENT_YN") [row];
        g2 ++ flags_of (py "THREE_GRADE_EVENT_YN") [row];
        g3 ++ flags_of (py "FR_GRADE_EVENT_YN") [row];
        g4 ++ flags_of (py "FIV_GRADE_EVENT_YN") [row];
        g5 ++ flags_of (py "SIX_GRADE_EVENT_YN") [row]], Ok tt).
Proof.
  intro H. unfold schedule_row, append_flag, pbind, plift, modify.
  now rewrite !(py_get_object row _ _ H).
Qed.

Lemma schedule_row_bad row rv :
  is_object row = false -> schedule_row row rv = (rv, Raise (attribute_error row)).
Proof.
  intro H. unfold schedule_row, pbind, plift.
  now rewrite (py_get_not_object row _ _ H).
Qed.

Lemma schedule_loop_objects rows :
  forall v m n d0 d1 d2 d3 g0 g1 g2 g3 g4 g5,
    forallb is_object rows = true ->
    for_each rows schedule_row
      (Schedule.Make v m n d0 d1 d2 d3 [g0; g1; g2; g3; g4; g5])
    = (Schedule.Make v m n
         (d0 ++ map (field_of (py "AA_YMD") JNull) rows)
         (d1 ++ map (field_of (py "EVENT_NM") JNull) rows)
         (d2 ++ map (field_of (py "SBTR_DD_SC_NM") JNull) rows)
         (d3 ++ map (field_of (py "EVENT_CNTNT") JNull) rows)
         [g0 ++ flags_of (py "ONE_GRADE_EVENT_YN") rows;
          g1 ++ flags_of (py "TW_GRADE_EVENT_YN") rows;
          g2 ++ flags_of (py "THREE_GRADE_EVENT_YN") rows;
          g3 ++ flags_of (py "FR_GRADE_EVENT_YN") rows;
          g4 ++ flags_of (py "FIV_GRADE_EVENT_YN") rows;
          g5 ++ flags_of (py "SIX_GRADE_EVENT_YN") rows], Ok tt).
Proof.
  induction rows as [|row rows IH]; intros v m n d0 d1 d2 d3 g0 g1 g2 g3 g4 g5 H.
  - simpl. now rewrite !app_nil_r.
  - simpl in H. apply andb_true_iff in H. destruct H as [Ho Hr].
    rewrite for_each_cons, (schedule_row_object _ _ _ _ _ _ _ _ _ _ _ _ _ _ Ho).
    rewrite (IH _ _ _ _ _ _ _ _ _ _ _ _ _ Hr).
    unfold flags_of. simpl map. now rewrite <- !app_assoc.
Qed.

Lemma fetch_start env sc oc f t kv tables last rows :
  SERVICE_KEY env <> [] ->
  http_get_json env (schedule_request env sc oc f t) = Ok (JDict kv) ->
  lookup kv (py "RESULT") = None ->
  lookup kv (py "SchoolSchedule") = Some (JList (tables ++ [JDict last])) ->
  lookup last (py "row") = Some (JList rows) ->
  get_school_schedule env sc oc f t
  = ([schedule_request env sc oc f t],
     Ok match for_each rows schedule_row
                (Schedule.Make false (JStr (py "Initialized")) 0 [] [] [] []
                   [[]; []; []; []; []; []]) with
        | (rv, Ok _) =>
            Schedule.set_status true (JStr (py "Success to find")) (List.length rows) rv
        | (rv, Raise e) =>
            Schedule.set_status false
              (JStr (py "Error parsing school schedule: " ++ exn_str e)) 0 rv
        end).
Proof.
  intros Hk Hget Hres Htab Hrow. apply nonempty_true in Hk.
  unfold get_school_schedule. rewrite Hk. simpl negb. cbv iota.
  unfold http, tbind, tlift, tret. rewrite Hget.
  rewrite py_get_dict, Hres. rewrite py_get_dict. simpl lookup. cbv iota beta.
  unfold schedule_rows, pbind, plift, modify.
  rewrite py_get_dict, Htab. unfold py_last. rewrite rev_unit.
  rewrite py_get_dict, Hrow. simpl py_iter. cbv iota beta.
  change (Schedule.init false (JStr (py "Initialized")))
    with (Schedule.Make false (JStr (py "Initialized")) 0 [] [] [] []
            [[]; []; []; []; []; []]).
  destruct (for_each rows schedule_row _) as [rv [u|e]]; reflexivity.
Qed.

(** On a payload without an error code whose last [SchoolSchedule] table
    has a list of rows that are all objects, the fetcher answers
    [valid = True] with as many events as rows: the four event lists hold
    the fields of the rows, in order, and the flag list of each grade
    holds the flag of that grade for each row. *)
Theorem fetcher_maps_rows :
  forall env school_code org_code from_date to_date kv tables last rows,
    SERVICE_KEY env <> [] ->
    http_get_json env (schedule_request env school_code org_code from_date to_date)
    = Ok (JDict kv) ->
    lookup kv (py "RESULT") = None ->
    lookup kv (py "SchoolSchedule") = Some (JList (tables ++ [JDict last])) ->
    lookup last (py "row") = Some (JList rows) ->
    forallb is_object rows = true ->
    get_school_schedule env school_code org_code from_date to_date
    = ([schedule_request env school_code org_code from_date to_date],
       Ok (Schedule.Make true (JStr (py "Success to find")) (List.length rows)
             (map (field_of (py "AA_YMD") JNull) rows)
             (map (field_of (py "EVENT_NM") JNull) rows)
             (map (field_of (py "SBTR_DD_SC_NM") JNull) rows)
             (map (field_of (py "EVENT_CNTNT") JNull) rows)
             [flags_of (py "ONE_GRADE_EVENT_YN") rows;
              flags_of (py "TW_GRADE_EVENT_YN") rows;
              flags_of (py "THREE_GRADE_EVENT_YN") rows;
              flags_of (py "FR_GRADE_EVENT_YN") rows;
              flags_of (py "FIV_GRADE_EVENT_YN") rows;
              flags_of (py "SIX_GRADE_EVENT_YN") rows])).
Proof.
  intros env sc oc f t kv tables last rows Hk Hget Hres Htab Hrow Hobj.
  rewrite (fetch_start env sc oc f t kv tables last rows Hk Hget Hres Htab Hrow).
  now rewrite (schedule_loop_objects rows _ _ _ _ _ _ _ _ _ _ _ _ _ Hobj).
Qed.

Lemma fetcher_maps_rows_witness :
  get_school_schedule (Sample.serve Sample.two_schools Sample.good_schedule)
    Sample.code Sample.office Sample.from_date Sample.to_date
  = ([schedule_request (Sample.serve Sample.two_schools Sample.good_schedule)
        Sample.code Sample.office Sample.from_date Sample.to_date],
     Ok (Schedule.Make true (JStr (py "Success to find"))
           (List.length Sample.schedule_rows)
           (map (field_of (py "AA_YMD") JNull) Sample.schedule_rows)
           (map (field_of (py "EVENT_NM") JNull) Sample.schedule_rows)
           (map (field_of (py "SBTR_DD_SC_NM") JNull) Sample.schedule_rows)
           (map (field_of (py "EVENT_CNTNT") JNull) Sample.schedule_rows)
           [flags_of (py "ONE_GRADE_EVENT_YN") Sample.schedule_rows;
            flags_of (py "TW_GRADE_EVENT_YN") Sample.schedule_rows;
            flags_of (py "THREE_GRADE_EVENT_YN") Sample.schedule_rows;
            flags_of (py "FR_GRADE_EVENT_YN") Sample.schedule_rows;
            flags_of (py "FIV_GRADE_EVENT_YN") Sample.schedule_rows;
            flags_of (py "SIX_GRADE_EVENT_YN") Sample.schedule_rows])).
Proof.
  refine (fetcher_maps_rows (Sample.serve Sample.two_schools Sample.good_schedule)
            Sample.code Sample.office Sample.from_date Sample.to_date
            [(py "SchoolSchedule",
              JList [Sample.head; JDict [(py "row", JList Sample.schedule_rows)]])]
            [Sample.head] [(py "row", JList Sample.schedule_rows)]
            Sample.schedule_rows _ _ _ _ _ _).
  - discriminate.
  - vm_compute. reflexivity.
  - vm_compute. reflexivity.
  - vm_compute. reflexivity.
  - vm_compute. reflexivity.
  - reflexivity.
Defined.

(** When the rows before a row that is no object are all objects, the
    fetcher answers [valid = False] with the diagnostic of that row and
    [schedule_num = 0], and its lists hold the rows before it. *)
Theorem fetcher_keeps_rows_before_bad_row :
  forall env school_code org_code from_date to_date kv tables last before bad after,
    SERVICE_KEY env <> [] ->
    http_get_json env (schedule_request env school_code org_code from_date to_date)
    = Ok (JDict kv) ->
    lookup kv (py "RESULT") = None ->
    lookup kv (py "SchoolSchedule") = Some (JList (tables ++ [JDict last])) ->
    lookup last (py "row") = Some (JList (before ++ bad :: after)) ->
    forallb is_object before = true -> is_object bad = false ->
    get_school_schedule env school_code org_code from_date to_date
    = ([schedule_request env school_code org_code from_date to_date],
       Ok (Schedule.Make false
             (JStr (py "Error parsing school schedule: "
                    ++ exn_str (attribute_error bad)))
             0
             (map (field_of (py "AA_YMD") JNull) before)
             (map (field_of (py "EVENT_NM") JNull) before)
             (map (field_of (py "SBTR_DD_SC_NM") JNull) before)
             (map (field_of (py "EVENT_CNTNT") JNull) before)
             [flags_of (py "ONE_GRADE_EVENT_YN") before;
              flags_of (py "TW_GRADE_EVENT_YN") before;
              flags_of (py "THREE_GRADE_EVENT_YN") before;
              flags_of (py "FR_GRADE_EVENT_YN") before;
              flags_of (py "FIV_GRADE_EVENT_YN") before;
              flags_of (py "SIX_GRADE_EVENT_YN") before])).
Proof.
  intros env sc oc f t kv tables last before bad after
         Hk Hget Hres Htab Hrow Hobj Hbad.
  rewrite (fetch_start env sc oc f t kv tables last _ Hk Hget Hres Htab Hrow).
  rewrite for_each_app.
  rewrite (schedule_loop_objects before _ _ _ _ _ _ _ _ _ _ _ _ _ Hobj).
  rewrite for_each_cons, (schedule_row_bad _ _ Hbad). reflexivity.
Qed.

Lemma fetcher_keeps_rows_before_bad_row_witness :
  get_school_schedule (Sample.serve Sample.two_schools Sample.broken_schedule)
    Sample.code Sample.office Sample.from_date Sample.to_date
  = ([schedule_request (Sample.serve Sample.two_schools Sample.broken_schedule)
        Sample.code Sample.office Sample.from_date Sample.to_date],
     Ok (Schedule.Make false
           (JStr (py "Error parsing school schedule: "
                  ++ exn_str (attribute_error JNull)))
           0
           (map (field_of (py "AA_YMD") JNull) Sample.schedule_rows)
           (map (field_of (py "EVENT_NM") JNull) Sample.schedule_rows)
           (map (field_of (py "SBTR_DD_SC_NM") JNull) Sample.schedule_rows)
           (map (field_of (py "EVENT_CNTNT") JNull) Sample.schedule_rows)
           [flags_of (py "ONE_GRADE_EVENT_YN") Sample.schedule_rows;
            flags_of (py "TW_GRADE_EVENT_YN") Sample.schedule_rows;
            flags_of (py "THREE_GRADE_EVENT_YN") Sample.schedule_rows;
            flags_of (py "FR_GRADE_EVENT_YN") Sample.schedule_rows;
            flags_of (py "FIV_GRADE_EVENT_YN") Sample.schedule_rows;
            flags_of (py "SIX_GRADE_EVENT_YN") Sample.schedule_rows])).
Proof.
  refine (fetcher_keeps_rows_before_bad_row
            (Sample.serve Sample.two_schools Sample.broken_schedule)
            Sample.code Sample.office Sample.from_date Sample.to_date
            [(py "SchoolSchedule",
              JList [Sample.head;
                     JDict [(py "row", JList (Sample.schedule_rows ++ JNull :: []))]])]
            [Sample.head] [(py "row", JList (Sample.schedule_rows ++ JNull :: []))]
            Sample.schedule_rows JNull [] _ _ _ _ _ _ _).
  - discriminate.
  - vm_compute. reflexivity.
  - vm_compute. reflexivity.
  - vm_compute. reflexivity.
  - vm_compute. reflexivity.
  - reflexivity.
  - reflexivity.
Defined.

(** A grade flag is read as true exactly when the row holds the string
    [Y] or [y] under its key; a missing key, [null] or any other value
    gives false. *)
Theorem flag_is_true_for_Y_only :
  forall (kv : list (pystr * json)) (key : pystr),
    flag_is_Y (field_of key (JStr []) (JDict kv)) = true
    <-> (lookup kv key = Some (JStr (py "Y")) \/ lookup kv key = Some (JStr (py "y"))).
Proof.
  intros kv key. unfold field_of.
  assert (H : forall v, flag_is_Y v = true <-> v = JStr [89] \/ v = JStr [121]).
  { intro v. destruct v as [| | | |s| |]; simpl;
      try (split; [discriminate|intros [E|E]; discriminate E]).
    destruct s as [|c [|c' s]]; simpl.
    - split; [discriminate|intros [E|E]; discriminate E].
    - unfold upper_char, in_range, char_eqb. rewrite andb_true_r.
      destruct ((97 <=? c) && (c <=? 122)) eqn:E; split.
      + intro Hc. right. f_equal. f_equal. lia.
      + intros [Hc|Hc]; inversion Hc; subst; [discriminate E|reflexivity].
      + intro Hc. left. f_equal. f_equal. lia.
      + intros [Hc|Hc]; inversion Hc; subst; [reflexivity|discriminate E].
    - split; [|intros [E|E]; discriminate E].
      intro Hc. apply andb_true_iff in Hc. destruct Hc as [_ Hc]. discriminate Hc. }
  destruct (lookup kv key) as [v|].
  - rewrite H. change (py "Y") with [89]. change (py "y") with [121].
    split; intros [E|E]; try (inversion E; subst; tauto); subst; tauto.
  - split; [discriminate|intros [E|E]; discriminate E].
Qed.

(** ** The aggregator *)

Lemma emit_event_step info idx sched g i rv k :
  (idx < List.length (SchoolInfo.school_name info))%nat ->
  parallel k sched -> 0 <= g <= 5 -> (i < k)%nat ->
  emit_event info idx sched g i rv
  = (rv ++ (if nth i (nth (Z.to_nat g) (Schedule.valid_grade sched) []) false
            then [Event.Make (nth idx (SchoolInfo.school_name info) JNull)
                    (nth i (Schedule.event_date sched) JNull)
                    (nth i (Schedule.event_name sched) JNull)
                    (nth i (Schedule.event_type sched) JNull)
                    (nth i (Schedule.event_content sched) JNull) (g + 1)]
            else []), Ok tt).
Proof.
  intros Hidx (P0 & P1 & P2 & P3 & P4 & P5) Hg Hi.
  unfold emit_event, pbind, plift, modify, pret.
  assert (Hn : (Z.to_nat g < List.length (Schedule.valid_grade sched))%nat) by lia.
  pose proof (py_index_nth (Schedule.valid_grade sched) (Z.to_nat g) [] Hn) as Hf.
  rewrite Z2Nat.id in Hf by lia. rewrite Hf.
  assert (Hl : List.length (nth (Z.to_nat g) (Schedule.valid_grade sched) []) = k).
  { rewrite Forall_forall in P5. apply P5. now apply nth_In. }
  rewrite (py_index_nth _ i false) by lia.
  destruct (nth i (nth (Z.to_nat g) (Schedule.valid_grade sched) []) false).
  - rewrite (py_index_nth _ idx JNull) by lia.
    rewrite !(py_index_nth _ i JNull) by lia. reflexivity.
  - now rewrite app_nil_r.
Qed.

Lemma emit_events_inner info idx sched g k (is_ : list nat) :
  forall rv,
    (idx < List.length (SchoolInfo.school_name info))%nat ->
    parallel k sched -> 0 <= g <= 5 -> Forall (fun i => (i < k)%nat) is_ ->
    for_each is_ (emit_event info idx sched g) rv
    = (rv ++ flat_map
               (fun i =>
                  if nth i (nth (Z.to_nat g) (Schedule.valid_grade sched) []) false
                  then [Event.Make (nth idx (SchoolInfo.school_name info) JNull)
                          (nth i (Schedule.event_date sched) JNull)
                          (nth i (Schedule.event_name sched) JNull)
                          (nth i (Schedule.event_type sched) JNull)
                          (nth i (Schedule.event_content sched) JNull) (g + 1)]
                  else []) is_, Ok tt).
Proof.
  induction is_ as [|i is_ IH]; intros rv Hidx P Hg Hall.
  - simpl. now rewrite app_nil_r.
  - inversion Hall; subst. rewrite for_each_cons.
    rewrite (emit_event_step info idx sched g i rv k Hidx P Hg) by assumption.
    rewrite IH by assumption. simpl flat_map. now rewrite <- app_assoc.
Qed.

(** The two loops of the aggregator, on a schedule with parallel arrays:
    the tuples of the grade indices, grade after grade, are appended. *)
Lemma emit_events_flattened info idx sched grades :
  forall rv,
    (idx < List.length (SchoolInfo.school_name info))%nat ->
    parallel (Schedule.schedule_num sched) sched ->
    Forall (fun g => 0 <= g <= 5) grades ->
    emit_events info idx sched grades rv
    = (rv ++ flattened (nth idx (SchoolInfo.school_name info) JNull) sched grades,
       Ok tt).
Proof.
  unfold emit_events, flattened.
  induction grades as [|g grades IH]; intros rv Hidx P Hall.
  - simpl. now rewrite app_nil_r.
  - inversion Hall; subst. rewrite for_each_cons.
    rewrite (emit_events_inner info idx sched g (Schedule.schedule_num sched));
      try assumption.
    2:{ apply Forall_forall. intros i Hi. apply in_seq in Hi. lia. }
    rewrite IH by assumption. simpl flat_map. unfold events_of at 2.
    now rewrite <- app_assoc.
Qed.

Lemma target_grade_in_range grade :
  Forall (fun g => 0 <= g <= 5) (target_grade grade).
Proof.
  unfold target_grade. apply Forall_forall. intros i Hi.
  apply in_map_iff in Hi. destruct Hi as [g [<- _]]. lia.
Qed.

Lemma match_loop_skip env info f t grades org idxs :
  forall rv,
    (forall i, In i idxs -> (i < List.length (SchoolInfo.org_name info))%nat) ->
    find (acceptb org info) idxs = None ->
    match_loop env info f t grades org idxs rv = ([], Ok rv).
Proof.
  induction idxs as [|idx idxs IH]; intros rv Hin Hf; [reflexivity|].
  simpl in Hf. destruct (acceptb org info idx) eqn:Eb; [discriminate|].
  simpl match_loop.
  assert (Ha : org_accepted org info idx = Ok false).
  { unfold org_accepted, acceptb in *. destruct org as [o|]; [|discriminate].
    rewrite (py_index_nth _ _ JNull) by (apply Hin; now left). simpl. now rewrite Eb. }
  rewrite Ha. unfold tlift, tbind.
  rewrite IH; [reflexivity| |exact Hf]. intros i Hi. apply Hin. now right.
Qed.

Lemma match_loop_found env info f t grades org idxs i :
  forall rv,
    aligned (SchoolInfo.school_num info) info ->
    (forall j, In j idxs -> (j < SchoolInfo.school_num info)%nat) ->
    find (acceptb org info) idxs = Some i ->
    Forall (fun g => 0 <= g <= 5) grades ->
    match_loop env info f t grades org idxs rv
    = match get_school_schedule env (nth i (SchoolInfo.school_code info) JNull)
              (nth i (SchoolInfo.org_code info) JNull) f t with
      | (log, Ok sched) =>
          (log,
           Ok (if Schedule.valid sched && (0 <? Schedule.schedule_num sched)%nat
               then rv ++ flattened (nth i (SchoolInfo.school_name info) JNull)
                            sched grades
               else rv))
      | (log, Raise e) => (log, Raise e)
      end.
Proof.
  induction idxs as [|idx idxs IH]; intros rv A Hin Hf Hg; [discriminate|].
  pose proof A as (A0 & A1 & A2 & A3).
  assert (Hi : (idx < SchoolInfo.school_num info)%nat) by (apply Hin; now left).
  simpl in Hf. simpl match_loop.
  assert (Ha : org_accepted org info idx = Ok (acceptb org info idx)).
  { unfold org_accepted, acceptb. destruct org as [o|]; [|reflexivity].
    rewrite (py_index_nth _ _ JNull) by lia. reflexivity. }
  rewrite Ha. unfold tlift at 1. unfold tbind at 1.
  destruct (acceptb org info idx) eqn:Eb.
  - inversion Hf; subst i.
    rewrite (py_index_nth _ _ JNull) by lia.
    rewrite (py_index_nth _ _ JNull) by lia.
    unfold tlift, tbind, tret.
    destruct (get_school_schedule env _ _ f t) as [l [si|e]] eqn:Es;
      [|reflexivity].
    destruct (Schedule.valid si) eqn:Ev; simpl andb.
    + destruct (0 <? Schedule.schedule_num si)%nat;
        [|cbn [app]; now rewrite app_nil_r].
      rewrite emit_events_flattened;
        [cbn [app]; now rewrite app_nil_r|lia
        |exact (get_school_schedule_valid _ _ _ _ _ _ _ Es Ev)|exact Hg].
    + cbn [app]. now rewrite app_nil_r.
  - simpl. rewrite (IH rv A) by (auto; intros j Hj; apply Hin; now right).
    destruct (get_school_schedule env _ _ f t) as [l [si|e]]; reflexivity.
Qed.

(** The aggregator, when the resolver finds matches and the match of
    index [i] is the first that passes the filter: its result is the
    outcome of fetching that match; a valid schedule with events is
    flattened grade index after grade index (in the order of the grades
    requested) and, within a grade, in the order of the events, each tuple
    carrying the name of that match; any other answer gives the empty
    list; an exception of the fetch is raised. *)
Theorem aggregator_flattens_first_match :
  forall env name from_date to_date grade target_org log info i,
    get_school_info env name = (log, Ok info) ->
    SchoolInfo.valid info = true ->
    (i < SchoolInfo.school_num info)%nat ->
    accepts target_org info i ->
    (forall j, (j < i)%nat -> ~ accepts target_org info j) ->
    snd (get_school_timetable env name from_date to_date grade target_org)
    = match snd (get_school_schedule env
                   (nth i (SchoolInfo.school_code info) JNull)
                   (nth i (SchoolInfo.org_code info) JNull) from_date to_date) with
      | Ok sched =>
          Ok (if Schedule.valid sched && (0 <? Schedule.schedule_num sched)%nat
              then flattened (nth i (SchoolInfo.school_name info) JNull) sched
                     (target_grade grade)
              else [])
      | Raise e => Raise e
      end.
Proof.
  intros env name f t grade org log info i H V Hi Hacc Hfirst.
  destruct (get_school_info_valid _ _ _ _ H V) as (Hlog & Hk & A).
  pose proof A as (A0 & A1 & A2 & A3).
  unfold get_school_timetable. rewrite H. unfold tbind. rewrite V.
  replace (0 <? SchoolInfo.school_num info)%nat with true
    by (symmetry; apply Nat.ltb_lt; lia).
  simpl andb. cbv iota.
  assert (Hfind : find (acceptb org info) (seq 0 (SchoolInfo.school_num info)) = Some i).
  { apply (find_seq_first _ _ 0 i); [lia| |].
    - apply acceptb_accepts; [lia|exact Hacc].
    - intros j Hj. destruct (acceptb org info j) eqn:Ej; [|reflexivity].
      exfalso. apply (Hfirst j); [lia|]. apply acceptb_accepts; [lia|exact Ej]. }
  rewrite (match_loop_found env info f t (target_grade grade) org _ i [] A);
    [|intros j Hj; apply in_seq in Hj; lia|exact Hfind|apply target_grade_in_range].
  destruct (get_school_schedule env _ _ f t) as [l [si|e]]; reflexivity.
Qed.

Lemma aggregator_flattens_first_match_witness :
  snd (get_school_timetable (Sample.serve Sample.two_schools Sample.good_schedule)
         Sample.school Sample.from_date Sample.to_date [1; 2; 3]
         (Some Sample.gyeonggi))
  = match snd (get_school_schedule
                 (Sample.serve Sample.two_schools Sample.good_schedule)
                 (nth 1 (map (field_of (py "SD_SCHUL_CODE") JNull) Sample.school_rows)
                    JNull)
                 (nth 1 (map (field_of (py "ATPT_OFCDC_SC_CODE") JNull)
                           Sample.school_rows) JNull)
                 Sample.from_date Sample.to_date) with
    | Ok sched =>
        Ok (if Schedule.valid sched && (0 <? Schedule.schedule_num sched)%nat
            then flattened
                   (nth 1 (map (field_of (py "SCHUL_NM") JNull) Sample.school_rows)
                      JNull) sched (target_grade [1; 2; 3])
            else [])
    | Raise e => Raise e
    end.
Proof.
  pose (env := Sample.serve Sample.two_schools Sample.good_schedule).
  assert (H : get_school_info env Sample.school
              = ([school_info_request env Sample.school],
                 Ok (SchoolInfo.Make true (JStr (py "Success to find"))
                       (List.length Sample.school_rows)
                       (map (field_of (py "SCHUL_NM") JNull) Sample.school_rows)
                       (map (field_of (py "SD_SCHUL_CODE") JNull) Sample.school_rows)
                       (map (field_of (py "ATPT_OFCDC_SC_NM") JNull) Sample.school_rows)
                       (map (field_of (py "ATPT_OFCDC_SC_CODE") JNull)
                          Sample.school_rows))))
    by (vm_compute; reflexivity).
  refine (aggregator_flattens_first_match env Sample.school Sample.from_date
            Sample.to_date [1; 2; 3] (Some Sample.gyeonggi) _ _ 1%nat H eq_refl _ _ _).
  - simpl. lia.
  - vm_compute. reflexivity.
  - intros j Hj. assert (j = 0%nat) by lia. subst j. vm_compute. discriminate.
Defined.

(** When the resolver answers that nothing is valid or that no school
    matches, the aggregator returns the empty list and makes no request of
    its own. *)
Theorem aggregator_is_empty_without_match :
  forall env name from_date to_date grade target_org log info,
    get_school_info env name = (log, Ok info) ->
    SchoolInfo.valid info = false \/ SchoolInfo.school_num info = 0%nat ->
    get_school_timetable env name from_date to_date grade target_org = (log, Ok []).
Proof.
  intros env name f t grade org log info H Hv.
  unfold get_school_timetable. rewrite H. unfold tbind, tret.
  destruct Hv as [Hv|Hv]; rewrite Hv; rewrite ?andb_false_r; simpl;
    now rewrite app_nil_r.
Qed.

Lemma aggregator_is_empty_without_match_witness :
  get_school_timetable (Sample.serve Sample.no_row Sample.good_schedule)
    Sample.school Sample.from_date Sample.to_date [1; 2; 3] None
  = ([school_info_request (Sample.serve Sample.no_row Sample.good_schedule)
        Sample.school], Ok []).
Proof.
  refine (aggregator_is_empty_without_match
            (Sample.serve Sample.no_row Sample.good_schedule)
            Sample.school Sample.from_date Sample.to_date [1; 2; 3] None _
            (SchoolInfo.Make true (JStr (py "Success to find")) 0 [] [] [] []) _ _).
  - vm_compute. reflexivity.
  - now right.
Defined.

Lemma get_school_info_log env name :
  fst (get_school_info env name)
  = if Re.nonempty (SERVICE_KEY env) then [school_info_request env name] else [].
Proof.
  unfold get_school_info. destruct (Re.nonempty (SERVICE_KEY env)); [|reflexivity].
  simpl negb. cbv iota. unfold http, tbind, tlift, tret.
  destruct (http_get_json env _) as [data|]; [|reflexivity].
  destruct (py_get data (py "RESULT") (JDict [])) as [result|]; [|reflexivity].
  destruct (py_get result (py "CODE") JNull) as [code|]; [|reflexivity].
  destruct code;
    try (destruct (py_get result (py "MESSAGE") JNull); reflexivity).
  destruct (school_info_rows data _) as [rv1 [u|e]]; reflexivity.
Qed.

Lemma timetable_requests :
  forall env name from_date to_date grade target_org,
    fst (get_school_timetable env name from_date to_date grade target_org) = []
    \/ fst (get_school_timetable env name from_date to_date grade target_org)
       = [school_info_request env name]
    \/ exists school_code org_code,
         fst (get_school_timetable env name from_date to_date grade target_org)
         = [school_info_request env name;
            schedule_request env school_code org_code from_date to_date].
Proof.
  intros env name f t grade org.
  pose proof (get_school_info_log env name) as Hl.
  assert (Hshort : forall log : list request,
             log = (if Re.nonempty (SERVICE_KEY env)
                    then [school_info_request env name] else []) ->
             log = [] \/ log = [school_info_request env name]
             \/ exists school_code org_code,
                  log = [school_info_request env name;
                         schedule_request env school_code org_code f t]).
  { intros log ->. destruct (Re.nonempty (SERVICE_KEY env)); auto. }
  unfold get_school_timetable.
  destruct (get_school_info env name) as [log [info|e]] eqn:H; simpl in Hl.
  2:{ unfold tbind. simpl. now apply Hshort. }
  unfold tbind.
  destruct (SchoolInfo.valid info) eqn:V; simpl andb.
  2:{ simpl. rewrite app_nil_r. now apply Hshort. }
  destruct (0 <? SchoolInfo.school_num info)%nat.
  2:{ simpl. rewrite app_nil_r. now apply Hshort. }
  clear Hl Hshort.
  destruct (get_school_info_valid _ _ _ _ H V) as (Hlog & Hk & A).
  assert (Hm : fst (match_loop env info f t (target_grade grade) org
                      (seq 0 (SchoolInfo.school_num info)) [])
               = match find (acceptb org info) (seq 0 (SchoolInfo.school_num info)) with
                 | Some i => [schedule_request env
                                (nth i (SchoolInfo.school_code info) JNull)
                                (nth i (SchoolInfo.org_code info) JNull) f t]
                 | None => []
                 end).
  { apply match_loop_log; [exact Hk|exact A|].
    intros i Hi. apply in_seq in Hi. lia. }
  destruct (match_loop env info f t (target_grade grade) org _ []) as [l r].
  cbn [fst] in Hm |- *. rewrite Hm, Hlog.
  destruct (find _ _) as [i|].
  - right. right.
    exists (nth i (SchoolInfo.school_code info) JNull),
           (nth i (SchoolInfo.org_code info) JNull). reflexivity.
  - right. now left.
Qed.

(** One call of the aggregator makes no request, or the school lookup
    alone, or the school lookup followed by one schedule request over the
    dates it was given: never more, and never a schedule request first. *)
Theorem aggregator_makes_at_most_two_requests :
  forall env name from_date to_date grade target_org,
    fst (get_school_timetable env name from_date to_date grade target_org) = []
    \/ fst (get_school_timetable env name from_date to_date grade target_org)
       = [school_info_request env name]
    \/ exists school_code org_code,
         fst (get_school_timetable env name from_date to_date grade target_org)
         = [school_info_request env name;
            schedule_request env school_code org_code from_date to_date].
Proof. exact timetable_requests. Qed.

(** ** The normalizer: what it returns *)

Lemma make_datetime_valid y m d H M S dt :
  make_datetime y m d H M S = Ok dt ->
  valid_date y m d /\ dt = Datetime y m d H M S.
Proof.
  unfold make_datetime, valid_date.
  destruct ((1 <=? y) && (y <=? 9999)) eqn:Ey; [|discriminate].
  destruct ((1 <=? m) && (m <=? 12)) eqn:Em; [|discriminate].
  destruct ((1 <=? d) && (d <=? days_in_month y m)) eqn:Ed; [|discriminate].
  cbn [negb].
  destruct (negb ((0 <=? H) && (H <=? 23))); [discriminate|].
  destruct (negb ((0 <=? M) && (M <=? 59))); [discriminate|].
  destruct (negb ((0 <=? S) && (S <=? 59))); [discriminate|].
  intro E. inversion E. split; [lia|reflexivity].
Qed.

Lemma strptime_valid s f dt :
  strptime s f = Ok dt ->
  valid_date (year dt) (month dt) (day dt)
  /\ strftime_Ymd dt = canonical (year dt) (month dt) (day dt).
Proof.
  unfold strptime, strptime_with.
  destruct (pattern false f) as [re|]; [|discriminate].
  destruct (Re.match_items re s) as [[caps rest]|]; [|discriminate].
  destruct (Re.nonempty rest); [discriminate|].
  intro E. apply make_datetime_valid in E. destruct E as [V ->].
  split; [exact V|reflexivity].
Qed.

Lemma try_formats_valid s fs r :
  try_formats s fs = Some r -> exists y m d, valid_date y m d /\ r = canonical y m d.
Proof.
  induction fs as [|f fs IH]; [discriminate|]. simpl.
  destruct (strptime s f) as [dt|e] eqn:E; [|exact IH].
  intro H. inversion H; subst. apply strptime_valid in E. destruct E as [V E].
  exists (year dt), (month dt), (day dt). now split.
Qed.

Lemma compact_tail m d : 0 <= m <= 99 -> 0 <= d <= 99 -> compact_tail_ok m d = true.
Proof.
  intros Hm Hd.
  assert (H : forallb (fun m => forallb (compact_tail_ok m) (zrange 0 99))
                (zrange 0 99) = true) by (vm_compute; reflexivity).
  pose proof (range_check _ 0 99 H m Hm) as H1. cbv beta in H1.
  exact (range_check _ 0 99 H1 d Hd).
Qed.

Lemma digits_bounds s :
  isdigit s = true -> List.length s = 8%nat ->
  0 <= year_of s <= 9999 /\ 0 <= month_of s <= 99 /\ 0 <= day_of s <= 99.
Proof.
  intros Hd Hl.
  destruct s as [|a [|b [|c [|d [|e [|f [|g [|h [|? ?]]]]]]]]]; try discriminate Hl.
  unfold isdigit in Hd. cbn [forallb] in Hd. unfold is_decimal in Hd.
  unfold year_of, month_of, day_of, int_of_digits, digit_value.
  cbn [firstn skipn fold_left]. lia.
Qed.

(** The fast path and the fallback: 8 digits that [%Y%m%d] accepts are the
    canonical form of a valid date. *)
Lemma strptime_compact_valid s dt :
  isdigit s = true -> List.length s = 8%nat ->
  strptime s (py "%Y%m%d") = Ok dt ->
  valid_date (year_of s) (month_of s) (day_of s).
Proof.
  intros Hd Hl. destruct (digits_bounds s Hd Hl) as (By & Bm & Bd).
  pose proof (digits_canonical s Hd Hl) as Hc.
  pose proof (compact_tail _ _ Bm Bd) as Ht.
  set (y := year_of s) in *. set (m := month_of s) in *. set (d := day_of s) in *.
  rewrite <- Hc. clearbody y m d. clear Hc Hd Hl s.
  unfold strptime. rewrite pattern_compact. unfold strptime_with, canonical.
  rewrite (match_items_only _ _ _ _ _ (year_only (Some 89) y _)).
  unfold compact_tail_ok in Ht.
  destruct (Re.match_items [dir_group 109; dir_group 100] (pad2 m ++ pad2 d))
    as [[caps rest]|]; [|discriminate].
  cbv beta iota.
  destruct (Re.nonempty rest); [discriminate|]. simpl orb in Ht.
  cbn [Re.add_capture].
  rewrite field_here.
  rewrite !(field_skip _ 89) by lia.
  rewrite py_int_pad4 by lia.
  replace (field caps 109 1) with m by lia.
  replace (field caps 100 1) with d by lia.
  intro E. now apply make_datetime_valid in E.
Qed.

Lemma firstn_filter_digits (s : pystr) n :
  forallb is_decimal (firstn n (filter is_decimal s)) = true.
Proof.
  assert (Hf : forallb is_decimal (filter is_decimal s) = true).
  { induction s as [|c s IH]; [reflexivity|]. simpl.
    destruct (is_decimal c) eqn:E; [simpl; now rewrite E|exact IH]. }
  revert n Hf. generalize (filter is_decimal s).
  induction l as [|c l IH]; intros [|n] H; try reflexivity.
  simpl in *. apply andb_true_iff in H. destruct H as [Hc Hl].
  rewrite Hc. simpl. now apply IH.
Qed.

Lemma to_yyyymmdd_output date_str r :
  _to_yyyymmdd date_str = Ok r ->
  exists y m d, valid_date y m d /\ r = canonical y m d.
Proof.
  unfold _to_yyyymmdd. cbv zeta.
  destruct (Re.nonempty (strip date_str)); cbn [negb]; [|discriminate].
  destruct (isdigit (strip date_str) && (List.length (strip date_str) =? 8)%nat)
    eqn:Efast.
  { apply andb_true_iff in Efast. destruct Efast as [Hd Hl].
    apply Nat.eqb_eq in Hl.
    destruct (strptime (strip date_str) (py "%Y%m%d")) as [dt|e] eqn:Es;
      simpl; [|discriminate].
    intro E. inversion E; subst.
    exists (year_of (strip date_str)), (month_of (strip date_str)),
           (day_of (strip date_str)).
    split; [exact (strptime_compact_valid _ _ Hd Hl Es)|].
    symmetry. now apply digits_canonical. }
  destruct (try_formats (strip date_str) date_formats) as [r1|] eqn:E1.
  { intro E. inversion E; subst. exact (try_formats_valid _ _ _ E1). }
  destruct (try_formats (strip date_str) datetime_formats) as [r2|] eqn:E2.
  { intro E. inversion E; subst. exact (try_formats_valid _ _ _ E2). }
  destruct (Re.search korean_pattern (strip date_str)) as [caps|].
  { destruct (make_datetime _ _ _ 0 0 0) as [dt|e] eqn:Em; simpl; [|discriminate].
    intro E. inversion E; subst. apply make_datetime_valid in Em.
    destruct Em as [V ->]. eexists _, _, _. split; [exact V|reflexivity]. }
  destruct (8 <=? List.length (filter is_decimal (strip date_str)))%nat eqn:E8;
    [|discriminate].
  apply Nat.leb_le in E8.
  set (candidate := firstn 8 (filter is_decimal (strip date_str))).
  assert (Hl : List.length candidate = 8%nat)
    by (unfold candidate; rewrite length_firstn; lia).
  assert (Hd : isdigit candidate = true).
  { pose proof (firstn_filter_digits (strip date_str) 8) as Hf. fold candidate in Hf.
    unfold isdigit. destruct candidate; [discriminate Hl|exact Hf]. }
  destruct (strptime candidate (py "%Y%m%d")) as [dt|e] eqn:Es; [|discriminate].
  intro E. inversion E; subst.
  exists (year_of candidate), (month_of candidate), (day_of candidate).
  split; [exact (strptime_compact_valid _ _ Hd Hl Es)|].
  symmetry. now apply digits_canonical.
Qed.

Lemma canonical_fields y m d :
  0 <= y <= 9999 -> 0 <= m <= 99 -> 0 <= d <= 99 ->
  year_of (canonical y m d) = y /\ month_of (canonical y m d) = m
  /\ day_of (canonical y m d) = d.
Proof.
  intros Hy Hm Hd. unfold year_of, month_of, day_of, canonical.
  change (firstn 4 (pad4 y ++ pad2 m ++ pad2 d)) with (pad4 y).
  change (firstn 2 (skipn 4 (pad4 y ++ pad2 m ++ pad2 d))) with (pad2 m).
  change (skipn 6 (pad4 y ++ pad2 m ++ pad2 d)) with (pad2 d).
  now rewrite pad4_value, !pad2_value.
Qed.





(** ** The normalizer: blanks *)

Lemma lstrip_blanks a x : blanks a -> lstrip (a ++ x) = lstrip x.
Proof.
  induction 1 as [|c a Hc _ IH]; [reflexivity|]. simpl. now rewrite Hc.
Qed.

Lemma rstrip_blanks x b : blanks b -> rstrip (x ++ b) = rstrip x.
Proof.
  intro Hb. unfold rstrip. rewrite rev_app_distr.
  rewrite lstrip_blanks; [reflexivity|]. now apply Forall_rev.
Qed.

Lemma strip_blanks a s b :
  blanks a -> blanks b -> strip (a ++ s ++ b) = strip s.
Proof.
  intros Ha Hb. unfold strip. rewrite lstrip_blanks by exact Ha.
  induction s as [|c s IH].
  - simpl. rewrite <- (app_nil_r b), lstrip_blanks by exact Hb. reflexivity.
  - simpl. destruct (is_space c); [exact IH|].
    change (c :: s ++ b) with ((c :: s) ++ b). now apply rstrip_blanks.
Qed.

(** An empty string and a string of blanks are refused with the
    empty-date message. *)
Theorem blank_date_is_refused :
  forall s, blanks s ->
    _to_yyyymmdd s = Raise (value_error (py "빈 날짜 문자열입니다.")).
Proof.
  intros s Hs. unfold _to_yyyymmdd. cbv zeta.
  replace (strip s) with (@nil char); [reflexivity|].
  rewrite <- (app_nil_r s). change (s ++ []) with (s ++ [] ++ []).
  rewrite (strip_blanks s [] [] Hs); [reflexivity|constructor].
Qed.

Lemma blank_date_is_refused_witness :
  _to_yyyymmdd [32; 9; 32] = Raise (value_error (py "빈 날짜 문자열입니다.")).
Proof.
  apply blank_date_is_refused. repeat constructor.
Defined.

Lemma to_yyyymmdd_strip a b r :
  strip a = strip b -> _to_yyyymmdd a = Ok r -> _to_yyyymmdd b = Ok r.
Proof.
  intro H. unfold _to_yyyymmdd. cbv zeta. rewrite H.
  destruct (Re.nonempty (strip b)); cbn [negb]; [|discriminate].
  destruct (isdigit (strip b) && (List.length (strip b) =? 8)%nat); [tauto|].
  destruct (try_formats (strip b) date_formats); [tauto|].
  destruct (try_formats (strip b) datetime_formats); [tauto|].
  destruct (Re.search korean_pattern (strip b)); [tauto|].
  destruct (8 <=? List.length (filter is_decimal (strip b)))%nat; [|discriminate].
  destruct (strptime _ (py "%Y%m%d")); [tauto|discriminate].
Qed.

(** Blanks around a date do not matter: a text is normalized to [r]
    exactly when the text between its surrounding blanks is. *)
Theorem surrounding_blanks_are_ignored :
  forall a s b r,
    blanks a -> blanks b ->
    (_to_yyyymmdd (a ++ s ++ b) = Ok r <-> _to_yyyymmdd s = Ok r).
Proof.
  intros a s b r Ha Hb. pose proof (strip_blanks a s b Ha Hb) as H.
  split; apply to_yyyymmdd_strip; [exact H|now symmetry].
Qed.

Lemma surrounding_blanks_are_ignored_witness :
  _to_yyyymmdd ([32] ++ py "2025-11-06" ++ [10]) = Ok (py "20251106").
Proof.
  apply (surrounding_blanks_are_ignored [32] (py "2025-11-06") [10]);
    [repeat constructor|repeat constructor|vm_compute; reflexivity].
Defined.

(** ** The school level *)

Lemma contains_token token name :
  token <> [] -> is_space (hd 0 token) = false ->
  is_space (hd 0 (rev token)) = false ->
  contains token (strip name) = true <-> has_token token name.
Proof.
  intros Hne Hh Hl. rewrite contains_spec. now apply has_token_strip.
Qed.

(** The level of a school is read off its name: 초등학교 when the name
    contains it; else 중학교 when it contains that; else 고등학교 when it
    contains that; and nothing when it contains none of the three. *)
Theorem school_level_by_token :
  forall name,
    (_detect_school_level name = Some elementary <-> has_token elementary name)
    /\ (_detect_school_level name = Some middle
        <-> ~ has_token elementary name /\ has_token middle name)
    /\ (_detect_school_level name = Some high
        <-> ~ has_token elementary name /\ ~ has_token middle name
            /\ has_token high name)
    /\ (_detect_school_level name = None
        <-> ~ has_token elementary name /\ ~ has_token middle name
            /\ ~ has_token high name).
Proof.
  intro name.
  pose proof (contains_token elementary name ltac:(discriminate) eq_refl eq_refl) as He.
  pose proof (contains_token middle name ltac:(discriminate) eq_refl eq_refl) as Hm.
  pose proof (contains_token high name ltac:(discriminate) eq_refl eq_refl) as Hh.
  assert (Nem : Some elementary <> Some middle) by (vm_compute; discriminate).
  assert (Neh : Some elementary <> Some high) by (vm_compute; discriminate).
  assert (Nmh : Some middle <> Some high) by (vm_compute; discriminate).
  unfold _detect_school_level.
  destruct (contains elementary (strip name));
    destruct (contains middle (strip name));
    destruct (contains high (strip name));
    repeat split; intros; try discriminate; try congruence; try tauto;
    intuition (try discriminate; try congruence).
Qed.

(** ** Grades and dates, end to end *)

Lemma flattened_grades name sched grade ev :
  In ev (flattened name sched (target_grade grade)) ->
  exists g, In g grade /\ Event.grade ev = clamp (g - 1) 0 5 + 1.
Proof.
  unfold flattened, events_of. intro H.
  apply in_flat_map in H. destruct H as [g' [Hg' H]].
  unfold target_grade in Hg'. apply in_map_iff in Hg'. destruct Hg' as [g [<- Hg]].
  apply in_flat_map in H. destruct H as [i [_ H]].
  exists g. split; [exact Hg|].
  destruct (nth i _ false); [|contradiction].
  destruct H as [<-|[]]. simpl. now rewrite clamp_max_min.
Qed.

(** Every tuple the aggregator returns carries a grade between 1 and 6:
    the grade [clamp(g-1, 0, 5) + 1] of one of the grades [g] requested,
    whatever was requested. *)
Theorem aggregator_grades_are_in_range :
  forall env name from_date to_date grade target_org events,
    snd (get_school_timetable env name from_date to_date grade target_org) = Ok events ->
    Forall (fun ev =>
              1 <= Event.grade ev <= 6
              /\ exists g, In g grade /\ Event.grade ev = clamp (g - 1) 0 5 + 1)
           events.
Proof.
  intros env name f t grade org events H.
  assert (Hall : forall l,
            (forall ev, In ev l ->
               exists g, In g grade /\ Event.grade ev = clamp (g - 1) 0 5 + 1) ->
            Forall (fun ev =>
                      1 <= Event.grade ev <= 6
                      /\ exists g, In g grade /\ Event.grade ev = clamp (g - 1) 0 5 + 1)
                   l).
  { intros l Hl. apply Forall_forall. intros ev Hev.
    destruct (Hl ev Hev) as [g [Hg E]]. split; [|eauto].
    rewrite E, <- clamp_max_min. lia. }
  unfold get_school_timetable in H.
  destruct (get_school_info env name) as [log [info|e]] eqn:Hi;
    unfold tbind in H; [|discriminate H].
  destruct (SchoolInfo.valid info) eqn:V; simpl andb in H.
  2:{ simpl in H. inversion H. constructor. }
  destruct (0 <? SchoolInfo.school_num info)%nat.
  2:{ simpl in H. inversion H. constructor. }
  destruct (get_school_info_valid _ _ _ _ Hi V) as (_ & _ & A).
  pose proof A as (A0 & A1 & A2 & A3).
  destruct (find (acceptb org info) (seq 0 (SchoolInfo.school_num info)))
    as [i|] eqn:Ef.
  - rewrite (match_loop_found env info f t (target_grade grade) org _ i [] A) in H;
      [|intros j Hj; apply in_seq in Hj; lia|exact Ef|apply target_grade_in_range].
    destruct (get_school_schedule env _ _ f t) as [l [si|e]]; [|discriminate H].
    simpl in H. inversion H; subst.
    destruct (Schedule.valid si && (0 <? Schedule.schedule_num si)%nat);
      [|constructor].
    apply Hall. intros ev Hev. eapply flattened_grades. exact Hev.
  - rewrite match_loop_skip in H;
      [|intros j Hj; apply in_seq in Hj; lia|exact Ef].
    simpl in H. inversion H. constructor.
Qed.

Lemma aggregator_grades_are_in_range_witness :
  Forall (fun ev =>
            1 <= Event.grade ev <= 6
            /\ exists g, In g [0; 7] /\ Event.grade ev = clamp (g - 1) 0 5 + 1)
    [Event.Make (JStr Sample.school) (JStr (py "20251015")) (JStr (py "개교기념일"))
       (JStr (py "휴업일")) JNull 1].
Proof.
  apply (aggregator_grades_are_in_range
           (Sample.serve Sample.two_schools Sample.good_schedule)
           Sample.school Sample.from_date Sample.to_date [0; 7] None).
  vm_compute. reflexivity.
Defined.

(** The facade asks the service with normalized dates only: every request
    of a run is the school lookup or a schedule request whose two dates
    are the normalized forms of the dates given. *)
Theorem facade_requests_carry_normalized_dates :
  forall env name from_date to_date grade target_org,
    Forall (fun rq =>
              rq = school_info_request env name
              \/ exists school_code org_code f t,
                   _to_yyyymmdd from_date = Ok f /\ _to_yyyymmdd to_date = Ok t
                   /\ rq = schedule_request env school_code org_code f t)
           (fst (QueryKoreanSchoolTool._run env name from_date to_date grade
                   target_org)).
Proof.
  intros env name fd td grade org. unfold QueryKoreanSchoolTool._run.
  destruct (_to_yyyymmdd fd) as [f|e1] eqn:Ef; [|constructor].
  destruct (_to_yyyymmdd td) as [t|e2] eqn:Et; [|constructor].
  simpl bind. cbv iota beta.
  pose proof (timetable_requests env name f t
                (QueryKoreanSchoolTool.grades_of name grade) org) as H.
  unfold tbind.
  destruct (get_school_timetable env name f t _ org) as [log [events|e]];
    simpl in *; rewrite ?app_nil_r;
    (destruct H as [->|[->|(sc & oc & ->)]];
     [constructor
     |constructor; [now left|constructor]
     |constructor; [now left|constructor; [|constructor]];
      right; exists sc, oc, f, t; auto]).
Qed.
